(** * car-price-predictor: the listing scraper and its sink

    A shallow embedding of [web_scrapper.py] (the page loop, the per-listing
    field extraction, the conversions to typed values) and of [db.py]
    ([insert_car] with the binding of its parameters, and the two queries)
    with the schema of [sql_install.py].

    Python values are modelled as follows.
    - [str] is a list of Unicode code points ([pystr]).
    - [int] is [Z]; [float] is kept as the decimal literal it was read from
      ([pyfloat]); of the rounding to binary64 only whether a literal rounds
      to zero is modelled.
    - [None] is [None]; a tuple is a record.
    - an exception is a value of [exn]; code that may raise returns a
      [result], and the logger's records are collected in a list.
    - a page is the tree BeautifulSoup makes of it; the browser and the site
      are a state and a function on it ([driver_get]).
    - the table [cars] is the list of its rows.

    The Unicode tables outside ASCII and [repr] are taken from the runtime
    ([PyRuntime]); everything else is spelled out. *)

From Stdlib Require Import String Ascii.
From Stdlib Require Import List ZArith NArith Lia Bool QArith.
Import ListNotations.
Local Open Scope nat_scope.
Local Open Scope list_scope.

(* ================================================================= *)
(** ** Python strings *)

Definition pystr := list N.

(** An ASCII literal as a Python string. *)
Definition str (s : string) : pystr := map N_of_ascii (list_ascii_of_string s).

Definition chr_eqb (a b : N) : bool := N.eqb a b.

Fixpoint str_eqb (a b : pystr) : bool :=
  match a, b with
  | [], [] => true
  | x :: a', y :: b' => chr_eqb x y && str_eqb a' b'
  | _, _ => false
  end.

(** Code points of the characters the source names. *)
Definition SPACE : N := 32%N.
Definition NEWLINE : N := 10%N.
Definition COMMA : N := 44%N.
Definition UNDERSCORE : N := 95%N.

(** The literal of web_scrapper.py line 79, as the file holds it: the three
    code points U+00E2 U+201A U+00AC. *)
Definition price_currency_literal : pystr := [226%N; 8218%N; 172%N].

(** The euro sign, U+20AC. *)
Definition EURO : N := 8364%N.

Definition is_ascii (c : N) : bool := N.ltb c 128.

(** [Py_UNICODE_ISSPACE]: the characters [str.strip()] removes. *)
Definition py_isspace (c : N) : bool :=
  (N.leb 9 c && N.leb c 13) || (N.leb 28 c && N.leb c 32)
  || N.eqb c 133 || N.eqb c 160 || N.eqb c 5760
  || (N.leb 8192 c && N.leb c 8202)
  || N.eqb c 8232 || N.eqb c 8233 || N.eqb c 8239 || N.eqb c 8287
  || N.eqb c 12288.

(** [Py_ISSPACE]: the C-locale white space that [int()] and [float()] skip
    around an ASCII literal. *)
Definition c_isspace (c : N) : bool :=
  (N.leb 9 c && N.leb c 13) || N.eqb c 32.

Definition is_digit (c : N) : bool := N.leb 48 c && N.leb c 57.

Fixpoint lstrip_by (p : N -> bool) (s : pystr) : pystr :=
  match s with
  | [] => []
  | c :: r => if p c then lstrip_by p r else s
  end.

Definition rstrip_by (p : N -> bool) (s : pystr) : pystr :=
  rev (lstrip_by p (rev s)).

(** [s.strip()] *)
Definition strip (s : pystr) : pystr := rstrip_by py_isspace (lstrip_by py_isspace s).

Fixpoint starts_with (pre s : pystr) : bool :=
  match pre, s with
  | [], _ => true
  | p :: pre', c :: s' => chr_eqb p c && starts_with pre' s'
  | _ :: _, [] => false
  end.

(** [sub in s] *)
Fixpoint contains (sub s : pystr) : bool :=
  starts_with sub s ||
  match s with
  | [] => false
  | _ :: r => contains sub r
  end.

(** [s.replace(old, new)], scanning left to right; [skip] counts the
    characters of a match still to be dropped. *)
Fixpoint replace_go (old new : pystr) (skip : nat) (s : pystr) : pystr :=
  match s with
  | [] => []
  | c :: r =>
      match skip with
      | S k => replace_go old new k r
      | O =>
          if starts_with old s
          then new ++ replace_go old new (length old - 1) r
          else c :: replace_go old new 0 r
      end
  end.

Definition replace (old new s : pystr) : pystr :=
  match old with
  | [] => new ++ flat_map (fun c => c :: new) s
  | _ :: _ => replace_go old new 0 s
  end.

(** [s.split(sep, maxsplit)]: the piece being read and the pieces after it.
    [maxsplit = None] is Python's default of -1 (no limit). *)
Fixpoint split_go (sep : pystr) (maxsplit : option nat) (skip : nat) (s : pystr)
  : pystr * list pystr :=
  match s with
  | [] => ([], [])
  | c :: r =>
      match skip with
      | S k => split_go sep maxsplit k r
      | O =>
          let may_split := match maxsplit with Some O => false | _ => true end in
          if may_split && starts_with sep s
          then
            let '(p, ps) := split_go sep (option_map pred maxsplit) (length sep - 1) r in
            ([], p :: ps)
          else
            let '(p, ps) := split_go sep maxsplit 0 r in
            (c :: p, ps)
      end
  end.

Definition split (sep : pystr) (maxsplit : option nat) (s : pystr) : list pystr :=
  let '(p, ps) := split_go sep maxsplit 0 s in p :: ps.

Definition ascii_lower (c : N) : N :=
  if N.leb 65 c && N.leb c 90 then (c + 32)%N else c.

(** Decimal digits of a natural number, most significant first. *)
Fixpoint uint_digits (u : Decimal.uint) : pystr :=
  match u with
  | Decimal.Nil => []
  | Decimal.D0 r => 48%N :: uint_digits r
  | Decimal.D1 r => 49%N :: uint_digits r
  | Decimal.D2 r => 50%N :: uint_digits r
  | Decimal.D3 r => 51%N :: uint_digits r
  | Decimal.D4 r => 52%N :: uint_digits r
  | Decimal.D5 r => 53%N :: uint_digits r
  | Decimal.D6 r => 54%N :: uint_digits r
  | Decimal.D7 r => 55%N :: uint_digits r
  | Decimal.D8 r => 56%N :: uint_digits r
  | Decimal.D9 r => 57%N :: uint_digits r
  end.

(** [str(n)] for an [int]. *)
Definition str_of_int (n : Z) : pystr :=
  match n with
  | Z0 => [48%N]
  | Zpos p => uint_digits (Pos.to_uint p)
  | Zneg p => 45%N :: uint_digits (Pos.to_uint p)
  end.

(* ================================================================= *)
(** ** The interpreter's tables

    What the embedding takes from the Python runtime without spelling it
    out: the Unicode database outside ASCII and [repr]. *)

Class PyRuntime := {
  (** [Py_UNICODE_TODECIMAL] on a code point from 127 up: the value of a
      decimal digit (general category Nd), if it is one. *)
  unicode_todecimal : N -> option N;
  (** [str.lower()] of a string that is not pure ASCII. *)
  unicode_lower : pystr -> pystr;
  (** [repr(s)] of a string. *)
  py_repr : pystr -> pystr
}.

(** A runtime with nothing outside ASCII: no further decimal digits, no
    further cased letters, [repr] as plain quoting. On ASCII input the
    embedding never consults the first two fields. *)
Definition ascii_runtime : PyRuntime :=
  {| unicode_todecimal := fun _ => None;
     unicode_lower := fun s => s;
     py_repr := fun s => str "'" ++ s ++ str "'" |}.

(* ================================================================= *)
(** ** Exceptions and results *)

Inductive exn : Type :=
| ValueError (msg : pystr)
| IndexError (msg : pystr)
| KeyError (msg : pystr)
| OverflowError (msg : pystr)
| UnicodeEncodeError (msg : pystr)
| OperationalError (msg : pystr).

(** [str(e)] *)
Definition exn_str (e : exn) : pystr :=
  match e with
  | ValueError m | IndexError m | KeyError m
  | OverflowError m | UnicodeEncodeError m | OperationalError m => m
  end.

Inductive result (A : Type) : Type :=
| Ok (a : A)
| Raise (e : exn).
Arguments Ok {A} a.
Arguments Raise {A} e.

Definition and_then {A B} (r : result A) (k : A -> result B) : result B :=
  match r with
  | Ok a => k a
  | Raise e => Raise e
  end.

(** [l[i]] for a list and a non-negative index. *)
Definition getitem {A} (l : list A) (i : nat) : result A :=
  match nth_error l i with
  | Some x => Ok x
  | None => Raise (IndexError (str "list index out of range"))
  end.

Section Conversions.
Context {RT : PyRuntime}.

(** [s.lower()]: CPython lowers a pure-ASCII string byte by byte and sends
    any other string through the Unicode case tables. *)
Definition lower (s : pystr) : pystr :=
  if forallb is_ascii s then map ascii_lower s else unicode_lower s.

(** [_PyUnicode_TransformDecimalAndSpaceToASCII]: a pure-ASCII string is
    returned as it is; otherwise white space becomes a space, a decimal digit
    its ASCII digit, and the first other non-ASCII character becomes ['?'] and
    ends the text. *)
Fixpoint transform_chars (s : pystr) : pystr :=
  match s with
  | [] => []
  | c :: r =>
      if N.ltb c 127 then c :: transform_chars r
      else if py_isspace c then SPACE :: transform_chars r
      else match unicode_todecimal c with
           | Some d => (48 + d)%N :: transform_chars r
           | None => [63%N]
           end
  end.

Definition transform_decimal_and_space (s : pystr) : pystr :=
  if forallb is_ascii s then s else transform_chars s.

(** The digits of an integer literal, underscores allowed singly between
    digits: the digit values, or [None] for a misplaced underscore or a
    character that is no digit. [prev_us] says that the previous character
    was an underscore. *)
Fixpoint scan_digits (prev_us : bool) (s : pystr) : option (list N) :=
  match s with
  | [] => if prev_us then None else Some []
  | c :: r =>
      if N.eqb c UNDERSCORE then
        if prev_us then None else scan_digits true r
      else if is_digit c then
        match scan_digits false r with
        | Some ds => Some ((c - 48)%N :: ds)
        | None => None
        end
      else None
  end.

Definition digits_value (ds : list N) : Z :=
  fold_left (fun acc d => (acc * 10 + Z.of_N d)%Z) ds 0%Z.

(** [sys.int_max_str_digits], the default. *)
Definition int_max_str_digits : nat := 4300.

Definition invalid_literal (s : pystr) : exn :=
  ValueError (str "invalid literal for int() with base 10: " ++ py_repr s).

(** An optional sign: is it a minus, and the text after it. *)
Definition take_sign (s : pystr) : bool * pystr :=
  match s with
  | 45%N :: r => (true, r)
  | 43%N :: r => (false, r)
  | _ => (false, s)
  end.

(** [PyLong_FromString] in base 10 on the text between the white space. *)
Definition long_from_string (orig body : pystr) : result Z :=
  let '(neg, ds) := take_sign body in
  match ds with
  | [] => Raise (invalid_literal orig)
  | c :: _ =>
      if N.eqb c UNDERSCORE then Raise (invalid_literal orig)
      else
        match scan_digits false ds with
        | None => Raise (invalid_literal orig)
        | Some vs =>
            if Nat.ltb int_max_str_digits (length vs) then
              Raise (ValueError
                (str "Exceeds the limit (4300 digits) for integer string conversion: value has "
                 ++ str_of_int (Z.of_nat (length vs))
                 ++ str " digits; use sys.set_int_max_str_digits() to increase the limit"))
            else
              let v := digits_value vs in
              Ok (if neg then (- v)%Z else v)
        end
  end.

(** [int(s)] for a [str]. *)
Definition py_int (s : pystr) : result Z :=
  let a := transform_decimal_and_space s in
  long_from_string s (rstrip_by c_isspace (lstrip_by c_isspace a)).

(** *** float *)

(** A Python [float] as the literal it was read from: [FDec neg m e] is
    (-1)^neg * m * 10^e, before the rounding to binary64 (and before
    CPython's clamping of an exponent beyond 1100000000, which rounds to
    zero or infinity all the same). *)
Inductive pyfloat : Type :=
| FDec (neg : bool) (mantissa : Z) (exp10 : Z)
| FInf (neg : bool)
| FNan.

Fixpoint span_digits (s : pystr) : list N * pystr :=
  match s with
  | [] => ([], [])
  | c :: r =>
      if is_digit c
      then let '(ds, rest) := span_digits r in ((c - 48)%N :: ds, rest)
      else ([], s)
  end.

(** What may follow the mantissa: nothing, or [e] or [E], an optional sign
    and at least one digit, up to the end of the text. *)
Definition parse_exponent (s : pystr) : option Z :=
  match s with
  | [] => Some 0%Z
  | c :: r =>
      if N.eqb c 101 || N.eqb c 69 then
        let '(eneg, r1) := take_sign r in
        match span_digits r1 with
        | (d :: ds, []) =>
            let e := digits_value (d :: ds) in
            Some (if eneg then (- e)%Z else e)
        | _ => None
        end
      else None
  end.

(** [MAX_DIGITS] of CPython's dtoa.c. *)
Definition MAX_DIGITS : N := 1000000000%N.

(** [_Py_dg_strtod], required to read the whole text. *)
Definition parse_decimal (s : pystr) : option pyfloat :=
  let '(neg, r) := take_sign s in
  let '(ip, r1) := span_digits r in
  let '(fp, r2) :=
    match r1 with
    | 46%N :: r' => span_digits r'
    | _ => ([], r1)
    end in
  match ip ++ fp with
  | [] => None
  | _ :: _ =>
      let significant := lstrip_by (N.eqb 0) (ip ++ fp) in
      if N.ltb MAX_DIGITS (N.of_nat (length significant))
         || N.ltb MAX_DIGITS (N.of_nat (length fp))
      then None
      else
        match parse_exponent r2 with
        | Some e => Some (FDec neg (digits_value (ip ++ fp)) (e - Z.of_nat (length fp))%Z)
        | None => None
        end
  end.

(** [_Py_parse_inf_or_nan], required to read the whole text. *)
Definition parse_inf_or_nan (s : pystr) : option pyfloat :=
  let '(neg, r) := take_sign s in
  let w := map ascii_lower r in
  if str_eqb w (str "inf") || str_eqb w (str "infinity") then Some (FInf neg)
  else if str_eqb w (str "nan") then Some FNan
  else None.

(** [_Py_string_to_number_with_underscores]: an underscore may stand only
    between two digits; the text without its underscores. *)
Fixpoint remove_underscores (prev : N) (s : pystr) : option pystr :=
  match s with
  | [] => if N.eqb prev UNDERSCORE then None else Some []
  | c :: r =>
      if N.eqb c UNDERSCORE then
        if is_digit prev then remove_underscores c r else None
      else if N.eqb prev UNDERSCORE && negb (is_digit c) then None
      else match remove_underscores c r with
           | Some t => Some (c :: t)
           | None => None
           end
  end.

Definition could_not_convert (s : pystr) : exn :=
  ValueError (str "could not convert string to float: " ++ py_repr s).

(** [float(s)] for a [str]. *)
Definition py_float (s : pystr) : result pyfloat :=
  let a := transform_decimal_and_space s in
  let cleaned :=
    if existsb (N.eqb UNDERSCORE) a then remove_underscores 0%N a else Some a in
  match cleaned with
  | None => Raise (could_not_convert s)
  | Some t =>
      let body := rstrip_by c_isspace (lstrip_by c_isspace t) in
      match parse_decimal body with
      | Some f => Ok f
      | None =>
          match parse_inf_or_nan body with
          | Some f => Ok f
          | None => Raise (could_not_convert s)
          end
      end
  end.

End Conversions.

(** The number a finite [pyfloat] literal denotes. *)
Definition float_value (f : pyfloat) : option Q :=
  match f with
  | FDec neg m e =>
      let a := inject_Z (if neg then (- m)%Z else m) in
      Some (match e with
            | Zneg p => Qdiv a (inject_Z (Z.pow 10 (Zpos p)))
            | _ => Qmult a (inject_Z (Z.pow 10 e))
            end)
  | _ => None
  end.

(* ================================================================= *)
(** ** Logging and the extraction monad *)

Inductive level : Type := INFO | WARNING | ERROR.

Record LogRecord : Type := { levelname : level; message : pystr }.

(** A computation that may log and may raise. Records are kept oldest
    first. *)
Definition M (A : Type) : Type := list LogRecord -> result A * list LogRecord.

Definition ret {A} (a : A) : M A := fun l => (Ok a, l).

Definition bind {A B} (c : M A) (k : A -> M B) : M B :=
  fun l =>
    match c l with
    | (Ok a, l') => k a l'
    | (Raise e, l') => (Raise e, l')
    end.

Definition lift {A} (r : result A) : M A := fun l => (r, l).

Definition logger (lv : level) (msg : pystr) : M unit :=
  fun l => (Ok tt, l ++ [{| levelname := lv; message := msg |}]).

(** [try: body   except ValueError: handler] *)
Definition try_except_ValueError {A} (body handler : M A) : M A :=
  fun l =>
    match body l with
    | (Raise (ValueError _), l') => handler l'
    | r => r
    end.

Declare Scope py_scope.
Delimit Scope py_scope with py.
Notation "x <- c ;; k" := (bind c (fun x => k))
  (at level 61, c at next level, right associativity) : py_scope.
Notation "c ;;; k" := (bind c (fun _ => k))
  (at level 61, right associativity) : py_scope.

(* ================================================================= *)
(** ** The parsed markup (BeautifulSoup)

    A tag with its attributes as the parser read them and its children in
    document order; a text node. The parser (html.parser) is not modelled:
    a page arrives as its tree. *)

#[warnings="-register-all"]
Inductive Node : Type :=
| NavigableString (text : pystr)
| Tag (name : pystr) (attrs : list (pystr * pystr)) (contents : list Node).

(** [tag.descendants]: every node below the tag, in document order. *)
Fixpoint descendants (n : Node) : list Node :=
  match n with
  | NavigableString _ => []
  | Tag _ _ cs => flat_map (fun c => c :: descendants c) cs
  end.

Fixpoint lookup (key : pystr) (attrs : list (pystr * pystr)) : option pystr :=
  match attrs with
  | [] => None
  | (k, v) :: r => if str_eqb key k then Some v else lookup key r
  end.

(** The values of a multi-valued attribute (class): the runs of characters
    that are not white space. [cur] is the run being read. *)
Fixpoint tokens_go (cur : pystr) (s : pystr) : list pystr :=
  match s with
  | [] => match cur with [] => [] | _ => [cur] end
  | c :: r =>
      if py_isspace c
      then match cur with [] => tokens_go [] r | _ => cur :: tokens_go [] r end
      else tokens_go (cur ++ [c]) r
  end.

Definition tokens (s : pystr) : list pystr := tokens_go [] s.

(** [' '.join(l)] *)
Fixpoint join_space (l : list pystr) : pystr :=
  match l with
  | [] => []
  | [x] => x
  | x :: r => x ++ SPACE :: join_space r
  end.

(** Does the tag carry the class? One of its class values is the class, or
    the values joined by spaces are. *)
Definition has_class (cls : pystr) (attrs : list (pystr * pystr)) : bool :=
  match lookup (str "class") attrs with
  | Some v =>
      let vs := tokens v in
      existsb (str_eqb cls) vs || str_eqb (join_space vs) cls
  | None => false
  end.

(** The filter of [find] and [find_all]: a tag of that name and, when a
    class is asked for, of that class. *)
Definition matches (name : pystr) (cls : option pystr) (n : Node) : bool :=
  match n with
  | NavigableString _ => false
  | Tag nm attrs _ =>
      str_eqb name nm &&
      match cls with
      | Some c => has_class c attrs
      | None => true
      end
  end.

(** [tag.find_all(name, class_=cls)] *)
Definition soup_find_all (name : pystr) (cls : option pystr) (n : Node) : list Node :=
  filter (matches name cls) (descendants n).

(** [tag.find(name, class_=cls)]: the first match, or [None]. *)
Definition soup_find (name : pystr) (cls : option pystr) (n : Node) : option Node :=
  List.find (matches name cls) (descendants n).

(** The text nodes below a tag, in document order. *)
Definition all_strings (n : Node) : list pystr :=
  flat_map (fun d => match d with NavigableString t => [t] | Tag _ _ _ => [] end)
           (descendants n).

(** [tag.text] *)
Definition text (n : Node) : pystr := concat (all_strings n).

Definition nonempty (s : pystr) : bool :=
  match s with [] => false | _ :: _ => true end.

(** [tag.get_text(strip=True)]: every text node stripped, the empty ones
    dropped, the rest joined. *)
Definition get_text_strip (n : Node) : pystr :=
  concat (filter nonempty (map strip (all_strings n))).

(** [tag.has_attr(key)] *)
Definition has_attr (n : Node) (key : pystr) : bool :=
  match n with
  | Tag _ attrs _ => match lookup key attrs with Some _ => true | None => false end
  | NavigableString _ => false
  end.

(* ================================================================= *)
(** ** The record and the table (db.py, sql_install.py) *)

(** [car_data], the tuple handed to [insert_car], and a row of the table
    [cars] without its [id]. [None] is SQL NULL. *)
Record car : Type := {
  ad_id : option pystr;
  make : option pystr;
  model : option pystr;
  price : option Z;
  year : option Z;
  body_type : option pystr;
  fuel : option pystr;
  gearbox : option pystr;
  engine_volume : option pyfloat;
  engine_power : option Z;
  mileage : option Z
}.

(** The table [cars]: its rows in the order of their [id] (the AUTOINCREMENT
    key, which grows with every stored row). *)
Definition Table : Type := list car.

(** [setup_database]: CREATE TABLE IF NOT EXISTS. The database file holds
    the table or does not yet. *)
Definition setup_database (file : option Table) : Table :=
  match file with
  | Some t => t
  | None => []
  end.

Definition has_ad_id (k : pystr) (row : car) : bool :=
  match ad_id row with
  | Some k' => str_eqb k k'
  | None => false
  end.

(** *** The binding of the parameters (the [sqlite3] module)

    [cur.execute(sql, car)] binds the eleven values in their order before
    the statement runs, and the first value that cannot be bound raises. *)

Definition INT64_MIN : Z := (-9223372036854775808)%Z.
Definition INT64_MAX : Z := 9223372036854775807%Z.

(** The code points U+D800 to U+DFFF, which UTF-8 does not encode. *)
Definition is_surrogate (c : N) : bool := N.leb 55296 c && N.leb c 57343.

Definition hex_digit (n : N) : N := if N.ltb n 10 then (48 + n)%N else (87 + n)%N.

(** The four lower-case hexadecimal digits of a code point below U+10000. *)
Definition hex4 (c : N) : pystr :=
  [hex_digit (c / 4096 mod 16); hex_digit (c / 256 mod 16);
   hex_digit (c / 16 mod 16); hex_digit (c mod 16)]%N.

Fixpoint span_surrogates (s : pystr) : list N :=
  match s with
  | c :: r => if is_surrogate c then c :: span_surrogates r else []
  | [] => []
  end.

(** The first run of surrogates of a text and the position it starts at. *)
Fixpoint find_surrogates (pos : nat) (s : pystr) : option (nat * list N) :=
  match s with
  | [] => None
  | c :: r =>
      if is_surrogate c then Some (pos, c :: span_surrogates r)
      else find_surrogates (S pos) r
  end.

(** The [UnicodeEncodeError] of the strict UTF-8 encoder, if the text has a
    surrogate. *)
Definition utf8_encode_error (s : pystr) : option exn :=
  match find_surrogates 0 s with
  | None => None
  | Some (start, [c]) =>
      Some (UnicodeEncodeError
              (str "'utf-8' codec can't encode character '\u" ++ hex4 c
               ++ str "' in position " ++ str_of_int (Z.of_nat start)
               ++ str ": surrogates not allowed"))
  | Some (start, run) =>
      Some (UnicodeEncodeError
              (str "'utf-8' codec can't encode characters in position "
               ++ str_of_int (Z.of_nat start) ++ str "-"
               ++ str_of_int (Z.of_nat (start + length run - 1))
               ++ str ": surrogates not allowed"))
  end.

(** A [str] or [None] for a TEXT column. *)
Definition bind_text (v : option pystr) : result (option pystr) :=
  match v with
  | None => Ok None
  | Some s =>
      match utf8_encode_error s with
      | Some e => Raise e
      | None => Ok (Some s)
      end
  end.

(** An [int] or [None] for an INTEGER column: SQLite integers have 64
    bits. *)
Definition bind_int (v : option Z) : result (option Z) :=
  match v with
  | None => Ok None
  | Some z =>
      if Z.leb INT64_MIN z && Z.leb z INT64_MAX then Ok (Some z)
      else Raise (OverflowError (str "Python int too large to convert to SQLite INTEGER"))
  end.

(** Whether the literal m * 10^e (m not negative) rounds to zero in
    binary64: it does up to 2^-1075, half the least positive number, the tie
    going to the even side. *)
Definition rounds_to_zero (m e : Z) : bool :=
  match e with
  | Zneg p => Z.leb (m * 2 ^ 1075) (10 ^ Zpos p)
  | _ => Z.eqb m 0
  end.

(** What a REAL column keeps of a [float]: NULL for a NaN, and a zero
    without its sign (a REAL that is a whole number is stored as an
    integer). *)
Definition sqlite_real (f : pyfloat) : option pyfloat :=
  match f with
  | FNan => None
  | FInf neg => Some (FInf neg)
  | FDec neg m e => Some (FDec (neg && negb (rounds_to_zero m e)) m e)
  end.

(** A [float] or [None] for a REAL column. *)
Definition bind_real (v : option pyfloat) : result (option pyfloat) :=
  Ok (match v with
      | Some f => sqlite_real f
      | None => None
      end).

(** The eleven parameters in the order of the tuple; the row that the
    statement is run with. *)
Definition bind_parameters (c : car) : result car :=
  and_then (bind_text (ad_id c)) (fun v_ad_id =>
  and_then (bind_text (make c)) (fun v_make =>
  and_then (bind_text (model c)) (fun v_model =>
  and_then (bind_int (price c)) (fun v_price =>
  and_then (bind_int (year c)) (fun v_year =>
  and_then (bind_text (body_type c)) (fun v_body_type =>
  and_then (bind_text (fuel c)) (fun v_fuel =>
  and_then (bind_text (gearbox c)) (fun v_gearbox =>
  and_then (bind_real (engine_volume c)) (fun v_engine_volume =>
  and_then (bind_int (engine_power c)) (fun v_engine_power =>
  and_then (bind_int (mileage c)) (fun v_mileage =>
  Ok {| ad_id := v_ad_id; make := v_make; model := v_model; price := v_price;
        year := v_year; body_type := v_body_type; fuel := v_fuel;
        gearbox := v_gearbox; engine_volume := v_engine_volume;
        engine_power := v_engine_power; mileage := v_mileage |}))))))))))).

(** INSERT OR IGNORE into a table whose column [ad_id] is UNIQUE: a row whose
    [ad_id] is already stored is ignored; NULL never conflicts. *)
Definition insert_or_ignore (row : car) (t : Table) : Table :=
  match ad_id row with
  | Some k => if existsb (has_ad_id k) t then t else t ++ [row]
  | None => t ++ [row]
  end.

(** [insert_car]: what the call returns or raises, and the table afterwards.
    A value that cannot be bound raises before the statement runs and the
    table is left as it is. The table is the one [setup_database] has
    created, and texts are taken to stay below SQLite's length limit (10^9
    bytes a row). *)
Definition insert_car (c : car) (t : Table) : result unit * Table :=
  match bind_parameters c with
  | Ok row => (Ok tt, insert_or_ignore row t)
  | Raise e => (Raise e, t)
  end.

(** A record as SQLite keeps it: every value as it is, but the engine
    volume as a REAL column keeps it. *)
Definition stored_row (c : car) : car :=
  {| ad_id := ad_id c; make := make c; model := model c; price := price c;
     year := year c; body_type := body_type c; fuel := fuel c; gearbox := gearbox c;
     engine_volume := match engine_volume c with
                      | Some f => sqlite_real f
                      | None => None
                      end;
     engine_power := engine_power c; mileage := mileage c |}.

(** The rows stored under an identity. *)
Definition rows_with (k : pystr) (t : Table) : list car := filter (has_ad_id k) t.

(** The UNIQUE constraint on [ad_id]. *)
Definition unique_ad_id (t : Table) : Prop :=
  forall k, length (rows_with k t) <= 1.

(* ================================================================= *)
(** ** The messages the scraper logs (web_scrapper.py) *)

Definition warn_record (msg : pystr) : LogRecord :=
  {| levelname := WARNING; message := msg |}.

(** Line 60. *)
Definition no_identity_warning : pystr :=
  str "Could not find 'ad_id' for a listing. Skipping this listing.".

(** Line 66. *)
Definition no_title_warning (id : pystr) : pystr :=
  str "Title element not found for ad_id: " ++ id ++ str ". Skipping.".

(** Line 83. *)
Definition price_warning (id price_cleaned : pystr) : pystr :=
  str "Could not convert price '" ++ price_cleaned ++ str "' to int for ad_id: " ++ id.

(** Line 97. *)
Definition year_warning (id year_text : pystr) : pystr :=
  str "Could not convert year '" ++ year_text ++ str "' to int for ad_id: " ++ id.

(** Line 126. *)
Definition volume_warning (id volume_cleaned : pystr) : pystr :=
  str "Could not convert engine volume '" ++ volume_cleaned
  ++ str "' to float for ad_id: " ++ id.

(** Line 133. *)
Definition power_warning (id power_cleaned : pystr) : pystr :=
  str "Could not convert engine power '" ++ power_cleaned
  ++ str "' to int for ad_id: " ++ id.

(** Line 136. *)
Definition engine_comma_warning (id engine_info : pystr) : pystr :=
  str "Engine info format missing comma for '" ++ engine_info
  ++ str "' for ad_id: " ++ id.

(** Line 144. *)
Definition mileage_warning (id mileage_cleaned : pystr) : pystr :=
  str "Could not convert mileage '" ++ mileage_cleaned
  ++ str "' to int for ad_id: " ++ id.

(** Line 147. *)
Definition mileage_unit_warning (id mileage_text : pystr) : pystr :=
  str "Mileage format not recognized or 'km' not found for '"
  ++ mileage_text ++ str "' for ad_id: " ++ id.

(** Line 151. *)
Definition inserted_message (id : pystr) : pystr :=
  str "Successfully inserted car listing (ID: " ++ id ++ str ") into DB.".

(** Line 153. *)
Definition unexpected_error_message (e : exn) : pystr :=
  str "An unexpected error occurred while processing a listing: " ++ exn_str e
  ++ str ". Skipping this listing. Ad ID might be missing or unidentifiable.".

(** Line 34. *)
Definition page_url (brand : pystr) (page : Z) : pystr :=
  str "https://autoplius.lt/skelbimai/naudoti-automobiliai/" ++ brand
  ++ str "?category_id=2&page_nr=" ++ str_of_int page.

(** Line 32. *)
Definition brand_message (brand : pystr) : pystr :=
  str "Starting data collection for brand: " ++ brand.

(** Line 35. *)
Definition loading_message (brand : pystr) (page : Z) : pystr :=
  str "Loading page: " ++ page_url brand page.

(** Line 41. *)
Definition load_failed_message (brand : pystr) (page : Z) (e : pystr) : pystr :=
  str "Failed to load page " ++ page_url brand page ++ str ": " ++ e.

(** Line 48. *)
Definition no_listings_message (brand : pystr) (page : Z) : pystr :=
  str "No listings found on page " ++ str_of_int page ++ str " for brand '" ++ brand
  ++ str "'. Ending collection for this brand.".

(* ================================================================= *)
(** ** The field extractor (web_scrapper.py, lines 52 to 149) *)

Section Extractor.
Context {RT : PyRuntime}.
Local Open Scope py_scope.

Definition warning (msg : pystr) : M unit := logger WARNING msg.

(** [tag[key]] *)
Definition tag_getitem (n : Node) (key : pystr) : result pystr :=
  match n with
  | Tag _ attrs _ =>
      match lookup key attrs with
      | Some v => Ok v
      | None => Raise (KeyError (py_repr key))
      end
  | NavigableString _ => Raise (KeyError (py_repr key))
  end.

(** Lines 54 to 57: the identity, from the bookmark button's [data-id]. *)
Definition extract_ad_id (listing : Node) : M (option pystr) :=
  match soup_find (str "div") (Some (str "announcement-bookmark-button")) listing with
  | Some id_div =>
      if has_attr id_div (str "data-id")
      then v <- lift (tag_getitem id_div (str "data-id")) ;; ret (Some v)
      else ret None
  | None => ret None
  end.

(** Lines 69 to 72: make and model from the title element's text. *)
Definition parse_title (title_text : pystr) : M (pystr * option pystr) :=
  let title := strip title_text in
  let make_and_model := split [SPACE] (Some 1) title in
  mk <- lift (getitem make_and_model 0) ;;
  if Nat.ltb 1 (length make_and_model)
  then md <- lift (getitem make_and_model 1) ;; ret (mk, Some md)
  else ret (mk, None).

(** Line 79: the price text up to its first line break, without the
    currency literal and without spaces. *)
Definition clean_price (price_text : pystr) : M pystr :=
  first_line <- lift (getitem (split [NEWLINE] None price_text) 0) ;;
  ret (replace [SPACE] [] (replace price_currency_literal [] (strip first_line))).

(** Lines 78 to 84, for the text of the pricing element. *)
Definition parse_price (id : pystr) (elem_text : pystr) : M (option Z) :=
  let price_text := strip elem_text in
  price_cleaned <- clean_price price_text ;;
  try_except_ValueError
    (v <- lift (py_int price_cleaned) ;; ret (Some v))
    (warning (price_warning id price_cleaned) ;;; ret None).

(** Lines 75 to 84. *)
Definition extract_price (id : pystr) (listing : Node) : M (option Z) :=
  match soup_find (str "div") (Some (str "announcement-pricing-info")) listing with
  | Some price_elem => parse_price id (text price_elem)
  | None => ret None
  end.

(** Lines 91 to 100, for the spans of the title parameters. *)
Definition parse_title_spans (id : pystr) (title_spans : list Node)
  : M (option Z * option pystr) :=
  yr <- (if Nat.ltb 0 (length title_spans) then
           span <- lift (getitem title_spans 0) ;;
           let year_text := firstn 4 (get_text_strip span) in
           try_except_ValueError
             (v <- lift (py_int year_text) ;; ret (Some v))
             (warning (year_warning id year_text) ;;; ret None)
         else ret None) ;;
  bt <- (if Nat.ltb 1 (length title_spans) then
           span <- lift (getitem title_spans 1) ;;
           ret (Some (get_text_strip span))
         else ret None) ;;
  ret (yr, bt).

(** Lines 87 to 100. *)
Definition extract_title_params (id : pystr) (listing : Node)
  : M (option Z * option pystr) :=
  match soup_find (str "div") (Some (str "announcement-title-parameters")) listing with
  | Some title_params =>
      parse_title_spans id (soup_find_all (str "span") None title_params)
  | None => ret (None, None)
  end.

(** Lines 118 to 136: engine volume and power from the engine text. *)
Definition parse_engine_info (id : pystr) (engine_info : pystr)
  : M (option pyfloat * option Z) :=
  if contains [COMMA] engine_info then
    let parts := map strip (split [COMMA] None engine_info) in
    if Nat.leb 2 (length parts) then
      p0 <- lift (getitem parts 0) ;;
      let volume_cleaned := strip (replace (str "l.") [] p0) in
      vol <- try_except_ValueError
               (v <- lift (py_float volume_cleaned) ;; ret (Some v))
               (warning (volume_warning id volume_cleaned) ;;; ret None) ;;
      p1 <- lift (getitem parts 1) ;;
      let power_cleaned := strip (replace (str "kW") [] p1) in
      pow <- try_except_ValueError
               (v <- lift (py_int power_cleaned) ;; ret (Some v))
               (warning (power_warning id power_cleaned) ;;; ret None) ;;
      ret (vol, pow)
    else ret (None, None)
  else
    warning (engine_comma_warning id engine_info) ;;;
    ret (None, None).

(** Lines 138 to 147: the mileage from the mileage text. *)
Definition parse_mileage (id : pystr) (mileage_text : pystr) : M (option Z) :=
  if contains (str " km") (lower mileage_text) then
    let mileage_cleaned :=
      strip (replace [SPACE] [] (replace (str "km") [] (lower mileage_text))) in
    try_except_ValueError
      (v <- lift (py_int mileage_cleaned) ;; ret (Some v))
      (warning (mileage_warning id mileage_cleaned) ;;; ret None)
  else
    warning (mileage_unit_warning id mileage_text) ;;;
    ret None.

(** The five fields read from the parameters block. *)
Record block_fields : Type := {
  bf_fuel : option pystr;
  bf_gearbox : option pystr;
  bf_engine_volume : option pyfloat;
  bf_engine_power : option Z;
  bf_mileage : option Z
}.

Definition no_block_fields : block_fields :=
  {| bf_fuel := None; bf_gearbox := None; bf_engine_volume := None;
     bf_engine_power := None; bf_mileage := None |}.

(** Lines 113 to 147, for the texts of the block's spans. *)
Definition parse_block_spans (id : pystr) (block_spans_values : list pystr)
  : M block_fields :=
  fl <- (if Nat.ltb 0 (length block_spans_values)
         then v <- lift (getitem block_spans_values 0) ;; ret (Some v)
         else ret None) ;;
  gb <- (if Nat.ltb 1 (length block_spans_values)
         then v <- lift (getitem block_spans_values 1) ;; ret (Some v)
         else ret None) ;;
  eng <- (if Nat.ltb 2 (length block_spans_values)
          then engine_info <- lift (getitem block_spans_values 2) ;;
               parse_engine_info id engine_info
          else ret (None, None)) ;;
  mil <- (if Nat.ltb 3 (length block_spans_values)
          then mileage_text <- lift (getitem block_spans_values 3) ;;
               parse_mileage id mileage_text
          else ret None) ;;
  ret {| bf_fuel := fl; bf_gearbox := gb; bf_engine_volume := fst eng;
         bf_engine_power := snd eng; bf_mileage := mil |}.

(** Lines 103 to 147. *)
Definition extract_params_block (id : pystr) (listing : Node) : M block_fields :=
  match soup_find (str "div") (Some (str "announcement-parameters-block")) listing with
  | Some params_block =>
      let block_spans := soup_find_all (str "span") None params_block in
      let block_spans_values := map get_text_strip block_spans in
      parse_block_spans id block_spans_values
  | None => ret no_block_fields
  end.

(** Lines 53 to 149: the record of a listing, or [None] where the source
    leaves the listing with [continue]. *)
Definition extract_listing (listing : Node) : M (option car) :=
  found <- extract_ad_id listing ;;
  match found with
  | None | Some [] =>
      warning no_identity_warning ;;;
      ret None
  | Some id =>
      match soup_find (str "div") (Some (str "announcement-title")) listing with
      | None =>
          warning (no_title_warning id) ;;;
          ret None
      | Some title_elem =>
          mm <- parse_title (text title_elem) ;;
          price_value <- extract_price id listing ;;
          yb <- extract_title_params id listing ;;
          bf <- extract_params_block id listing ;;
          ret (Some {| ad_id := Some id; make := Some (fst mm); model := snd mm;
                       price := price_value; year := fst yb; body_type := snd yb;
                       fuel := bf_fuel bf; gearbox := bf_gearbox bf;
                       engine_volume := bf_engine_volume bf;
                       engine_power := bf_engine_power bf;
                       mileage := bf_mileage bf |})
      end
  end.

End Extractor.

(* ================================================================= *)
(** ** The page loop (web_scrapper.py, lines 26 to 157) *)

(** [range(a, b)] *)
Definition py_range (a b : Z) : list Z :=
  map (fun i => (a + Z.of_nat i)%Z) (seq 0 (Z.to_nat (b - a))).

Section Controller.
Context {RT : PyRuntime}.

(** The browser and the site behind it. [driver_get w url] is [driver.get(url)]
    followed by the parse of [driver.page_source]: the browser afterwards, and
    the page's tree or the text of the exception that [driver.get] raised. *)
Variable World : Type.
Variable driver_get : World -> pystr -> World * (pystr + Node).

(** What the run acts on: the browser, the table, the log, and the URLs
    asked of the driver so far (oldest first). *)
Record State : Type := {
  world : World;
  db : Table;
  log : list LogRecord;
  driver_calls : list pystr
}.

Definition emit (lv : level) (msg : pystr) (st : State) : State :=
  {| world := world st; db := db st;
     log := log st ++ [{| levelname := lv; message := msg |}];
     driver_calls := driver_calls st |}.

Definition with_log (l : list LogRecord) (st : State) : State :=
  {| world := world st; db := db st; log := l; driver_calls := driver_calls st |}.

Definition with_db (t : Table) (st : State) : State :=
  {| world := world st; db := t; log := log st; driver_calls := driver_calls st |}.

(** [driver.get(url)], recorded. *)
Definition load (url : pystr) (st : State) : State * (pystr + Node) :=
  let '(w, r) := driver_get (world st) url in
  ({| world := w; db := db st; log := log st;
      driver_calls := driver_calls st ++ [url] |}, r).

Definition id_text (c : car) : pystr :=
  match ad_id c with
  | Some k => k
  | None => str "None"
  end.

(** Lines 52 to 154: one pass of the loop over the listings of a page. *)
Definition process_listing (st : State) (listing : Node) : State :=
  match extract_listing listing (log st) with
  | (Ok (Some car_data), l) =>
      match insert_car car_data (db st) with
      | (Ok _, t) =>
          emit INFO (inserted_message (id_text car_data)) (with_db t (with_log l st))
      | (Raise e, t) =>
          emit ERROR (unexpected_error_message e) (with_db t (with_log l st))
      end
  | (Ok None, l) => with_log l st
  | (Raise e, l) =>
      emit ERROR (unexpected_error_message e) (with_log l st)
  end.

(** Lines 33 to 154: the pages of one brand still to visit. *)
Fixpoint scrape_pages (st : State) (brand : pystr) (pages : list Z) : State :=
  match pages with
  | [] => st
  | page :: rest =>
      match load (page_url brand page) (emit INFO (loading_message brand page) st) with
      | (st1, inl e) =>
          scrape_pages (emit ERROR (load_failed_message brand page e) st1) brand rest
      | (st1, inr soup) =>
          match soup_find_all (str "a") (Some (str "announcement-item")) soup with
          | [] =>
              emit WARNING (no_listings_message brand page) st1
          | listings =>
              scrape_pages (fold_left process_listing listings st1) brand rest
          end
      end
  end.

Variable pages_per_brand : Z.
Variable start_page : Z.

(** Lines 32 to 154: one brand. *)
Definition scrape_brand (st : State) (brand : pystr) : State :=
  scrape_pages (emit INFO (brand_message brand) st)
               brand (py_range start_page (start_page + pages_per_brand)).

(** Lines 31 to 154: the brands still to visit. *)
Definition scrape_brands (st : State) (car_brands : list pystr) : State :=
  fold_left scrape_brand car_brands st.

(** [scrape_autoplius(car_brands, pages_per_brand, start_page)] *)
Definition scrape_autoplius (car_brands : list pystr) (st : State) : State :=
  emit INFO (str "Autoplius.lt scraping process completed.")
    (scrape_brands (emit INFO (str "Starting Autoplius.lt scraping process.") st)
                   car_brands).

End Controller.

Arguments world {World} s.
Arguments db {World} s.
Arguments log {World} s.
Arguments driver_calls {World} s.
Arguments emit {World} lv msg st.
Arguments with_log {World} l st.
Arguments with_db {World} t st.
Arguments load {World} driver_get url st.
Arguments process_listing {RT World} st listing.
Arguments scrape_pages {RT World} driver_get st brand pages.
Arguments scrape_brand {RT World} driver_get pages_per_brand start_page st brand.
Arguments scrape_brands {RT World} driver_get pages_per_brand start_page st car_brands.
Arguments scrape_autoplius {RT World} driver_get pages_per_brand start_page car_brands st.

(* ================================================================= *)
(** ** What the claims speak of *)

(** [s.endswith(suffix)] *)
Definition ends_with (suffix s : pystr) : bool := starts_with (rev suffix) (rev s).

(** A result that is a value or a [ValueError], the only exception [int()]
    and [float()] raise on a string. *)
Definition value_or_ValueError {A} (r : result A) : Prop :=
  match r with
  | Ok _ | Raise (ValueError _) => True
  | Raise _ => False
  end.

(** [try: x = conv(s)  except ValueError: x = None], without the log. *)
Definition or_unknown {A} (r : result A) : option A :=
  match r with
  | Ok v => Some v
  | Raise _ => None
  end.

(** The title element of a listing (line 64). *)
Definition title_of (listing : Node) : option Node :=
  soup_find (str "div") (Some (str "announcement-title")) listing.

(** The text of the second span of the title parameters (lines 89 to 100). *)
Definition body_type_of (listing : Node) : option pystr :=
  match soup_find (str "div") (Some (str "announcement-title-parameters")) listing with
  | Some title_params =>
      option_map get_text_strip (nth_error (soup_find_all (str "span") None title_params) 1)
  | None => None
  end.

(** The text of the span at a position of the parameters block (lines 108 to
    116). *)
Definition block_text_of (listing : Node) (i : nat) : option pystr :=
  match soup_find (str "div") (Some (str "announcement-parameters-block")) listing with
  | Some params_block =>
      option_map get_text_strip (nth_error (soup_find_all (str "span") None params_block) i)
  | None => None
  end.

(** What line 140 leaves of the mileage text. *)
Definition mileage_cleaned {RT : PyRuntime} (mileage_text : pystr) : pystr :=
  strip (replace [SPACE] [] (replace (str "km") [] (lower mileage_text))).

(** The state in which the loop over the pages of a brand is left at a page
    without listings: the page was announced and loaded, a warning was
    logged. *)
Definition after_empty_page {World : Type} (st : State World) (w : World)
           (brand : pystr) (page : Z) : State World :=
  emit WARNING (no_listings_message brand page)
    {| world := w; db := db st;
       log := log st ++ [{| levelname := INFO; message := loading_message brand page |}];
       driver_calls := driver_calls st ++ [page_url brand page] |}.


(** A listing whose title and whose first parameter span hold only blanks. *)
Definition listing_with_blank_texts : Node :=
  Tag (str "a") [(str "class", str "announcement-item")]
    [Tag (str "div")
       [(str "class", str "announcement-bookmark-button"); (str "data-id", str "12345")]
       [];
     Tag (str "div") [(str "class", str "announcement-title")]
       [NavigableString (str "   ")];
     Tag (str "div") [(str "class", str "announcement-parameters-block")]
       [Tag (str "span") [] [NavigableString (str "  ")]]].

(** The price text of the specification's second example. *)
Definition price_example : pystr :=
  str "15 000 " ++ [EURO; NEWLINE] ++ str "monthly from...".

(** A site with no listings at all and a browser without state. *)
Definition empty_site (w : unit) (url : pystr) : unit * (pystr + Node) :=
  (w, inr (Tag (str "[document]") [] [])).

Definition initial_state : State unit :=
  {| world := tt; db := setup_database None; log := []; driver_calls := [] |}.

(** The record of the listing with blank texts. *)
Definition blank_record : car :=
  {| ad_id := Some (str "12345"); make := Some []; model := None; price := None;
     year := None; body_type := None; fuel := Some []; gearbox := None;
     engine_volume := None; engine_power := None; mileage := None |}.

(** Two records of one identity with different prices. *)
Definition car_of (k : pystr) (p : Z) : car :=
  {| ad_id := Some k; make := Some (str "BMW"); model := None; price := Some p;
     year := None; body_type := None; fuel := None; gearbox := None;
     engine_volume := None; engine_power := None; mileage := None |}.

(* ================================================================= *)
(** ** The queries of db.py *)

(** The columns of the table [cars] (sql_install.py, lines 20 to 33), as
    [cur.description] names them for SELECT *. *)
Definition cars_columns : list pystr :=
  [str "id"; str "ad_id"; str "make"; str "model"; str "price"; str "year";
   str "body_type"; str "fuel"; str "gearbox"; str "engine_volume";
   str "engine_power"; str "mileage"].

(** SQL [make = ?]: NULL equals nothing, on either side. *)
Definition make_is (m : option pystr) (row : car) : bool :=
  match m, make row with
  | Some a, Some b => str_eqb a b
  | _, _ => false
  end.

(** [get_cars_by_make(make)]: the rows of that make, in the order of their
    [id] (each row still without the number of its [id], as in [Table]), and
    the column names. *)
Definition get_cars_by_make (m : option pystr) (t : Table) : list car * list pystr :=
  (filter (make_is m) t, cars_columns).

(** The values of a list without repetition, each at its first place. *)
Fixpoint distinct_go (seen l : list pystr) : list pystr :=
  match l with
  | [] => []
  | x :: r =>
      if existsb (str_eqb x) seen then distinct_go seen r
      else x :: distinct_go (x :: seen) r
  end.

(** [get_all_car_makes()]: SELECT DISTINCT make ... WHERE make IS NOT NULL.
    SQL promises no order; the list has each make where the table first has
    it. *)
Definition get_all_car_makes (t : Table) : list pystr :=
  distinct_go []
    (flat_map (fun row => match make row with Some m => [m] | None => [] end) t).

(* ================================================================= *)
(** ** What the further properties speak of *)

(** A row as the scraper writes it: a non-empty identity and a make. *)
Definition scraped_row (row : car) : Prop :=
  (exists c k, ad_id row = Some (c :: k)) /\ make row <> None.

(** The table after is the table before with scraped rows added at its
    end. *)
Definition db_extends (t t' : Table) : Prop :=
  exists added, t' = t ++ added /\ Forall scraped_row added.

(** The UNIQUE constraint is kept from one table to the other. *)
Definition keeps_unique (t t' : Table) : Prop :=
  unique_ad_id t -> unique_ad_id t'.

(** A site none of whose pages loads. *)
Definition failing_site (w : unit) (url : pystr) : unit * (pystr + Node) :=
  (w, inl (str "timeout")).

(** The log line of a brand (line 32). *)
Definition brand_record (brand : pystr) : LogRecord :=
  {| levelname := INFO; message := brand_message brand |}.

(** A computation that only adds to the log: its result and the records it
    adds are the same from whatever log it starts. *)
Definition appends_only {A} (c : M A) : Prop :=
  forall l, c l = (fst (c []), l ++ snd (c [])).

(** The log line of a stored record (line 151). *)
Definition inserted_record (c : car) : LogRecord :=
  {| levelname := INFO; message := inserted_message (id_text c) |}.

(** The text the year is converted from (line 93): the first four characters
    of the span's text. *)
Definition year_text_of (span : Node) : pystr := firstn 4 (get_text_strip span).

(** Title parameters with a year followed by a month, and a body type. *)
Definition title_spans_example : list Node :=
  [Tag (str "span") [] [NavigableString (str " 2015-03 ")];
   Tag (str "span") [] [NavigableString (str "Sedanas")]].

(* ================================================================= *)
(** ** The input of a prediction (predict_price.py, lines 43 to 76) *)

(** What a specification holds under a key, and what a cell of the frame
    holds: a number or a text. *)
Inductive pyval : Type :=
| VInt (n : Z)
| VFloat (f : pyfloat)
| VStr (s : pystr).

(** A data frame of one row: its columns in order, each with its cell. Column
    names may repeat, as in pandas. *)
Definition Frame : Type := list (pystr * pyval).

Definition columns (df : Frame) : list pystr := map fst df.

(** [key in df.columns] *)
Definition has_column (key : pystr) (df : Frame) : bool :=
  existsb (str_eqb key) (columns df).

(** [pd.DataFrame(0, index=[0], columns=model_columns)] *)
Definition new_frame (model_columns : list pystr) : Frame :=
  map (fun c => (c, VInt 0)) model_columns.

(** [df[key] = value]: every column of that name takes the value; a name the
    frame has not becomes a new last column. *)
Definition set_column (key : pystr) (value : pyval) (df : Frame) : Frame :=
  if has_column key df
  then map (fun cv => if str_eqb key (fst cv) then (fst cv, value) else cv) df
  else df ++ [(key, value)].

(** The cell of the first column of a name. *)
Fixpoint cell (c : pystr) (df : Frame) : option pyval :=
  match df with
  | [] => None
  | (name, v) :: r => if str_eqb c name then Some v else cell c r
  end.

Section PrepareInput.

(** [str(x)] of a float, as an f-string writes it, and the text of the
    KeyError pandas raises for labels a frame has not: both are taken from
    the libraries. *)
Variable format_float : pyfloat -> pystr.
Variable key_error_text : list pystr -> pystr.

(** [f'{value}'] *)
Definition format_value (v : pyval) : pystr :=
  match v with
  | VInt n => str_of_int n
  | VFloat f => format_float f
  | VStr s => s
  end.

(** [df[labels]]: for every label in turn, the columns of that name. *)
Definition select (labels : list pystr) (df : Frame) : result Frame :=
  match filter (fun lb => negb (has_column lb df)) labels with
  | [] => Ok (flat_map (fun lb => filter (fun cv => str_eqb lb (fst cv)) df) labels)
  | missing => Raise (KeyError (key_error_text missing))
  end.

(** Line 65. *)
Definition dummy_col_name (key : pystr) (value : pyval) : pystr :=
  key ++ str "_" ++ format_value value.

(** Line 69. *)
Definition unknown_category_warning (key : pystr) (value : pyval) : pystr :=
  str "Categorical value '" ++ format_value value ++ str "' for column '" ++ key
  ++ str "' not found in model's trained columns. Skipping.".

(** Line 71. *)
Definition unknown_key_warning (key : pystr) : pystr :=
  str "User input key '" ++ key
  ++ str "' is not a recognized feature for prediction. Skipping.".

(** Line 75. *)
Definition prepared_message (df : Frame) : pystr :=
  str "Input DataFrame prepared for prediction. Shape: (1, "
  ++ str_of_int (Z.of_nat (length df)) ++ str ")".

Variable original_categorical_cols : list pystr.

(** Lines 60 to 71: one pass of the loop over the items of the
    specification. *)
Definition prepare_item (df : Frame) (item : pystr * pyval) : M Frame :=
  let key := fst item in
  let value := snd item in
  if has_column key df then ret (set_column key value df)
  else if existsb (str_eqb key) original_categorical_cols then
    if has_column (dummy_col_name key value) df
    then ret (set_column (dummy_col_name key value) (VInt 1) df)
    else bind (logger WARNING (unknown_category_warning key value)) (fun _ => ret df)
  else bind (logger WARNING (unknown_key_warning key)) (fun _ => ret df).

(** Lines 59 to 71. *)
Fixpoint prepare_items (items : list (pystr * pyval)) (df : Frame) : M Frame :=
  match items with
  | [] => ret df
  | item :: rest => bind (prepare_item df item) (prepare_items rest)
  end.

(** [prepare_input(user_input_dict, model_columns, original_categorical_cols)];
    the dictionary is the list of its items in their order. *)
Definition prepare_input (user_input_dict : list (pystr * pyval))
           (model_columns : list pystr) : M Frame :=
  bind (prepare_items user_input_dict (new_frame model_columns)) (fun df =>
  bind (lift (select model_columns df)) (fun final_input_df =>
  bind (logger INFO (prepared_message final_input_df)) (fun _ =>
  ret final_input_df))).

(** predict_price.py, line 102: the test that makes [predict_price] raise
    ValueError("Invalid input data for prediction."). *)
Definition input_rejected (input_df : Frame) (model_columns : list pystr) : bool :=
  Nat.eqb (length input_df) 0
  || negb (Nat.eqb (length input_df) (length model_columns)).

(** Does the item set the one-hot column [c]: its key is no column, it is a
    categorical key, and [c] is its dummy name. *)
Definition sets_dummy (model_columns : list pystr) (c : pystr) (item : pystr * pyval)
  : bool :=
  negb (existsb (str_eqb (fst item)) model_columns)
  && existsb (str_eqb (fst item)) original_categorical_cols
  && str_eqb (dummy_col_name (fst item) (snd item)) c.

(** The cell of column [c] after an item, from the cell before it. *)
Definition cell_after (model_columns : list pystr) (c : pystr) (cur : pyval)
           (item : pystr * pyval) : pyval :=
  if str_eqb (fst item) c then snd item
  else if sets_dummy model_columns c item then VInt 1
  else cur.

End PrepareInput.

(** The columns of a small model and a specification for it. *)
Definition example_columns : list pystr :=
  [str "year"; str "mileage"; str "fuel_Benzinas"; str "fuel_Dyzelinas"].

Definition example_input : list (pystr * pyval) :=
  [(str "year", VInt 2015); (str "fuel", VStr (str "Dyzelinas"));
   (str "colour", VStr (str "red"))].

(** A listing with an identity and a title, and a site that shows it on every
    page. *)
Definition titled_listing : Node :=
  Tag (str "a") [(str "class", str "announcement-item")]
    [Tag (str "div")
       [(str "class", str "announcement-bookmark-button"); (str "data-id", str "12345")]
       [];
     Tag (str "div") [(str "class", str "announcement-title")]
       [NavigableString (str "BMW 520d")]].

(** The same listing with a price of twenty digits. *)
Definition listing_with_long_price : Node :=
  Tag (str "a") [(str "class", str "announcement-item")]
    [Tag (str "div")
       [(str "class", str "announcement-bookmark-button"); (str "data-id", str "12345")]
       [];
     Tag (str "div") [(str "class", str "announcement-title")]
       [NavigableString (str "BMW 520d")];
     Tag (str "div") [(str "class", str "announcement-pricing-info")]
       [NavigableString (str "99999999999999999999")]].

Definition site_with_listing (w : unit) (url : pystr) : unit * (pystr + Node) :=
  (w, inr (Tag (str "[document]") [] [titled_listing])).

Definition titled_record : car :=
  {| ad_id := Some (str "12345"); make := Some (str "BMW"); model := Some (str "520d");
     price := None; year := None; body_type := None; fuel := None; gearbox := None;
     engine_volume := None; engine_power := None; mileage := None |}.

(* ================================================================= *)
(** ** The dashboard's helpers (streamlit.py, lines 17 to 58) *)

(** [a < b] on strings: by code points, the first difference decides. *)
Fixpoint str_ltb (a b : pystr) : bool :=
  match a, b with
  | _, [] => false
  | [], _ :: _ => true
  | x :: a', y :: b' =>
      if N.ltb x y then true
      else if N.eqb x y then str_ltb a' b'
      else false
  end.

(** A value put into an ascending list without repetition. *)
Fixpoint insert_sorted (x : pystr) (l : list pystr) : list pystr :=
  match l with
  | [] => [x]
  | y :: r =>
      if str_ltb x y then x :: l
      else if str_eqb x y then l
      else y :: insert_sorted x r
  end.

(** [sorted(set(l))], and as well [sorted(series.unique().tolist())]: the
    values of [l], each once, ascending. *)
Definition sorted_set (l : list pystr) : list pystr := fold_right insert_sorted [] l.

(** The suffix of a model file (train_and_save_model.py, line 90;
    streamlit.py, lines 29 and 30). *)
Definition model_suffix : pystr := str "_model.pkl".

(** The name of the file a model is saved to, within the directory
    [models]. *)
Definition model_file (make_name : pystr) : pystr := make_name ++ model_suffix.

(** Lines 29 and 30: the make a file name stands for, if it is a model
    file. *)
Definition make_of_file (filename : pystr) : list pystr :=
  if ends_with model_suffix filename
  then [fst (split_go model_suffix None 0 filename)]
  else [].

(** [get_available_makes()]. The directory [models] is [None] where it does
    not exist and the list of its file names otherwise; beside the makes, the
    texts shown through [st.error]. *)
Definition get_available_makes (models_dir : option (list pystr))
  : list pystr * list pystr :=
  match models_dir with
  | None =>
      ([], [str "'models' directory not found. Please ensure models are trained and saved."])
  | Some filenames =>
      match sorted_set (flat_map make_of_file filenames) with
      | [] =>
          ([str "No models found"],
           [str "No model files found in the 'models' directory. Please train models first."])
      | makes => (makes, [])
      end
  end.

(** The values a column holds in the rows, NULL apart. *)
Definition column_values (col : car -> option pystr) (rows : list car) : list pystr :=
  flat_map (fun row => match col row with Some v => [v] | None => [] end) rows.

(** The dictionary [get_features_for_make] returns: its keys in the order
    of their insertion, each with its list. *)
Definition features : Type := list (pystr * list pystr).

(** [features.get(key, [])] *)
Fixpoint features_get (key : pystr) (d : features) : list pystr :=
  match d with
  | [] => []
  | (k, v) :: r => if str_eqb key k then v else features_get key r
  end.

(** [get_cars_by_make(make)] as a call that may raise: the statement is
    prepared, which needs the table [cars], then the make is bound and the
    rows are fetched. *)
Definition call_get_cars_by_make (m : option pystr) (database : option Table)
  : result (list car * list pystr) :=
  match database with
  | None => Raise (OperationalError (str "no such table: cars"))
  | Some t => and_then (bind_text m) (fun _ => Ok (get_cars_by_make m t))
  end.

(** Lines 50 to 53: the values of one column, each once, ascending. *)
Definition feature_values (name : pystr) (col : car -> option pystr)
           (data : list car) (columns : list pystr) : list pystr :=
  if existsb (str_eqb name) columns then sorted_set (column_values col data) else [].

(** Line 57. *)
Definition features_failed_message (m : option pystr) (e : exn) : pystr :=
  str "Failed to load features for "
  ++ match m with Some make_text => make_text | None => str "None" end
  ++ str ": " ++ exn_str e.

(** Lines 45 to 58, the body of [get_features_for_make]: the dictionary and
    the errors shown. *)
Definition load_features (m : option pystr) (database : option Table)
  : features * list pystr :=
  match call_get_cars_by_make m database with
  | Ok (data, columns) =>
      ([(str "model", feature_values (str "model") model data columns);
        (str "body_type", feature_values (str "body_type") body_type data columns);
        (str "fuel", feature_values (str "fuel") fuel data columns);
        (str "gearbox", feature_values (str "gearbox") gearbox data columns)],
       [])
  | Raise e => ([], [features_failed_message m e])
  end.

(** The store of [st.cache_data] for this function: the answers it has
    given, by argument. *)
Definition Cache : Type := list (option pystr * (features * list pystr)).

Definition same_make (a b : option pystr) : bool :=
  match a, b with
  | Some x, Some y => str_eqb x y
  | None, None => true
  | _, _ => false
  end.

Fixpoint cache_lookup (m : option pystr) (cache : Cache)
  : option (features * list pystr) :=
  match cache with
  | [] => None
  | (k, a) :: r => if same_make m k then Some a else cache_lookup m r
  end.

(** [get_features_for_make(make)] under [@st.cache_data] (line 39): an
    argument met before is answered from the store, with the errors shown
    then shown again, and the body is not run; otherwise the body runs and
    its answer is stored. *)
Definition get_features_for_make (m : option pystr) (cache : Cache)
           (database : option Table) : (features * list pystr) * Cache :=
  match cache_lookup m cache with
  | Some answer => (answer, cache)
  | None =>
      let answer := load_features m database in
      (answer, (m, answer) :: cache)
  end.

Definition str_lt (a b : pystr) : Prop := str_ltb a b = true.

(** Ascending: each value is below all that follow it. *)
Fixpoint ascending (l : list pystr) : Prop :=
  match l with
  | [] => True
  | x :: r => Forall (str_lt x) r /\ ascending r
  end.

(** The values offered for a column are the values the rows of the make
    hold in it, each once, ascending. *)
Definition offers (col : car -> option pystr) (values : list pystr)
           (m : option pystr) (t : Table) : Prop :=
  (forall v, In v values
             <-> exists row, In row (fst (get_cars_by_make m t)) /\ col row = Some v)
  /\ ascending values
  /\ NoDup values.

(* ================================================================= *)
(** ** Strings: basic facts *)

Lemma str_eqb_eq (a b : pystr) : str_eqb a b = true <-> a = b.
Proof.
  revert b; induction a as [|x a IH]; intros [|y b]; simpl; split;
    try congruence; try reflexivity.
  - intros H. apply andb_true_iff in H as [Hx Hr].
    apply N.eqb_eq in Hx. apply IH in Hr. congruence.
  - intros H. injection H as -> ->. apply andb_true_iff. split.
    + apply N.eqb_refl.
    + now apply IH.
Qed.

Lemma str_eqb_refl (a : pystr) : str_eqb a a = true.
Proof. now apply str_eqb_eq. Qed.

Lemma starts_with_char (c : N) (s : pystr) :
  starts_with [c] s = match s with x :: _ => N.eqb c x | [] => false end.
Proof. destruct s; simpl; [reflexivity | now rewrite andb_true_r]. Qed.

Lemma contains_char (c : N) (s : pystr) :
  contains [c] s = existsb (N.eqb c) s.
Proof.
  induction s as [|x s IH].
  - reflexivity.
  - cbn [contains existsb]. rewrite IH, starts_with_char. reflexivity.
Qed.

Lemma existsb_char_In (c : N) (s : pystr) :
  existsb (N.eqb c) s = true <-> In c s.
Proof.
  rewrite existsb_exists. split.
  - intros (x & Hin & Hx). apply N.eqb_eq in Hx. now subst.
  - intros Hin. exists c. split; [assumption | apply N.eqb_refl].
Qed.

(** With no split left the text is one piece. *)
Lemma split_go_exhausted (sep s : pystr) :
  split_go sep (Some 0) 0 s = (s, []).
Proof.
  induction s as [|x s IH]; simpl; [reflexivity|].
  rewrite IH. reflexivity.
Qed.

(** A text without the separating character is one piece. *)
Lemma split_go_char_absent (c : N) (m : option nat) (s : pystr) :
  ~ In c s -> split_go [c] m 0 s = (s, []).
Proof.
  induction s as [|x s IH]; intros Hn; [reflexivity|].
  cbn [split_go]. rewrite starts_with_char.
  destruct (N.eqb_spec c x) as [->|Hne].
  - exfalso. apply Hn. now left.
  - rewrite andb_false_r. rewrite IH; [reflexivity|].
    intros Hin. apply Hn. now right.
Qed.

(** The first piece ends at the first separating character. *)
Lemma split_go_char_first (c : N) (m : option nat) (a b : pystr) :
  ~ In c a -> m <> Some 0 ->
  split_go [c] m 0 (a ++ c :: b) =
    (a, fst (split_go [c] (option_map pred m) 0 b)
        :: snd (split_go [c] (option_map pred m) 0 b)).
Proof.
  intros Hn Hm. induction a as [|x a IH].
  - cbn [app split_go]. rewrite starts_with_char, N.eqb_refl.
    replace (match m with Some 0 => false | _ => true end) with true
      by (destruct m as [[|?]|]; congruence).
    cbn [andb length Nat.sub].
    destruct (split_go [c] (option_map pred m) 0 b); reflexivity.
  - cbn [app split_go]. rewrite starts_with_char.
    destruct (N.eqb_spec c x) as [->|Hne].
    + exfalso. apply Hn. now left.
    + rewrite andb_false_r. rewrite IH; [reflexivity|].
      intros Hin. apply Hn. now right.
Qed.

(** A text that holds the character is cut at its first occurrence. *)
Lemma first_occurrence (c : N) (s : pystr) :
  In c s -> exists a b, s = a ++ c :: b /\ ~ In c a.
Proof.
  induction s as [|x s IH]; intros Hin; [contradiction|].
  destruct (N.eq_dec x c) as [->|Hne].
  - exists [], s. split; [reflexivity | intros []].
  - destruct Hin as [->|Hin]; [congruence|].
    destruct (IH Hin) as (a & b & -> & Ha).
    exists (x :: a), b. split; [reflexivity|].
    intros [->|H]; [congruence | now apply Ha].
Qed.

(* ================================================================= *)
(** ** Conversions raise nothing but ValueError *)

Lemma py_int_raises {RT : PyRuntime} (s : pystr) : value_or_ValueError (py_int s).
Proof.
  unfold py_int, long_from_string.
  destruct (take_sign _) as [neg ds].
  destruct ds as [|c ds]; [exact I|].
  destruct (N.eqb c UNDERSCORE); [exact I|].
  destruct (scan_digits false (c :: ds)) as [vs|]; [|exact I].
  destruct (Nat.ltb _ _); exact I.
Qed.

Lemma py_float_raises {RT : PyRuntime} (s : pystr) : value_or_ValueError (py_float s).
Proof.
  unfold py_float.
  destruct (if existsb _ _ then _ else _) as [t|]; [|exact I].
  destruct (parse_decimal _); [exact I|].
  destruct (parse_inf_or_nan _); exact I.
Qed.

(** The guarded conversion of the source: the value, or unknown and one
    warning; never an exception. *)
Lemma try_conv {A} (r : result A) (msg : pystr) (l : list LogRecord) :
  value_or_ValueError r ->
  try_except_ValueError
    (bind (lift r) (fun v => ret (Some v)))
    (bind (warning msg) (fun _ => ret None)) l
  = (Ok (or_unknown r),
     match r with Ok _ => l | Raise _ => l ++ [warn_record msg] end).
Proof.
  intros H. unfold try_except_ValueError, bind, lift, ret, warning, logger.
  destruct r as [v|[m|m|m|m|m|m]]; simpl in *; try reflexivity; contradiction.
Qed.

Lemma getitem_lt {A} (l : list A) (i : nat) :
  i < length l -> exists x, getitem l i = Ok x /\ nth_error l i = Some x.
Proof.
  intros H. unfold getitem.
  destruct (nth_error l i) as [x|] eqn:E.
  - now exists x.
  - apply nth_error_None in E. lia.
Qed.

Lemma getitem_split_0 (sep : pystr) (m : option nat) (s : pystr) :
  getitem (split sep m s) 0 = Ok (fst (split_go sep m 0 s)).
Proof. unfold split. destruct (split_go sep m 0 s). reflexivity. Qed.

(* ================================================================= *)
(** ** C7: make and model from the title *)

Lemma split_once_present (c : N) (a b : pystr) :
  ~ In c a -> split [c] (Some 1) (a ++ c :: b) = [a; b].
Proof.
  intros Hn. unfold split.
  rewrite split_go_char_first by (assumption || discriminate).
  cbn [option_map pred]. rewrite split_go_exhausted. reflexivity.
Qed.

Lemma split_absent (c : N) (m : option nat) (s : pystr) :
  ~ In c s -> split [c] m s = [s].
Proof.
  intros Hn. unfold split. now rewrite split_go_char_absent.
Qed.

(** C7, as the code has it: the stripped title is cut at its first space
    character (U+0020); make is the text before it and model the text after
    it; a title without a space is the make, and model is unknown. The title
    "BMW 520d" gives make "BMW" and model "520d". *)
Theorem C7_title_split_at_first_space (title_text : pystr) (l : list LogRecord) :
  (forall mk md,
      strip title_text = mk ++ SPACE :: md -> ~ In SPACE mk ->
      parse_title title_text l = (Ok (mk, Some md), l))
  /\ (~ In SPACE (strip title_text) ->
      parse_title title_text l = (Ok (strip title_text, None), l))
  /\ parse_title (str "BMW 520d") l = (Ok (str "BMW", Some (str "520d")), l).
Proof.
  split; [|split].
  - intros mk md E Hn. unfold parse_title. rewrite E.
    rewrite split_once_present by assumption. reflexivity.
  - intros Hn. unfold parse_title.
    rewrite split_absent by assumption. reflexivity.
  - reflexivity.
Qed.

(** A title of three words: the model keeps the second space. *)
Lemma C7_title_split_witness :
  strip (str " Audi A4 Avant ") = str "Audi" ++ SPACE :: str "A4 Avant"
  /\ ~ In SPACE (str "Audi")
  /\ parse_title (str " Audi A4 Avant ") []
     = (Ok (str "Audi", Some (str "A4 Avant")), []).
Proof.
  assert (E : strip (str " Audi A4 Avant ") = str "Audi" ++ SPACE :: str "A4 Avant")
    by reflexivity.
  assert (Hn : ~ In SPACE (str "Audi")).
  { intros H. simpl in H. repeat destruct H as [H|H]; try discriminate H; exact H. }
  split; [exact E|]. split; [exact Hn|].
  exact (proj1 (C7_title_split_at_first_space (str " Audi A4 Avant ") [])
               (str "Audi") (str "A4 Avant") E Hn).
Defined.

(** C7 as stated fails: a title whose first white space is a tab is not cut;
    the whole of it is the make and model is unknown. *)
Lemma C7_counterexample :
  let title := str "BMW" ++ 9%N :: str "520d" in
  py_isspace 9%N = true
  /\ forallb (fun c => negb (py_isspace c)) (str "BMW") = true
  /\ parse_title title [] = (Ok (title, None), [])
  /\ parse_title title [] <> (Ok (str "BMW", Some (str "520d")), []).
Proof.
  cbv zeta. split; [reflexivity|]. split; [reflexivity|].
  split; [reflexivity|]. discriminate.
Qed.

(* ================================================================= *)
(** ** C2: the price *)

Lemma clean_price_total (price_text : pystr) (l : list LogRecord) :
  exists cleaned, clean_price price_text l = (Ok cleaned, l).
Proof.
  unfold clean_price, bind, lift, ret. rewrite getitem_split_0.
  eexists. reflexivity.
Qed.

Lemma parse_price_total {RT : PyRuntime} (id elem_text : pystr) (l : list LogRecord) :
  exists v l', parse_price id elem_text l = (Ok v, l').
Proof.
  unfold parse_price.
  destruct (clean_price_total (strip elem_text) l) as (cleaned & E).
  unfold bind at 1. rewrite E.
  rewrite try_conv by apply py_int_raises.
  eexists. eexists. reflexivity.
Qed.

Lemma py_int_price_example {RT : PyRuntime} :
  unicode_todecimal EURO = None ->
  or_unknown (py_int (str "15000" ++ [EURO])) = None.
Proof.
  intros H. unfold py_int, transform_decimal_and_space.
  change (forallb is_ascii (str "15000" ++ [EURO])) with false. cbv iota.
  change (transform_chars (str "15000" ++ [EURO]))
    with (str "15000" ++ match unicode_todecimal EURO with
                          | Some d => [(48 + d)%N]
                          | None => [63%N]
                          end).
  rewrite H. reflexivity.
Qed.

(** C2, at the specification's example: the price text "15 000 EUR-sign,
    line break, monthly from..." is cut at the line break and loses its
    spaces, but keeps the euro sign, because the literal the code removes is
    another text; [int()] refuses the result and the price is unknown, with
    one warning. For every price text the conversion ends in an integer or
    in unknown, never in an exception. *)
Theorem C2_price_example_is_unknown {RT : PyRuntime} (id : pystr) (l : list LogRecord) :
  unicode_todecimal EURO = None ->
  clean_price (strip price_example) l = (Ok (str "15000" ++ [EURO]), l)
  /\ parse_price id price_example l
     = (Ok None, l ++ [warn_record (price_warning id (str "15000" ++ [EURO]))])
  /\ forall elem_text, exists v l', parse_price id elem_text l = (Ok v, l').
Proof.
  intros H.
  assert (E : clean_price (strip price_example) l = (Ok (str "15000" ++ [EURO]), l))
    by reflexivity.
  split; [exact E|]. split.
  - unfold parse_price. unfold bind at 1. rewrite E.
    rewrite try_conv by apply py_int_raises.
    pose proof (py_int_price_example H) as Hp.
    destruct (py_int (str "15000" ++ [EURO])); [discriminate Hp | reflexivity].
  - intros elem_text. apply parse_price_total.
Qed.

(** The same price with the literal of line 79 in the place of the euro sign
    is cleaned to "15000" and converted: the cleaning removes that literal,
    and only that. *)
Lemma price_with_source_literal {RT : PyRuntime} (id : pystr) (l : list LogRecord) :
  parse_price id (str "15 000 " ++ price_currency_literal ++ NEWLINE :: str "monthly from...") l
  = (Ok (Some 15000%Z), l).
Proof. vm_compute. reflexivity. Qed.

(** The example on a runtime in which the euro sign is no digit. *)
Lemma C2_price_example_witness :
  @unicode_todecimal ascii_runtime EURO = None
  /\ @parse_price ascii_runtime (str "12345") price_example []
     = (Ok None, [warn_record (price_warning (str "12345") (str "15000" ++ [EURO]))]).
Proof.
  split; [reflexivity|].
  exact (proj1 (proj2 (@C2_price_example_is_unknown ascii_runtime (str "12345") []
                         eq_refl))).
Defined.

(* ================================================================= *)
(** ** C5, C10: engine volume and power *)

Lemma contains_char_false (c : N) (s : pystr) :
  ~ In c s -> contains [c] s = false.
Proof.
  intros Hn. rewrite contains_char.
  destruct (existsb (N.eqb c) s) eqn:E; [|reflexivity].
  apply existsb_char_In in E. contradiction.
Qed.

Lemma contains_char_true (c : N) (s : pystr) :
  In c s -> contains [c] s = true.
Proof. intros H. rewrite contains_char. now apply existsb_char_In. Qed.

(** A text that holds the separating character splits into two pieces at
    least. *)
Lemma split_char_two (c : N) (s : pystr) :
  In c s -> exists p q ps, split [c] None s = p :: q :: ps.
Proof.
  intros Hin. destruct (first_occurrence c s Hin) as (a & b & -> & Ha).
  unfold split. rewrite split_go_char_first by (assumption || discriminate).
  eexists. eexists. eexists. reflexivity.
Qed.

(** C5: an engine text without a comma leaves both engine volume and engine
    power unknown and logs one warning; the text "2.0 l., 140 kW" gives the
    volume 2.0 and the power 140. *)
Theorem C5_engine_info_needs_comma {RT : PyRuntime} (id : pystr) (l : list LogRecord) :
  (forall engine_info,
      ~ In COMMA engine_info ->
      parse_engine_info id engine_info l
      = (Ok (None, None), l ++ [warn_record (engine_comma_warning id engine_info)]))
  /\ parse_engine_info id (str "2.0 l., 140 kW") l
     = (Ok (Some (FDec false 20 (-1)), Some 140%Z), l)
  /\ exists q, float_value (FDec false 20 (-1)) = Some q /\ Qeq q (inject_Z 2).
Proof.
  split; [|split].
  - intros engine_info Hn. unfold parse_engine_info.
    rewrite contains_char_false by assumption. reflexivity.
  - vm_compute. reflexivity.
  - eexists. split; [reflexivity|]. reflexivity.
Qed.

(** An engine text whose comma is missing. *)
Lemma C5_engine_info_witness :
  ~ In COMMA (str "2.0 l. 140 kW")
  /\ @parse_engine_info ascii_runtime (str "12345") (str "2.0 l. 140 kW") []
     = (Ok (None, None),
        [warn_record (engine_comma_warning (str "12345") (str "2.0 l. 140 kW"))]).
Proof.
  assert (Hn : ~ In COMMA (str "2.0 l. 140 kW")).
  { intros H. simpl in H. repeat destruct H as [H|H]; try discriminate H; exact H. }
  split; [exact Hn|].
  exact (proj1 (@C5_engine_info_needs_comma ascii_runtime (str "12345") [])
               (str "2.0 l. 140 kW") Hn).
Defined.

(** With a comma in it the engine text gives two pieces at least, and each
    field is converted from its own piece; nothing is raised. *)
Lemma parse_engine_info_with_comma {RT : PyRuntime}
      (id engine_info : pystr) (l : list LogRecord) :
  In COMMA engine_info ->
  exists p0 p1 rest l',
    map strip (split [COMMA] None engine_info) = p0 :: p1 :: rest
    /\ parse_engine_info id engine_info l
       = (Ok (or_unknown (py_float (strip (replace (str "l.") [] p0))),
              or_unknown (py_int (strip (replace (str "kW") [] p1)))), l').
Proof.
  intros Hin. unfold parse_engine_info.
  rewrite contains_char_true by assumption.
  destruct (split_char_two COMMA engine_info Hin) as (p & q & ps & E).
  rewrite E. cbn [map length Nat.leb].
  exists (strip p), (strip q), (map strip ps).
  unfold bind at 1. cbn [lift getitem nth_error].
  unfold bind at 1. rewrite try_conv by apply py_float_raises.
  unfold bind at 1. cbn [lift getitem nth_error].
  unfold bind at 1. rewrite try_conv by apply py_int_raises.
  unfold ret. eexists. split; reflexivity.
Qed.

Lemma parse_engine_info_total {RT : PyRuntime}
      (id engine_info : pystr) (l : list LogRecord) :
  exists v l', parse_engine_info id engine_info l = (Ok v, l').
Proof.
  destruct (existsb (N.eqb COMMA) engine_info) eqn:E.
  - apply existsb_char_In in E.
    destruct (parse_engine_info_with_comma id engine_info l E)
      as (p0 & p1 & rest & l' & _ & H).
    rewrite H. eexists. eexists. reflexivity.
  - unfold parse_engine_info. rewrite contains_char, E.
    eexists. eexists. reflexivity.
Qed.

Lemma parse_mileage_total {RT : PyRuntime}
      (id mileage_text : pystr) (l : list LogRecord) :
  exists v l', parse_mileage id mileage_text l = (Ok v, l').
Proof.
  unfold parse_mileage. destruct (contains _ _).
  - rewrite try_conv by apply py_int_raises. eexists. eexists. reflexivity.
  - eexists. eexists. reflexivity.
Qed.

(** C10: with a comma in the engine text, volume and power are converted each
    on its own: the volume from the first piece alone, the power from the
    second piece alone, and either may be unknown while the other is a value.
    "2.0 l., abc" gives a volume and no power, "n/a, 140 kW" a power and no
    volume. *)
Theorem C10_engine_fields_independent {RT : PyRuntime} (id : pystr) (l : list LogRecord) :
  (forall engine_info,
      In COMMA engine_info ->
      exists p0 p1 rest l',
        map strip (split [COMMA] None engine_info) = p0 :: p1 :: rest
        /\ parse_engine_info id engine_info l
           = (Ok (or_unknown (py_float (strip (replace (str "l.") [] p0))),
                  or_unknown (py_int (strip (replace (str "kW") [] p1)))), l'))
  /\ fst (parse_engine_info id (str "2.0 l., abc") l)
     = Ok (Some (FDec false 20 (-1)), None)
  /\ fst (parse_engine_info id (str "n/a, 140 kW") l)
     = Ok (None, Some 140%Z).
Proof.
  split; [|split].
  - intros engine_info Hin. now apply parse_engine_info_with_comma.
  - vm_compute. reflexivity.
  - vm_compute. reflexivity.
Qed.

(** An engine text with a volume and no readable power. *)
Lemma C10_engine_fields_witness :
  In COMMA (str "2.0 l., abc")
  /\ exists p0 p1 rest l',
       map strip (split [COMMA] None (str "2.0 l., abc")) = p0 :: p1 :: rest
       /\ @parse_engine_info ascii_runtime (str "12345") (str "2.0 l., abc") []
          = (Ok (or_unknown (@py_float ascii_runtime (strip (replace (str "l.") [] p0))),
                 or_unknown (@py_int ascii_runtime (strip (replace (str "kW") [] p1)))), l').
Proof.
  assert (Hin : In COMMA (str "2.0 l., abc")).
  { simpl. do 6 right. left. reflexivity. }
  split; [exact Hin|].
  exact (proj1 (@C10_engine_fields_independent ascii_runtime (str "12345") [])
               (str "2.0 l., abc") Hin).
Defined.

(* ================================================================= *)
(** ** C6: the mileage *)

(** C6, as the code has it: the test is whether the lower-cased mileage text
    contains " km" (a space, then km) anywhere. A text that does not is left
    unknown with one warning; a text that does is stripped of every "km" and
    every space and converted, unknown if that fails. "208 500 km" gives
    208500, and "unknown" gives unknown with a warning. *)
Theorem C6_mileage_needs_km {RT : PyRuntime} (id : pystr) (l : list LogRecord) :
  (forall mileage_text,
      contains (str " km") (lower mileage_text) = false ->
      parse_mileage id mileage_text l
      = (Ok None, l ++ [warn_record (mileage_unit_warning id mileage_text)]))
  /\ (forall mileage_text,
      contains (str " km") (lower mileage_text) = true ->
      fst (parse_mileage id mileage_text l)
      = Ok (or_unknown (py_int (mileage_cleaned mileage_text))))
  /\ parse_mileage id (str "208 500 km") l = (Ok (Some 208500%Z), l)
  /\ parse_mileage id (str "unknown") l
     = (Ok None, l ++ [warn_record (mileage_unit_warning id (str "unknown"))]).
Proof.
  split; [|split; [|split]].
  - intros t H. unfold parse_mileage. rewrite H. reflexivity.
  - intros t H. unfold parse_mileage. rewrite H.
    rewrite try_conv by apply py_int_raises. reflexivity.
  - vm_compute. reflexivity.
  - reflexivity.
Qed.

(** A mileage text without any unit. *)
Lemma C6_mileage_witness :
  contains (str " km") (@lower ascii_runtime (str "208500")) = false
  /\ @parse_mileage ascii_runtime (str "12345") (str "208500") []
     = (Ok None, [warn_record (mileage_unit_warning (str "12345") (str "208500"))]).
Proof.
  split; [reflexivity|].
  exact (proj1 (@C6_mileage_needs_km ascii_runtime (str "12345") [])
               (str "208500") eq_refl).
Defined.

(** On any runtime: a mileage text that does not end in "km" and is given a
    value all the same. *)
Lemma mileage_without_suffix {RT : PyRuntime} :
  ends_with (str "km") (lower (str "5 km 3")) = false
  /\ fst (parse_mileage (str "12345") (str "5 km 3") []) = Ok (Some 53%Z).
Proof. split; vm_compute; reflexivity. Qed.

(** C6 as stated fails: "5 km 3" lacks the suffix, whatever the case of its
    letters, and its mileage is 53, not unknown. *)
Lemma C6_counterexample :
  ends_with (str "km") (@lower ascii_runtime (str "5 km 3")) = false
  /\ fst (@parse_mileage ascii_runtime (str "12345") (str "5 km 3") [])
     = Ok (Some 53%Z)
  /\ fst (@parse_mileage ascii_runtime (str "12345") (str "5 km 3") [])
     <> Ok None.
Proof.
  destruct (@mileage_without_suffix ascii_runtime) as [H1 H2].
  split; [exact H1|]. split; [exact H2|]. rewrite H2. discriminate.
Qed.

(* ================================================================= *)
(** ** C4: the positional fields of the parameters block *)

Lemma bind_Ok {A B} (c : M A) (k : A -> M B) (l l' : list LogRecord) (a : A) :
  c l = (Ok a, l') -> bind c k l = k a l'.
Proof. intros E. unfold bind. now rewrite E. Qed.

(** The positional fields are read without an exception, and a field whose
    index the list does not have stays unknown. *)
Lemma parse_block_spans_spec {RT : PyRuntime}
      (id : pystr) (block_spans_values : list pystr) (l : list LogRecord) :
  exists bf l',
    parse_block_spans id block_spans_values l = (Ok bf, l')
    /\ bf_fuel bf = nth_error block_spans_values 0
    /\ bf_gearbox bf = nth_error block_spans_values 1
    /\ (length block_spans_values <= 2 ->
        bf_engine_volume bf = None /\ bf_engine_power bf = None)
    /\ (length block_spans_values <= 3 -> bf_mileage bf = None).
Proof.
  unfold parse_block_spans.
  destruct block_spans_values as [|v0 [|v1 [|v2 [|v3 rest]]]];
    cbn [length Nat.ltb Nat.leb].
  - eexists. eexists. split; [reflexivity|]. cbn. repeat split; auto.
  - eexists. eexists. split; [reflexivity|]. cbn. repeat split; auto.
  - eexists. eexists. split; [reflexivity|]. cbn. repeat split; auto.
  - destruct (parse_engine_info_total id v2 l) as ([vol pow] & l1 & E).
    unfold bind, lift, ret, getitem. cbn [nth_error]. rewrite E.
    eexists. eexists. split; [reflexivity|]. cbn. repeat split; auto; lia.
  - destruct (parse_engine_info_total id v2 l) as ([vol pow] & l1 & E).
    destruct (parse_mileage_total id v3 l1) as (mil & l2 & E2).
    unfold bind, lift, ret, getitem. cbn [nth_error]. rewrite E, E2.
    eexists. eexists. split; [reflexivity|]. cbn. repeat split; auto; lia.
Qed.

(** C4: for every list of span texts, the positional fields are read without
    an exception (no index is used that the list does not have), fuel and
    gearbox are the texts at index 0 and 1 where the list has them and unknown
    where it has not, and engine volume, engine power and mileage are unknown
    where the list stops before index 2 or 3. *)
Theorem C4_positional_fields_checked {RT : PyRuntime}
        (id : pystr) (block_spans_values : list pystr) (l : list LogRecord) :
  exists bf l',
    parse_block_spans id block_spans_values l = (Ok bf, l')
    /\ bf_fuel bf = nth_error block_spans_values 0
    /\ bf_gearbox bf = nth_error block_spans_values 1
    /\ (length block_spans_values <= 0 -> bf_fuel bf = None)
    /\ (length block_spans_values <= 1 -> bf_gearbox bf = None)
    /\ (length block_spans_values <= 2 ->
        bf_engine_volume bf = None /\ bf_engine_power bf = None)
    /\ (length block_spans_values <= 3 -> bf_mileage bf = None).
Proof.
  destruct (parse_block_spans_spec id block_spans_values l)
    as (bf & l' & E & Hf & Hg & He & Hm).
  exists bf, l'. split; [exact E|]. split; [exact Hf|]. split; [exact Hg|].
  split; [|split; [|split; assumption]].
  - intros H. rewrite Hf. apply nth_error_None. lia.
  - intros H. rewrite Hg. apply nth_error_None. lia.
Qed.

(* ================================================================= *)
(** ** The extractor never raises *)

Lemma extract_ad_id_total {RT : PyRuntime} (listing : Node) (l : list LogRecord) :
  exists found, extract_ad_id listing l = (Ok found, l).
Proof.
  unfold extract_ad_id.
  destruct (soup_find _ _ listing) as [[t|nm attrs cs]|].
  - eexists. reflexivity.
  - unfold has_attr, tag_getitem.
    destruct (lookup (str "data-id") attrs); eexists; reflexivity.
  - eexists. reflexivity.
Qed.

Lemma parse_title_eq (title_text : pystr) (l : list LogRecord) :
  parse_title title_text l
  = (Ok (fst (split_go [SPACE] (Some 1) 0 (strip title_text)),
         hd_error (snd (split_go [SPACE] (Some 1) 0 (strip title_text)))), l).
Proof.
  unfold parse_title, split.
  destruct (split_go [SPACE] (Some 1) 0 (strip title_text)) as [p [|q ps]];
    reflexivity.
Qed.

Lemma extract_price_total {RT : PyRuntime} (id : pystr) (listing : Node)
      (l : list LogRecord) :
  exists v l', extract_price id listing l = (Ok v, l').
Proof.
  unfold extract_price. destruct (soup_find _ _ listing).
  - apply parse_price_total.
  - eexists. eexists. reflexivity.
Qed.

Lemma parse_title_spans_spec {RT : PyRuntime} (id : pystr) (title_spans : list Node)
      (l : list LogRecord) :
  exists yr l',
    parse_title_spans id title_spans l
    = (Ok (yr, option_map get_text_strip (nth_error title_spans 1)), l').
Proof.
  unfold parse_title_spans.
  destruct title_spans as [|s0 [|s1 rest]]; cbn [length Nat.ltb Nat.leb].
  - eexists. eexists. reflexivity.
  - unfold bind at 1. unfold bind at 1. cbn [lift getitem nth_error].
    rewrite try_conv by apply py_int_raises.
    eexists. eexists. reflexivity.
  - unfold bind at 1. unfold bind at 1. cbn [lift getitem nth_error].
    rewrite try_conv by apply py_int_raises.
    eexists. eexists. reflexivity.
Qed.

Lemma extract_title_params_spec {RT : PyRuntime} (id : pystr) (listing : Node)
      (l : list LogRecord) :
  exists yr l', extract_title_params id listing l = (Ok (yr, body_type_of listing), l').
Proof.
  unfold extract_title_params, body_type_of.
  destruct (soup_find _ _ listing).
  - apply parse_title_spans_spec.
  - eexists. eexists. reflexivity.
Qed.

Lemma extract_params_block_spec {RT : PyRuntime} (id : pystr) (listing : Node)
      (l : list LogRecord) :
  exists bf l',
    extract_params_block id listing l = (Ok bf, l')
    /\ bf_fuel bf = block_text_of listing 0
    /\ bf_gearbox bf = block_text_of listing 1.
Proof.
  unfold extract_params_block, block_text_of.
  destruct (soup_find _ _ listing) as [pb|].
  - destruct (parse_block_spans_spec id
                (map get_text_strip (soup_find_all (str "span") None pb)) l)
      as (bf & l' & E & Hf & Hg & _).
    exists bf, l'. rewrite E, Hf, Hg, !nth_error_map. repeat split.
  - eexists. eexists. repeat split.
Qed.

(** A listing with an identity and a title element yields a record, whatever
    its other fields hold. *)
Lemma extract_listing_kept {RT : PyRuntime} (listing : Node) (l : list LogRecord)
      (c : N) (k : pystr) (title_elem : Node) :
  extract_ad_id listing l = (Ok (Some (c :: k)), l) ->
  title_of listing = Some title_elem ->
  exists car_data l',
    extract_listing listing l = (Ok (Some car_data), l')
    /\ ad_id car_data = Some (c :: k)
    /\ make car_data
       = Some (fst (split_go [SPACE] (Some 1) 0 (strip (text title_elem))))
    /\ model car_data
       = hd_error (snd (split_go [SPACE] (Some 1) 0 (strip (text title_elem))))
    /\ body_type car_data = body_type_of listing
    /\ fuel car_data = block_text_of listing 0
    /\ gearbox car_data = block_text_of listing 1.
Proof.
  intros Eid Et. unfold extract_listing.
  rewrite (bind_Ok _ _ _ _ _ Eid).
  unfold title_of in Et. rewrite Et.
  rewrite (bind_Ok _ _ _ _ _ (parse_title_eq (text title_elem) l)).
  destruct (extract_price_total (c :: k) listing l) as (pv & l1 & Ep).
  rewrite (bind_Ok _ _ _ _ _ Ep).
  destruct (extract_title_params_spec (c :: k) listing l1) as (yr & l2 & Ey).
  rewrite (bind_Ok _ _ _ _ _ Ey).
  destruct (extract_params_block_spec (c :: k) listing l2) as (bf & l3 & Eb & Hf & Hg).
  rewrite (bind_Ok _ _ _ _ _ Eb).
  eexists. eexists. split; [reflexivity|]. cbn. repeat split; assumption.
Qed.

Lemma extract_listing_no_identity {RT : PyRuntime} (listing : Node) (l : list LogRecord)
      (found : option pystr) :
  extract_ad_id listing l = (Ok found, l) ->
  found = None \/ found = Some [] ->
  extract_listing listing l = (Ok None, l ++ [warn_record no_identity_warning]).
Proof.
  intros Eid H. unfold extract_listing. rewrite (bind_Ok _ _ _ _ _ Eid).
  destruct H as [-> | ->]; reflexivity.
Qed.

Lemma extract_listing_no_title {RT : PyRuntime} (listing : Node) (l : list LogRecord)
      (c : N) (k : pystr) :
  extract_ad_id listing l = (Ok (Some (c :: k)), l) ->
  title_of listing = None ->
  extract_listing listing l = (Ok None, l ++ [warn_record (no_title_warning (c :: k))]).
Proof.
  intros Eid Et. unfold extract_listing. rewrite (bind_Ok _ _ _ _ _ Eid).
  unfold title_of in Et. rewrite Et. reflexivity.
Qed.

(* ================================================================= *)
(** ** C1: which listings yield a record *)



(* ================================================================= *)
(** ** C8: the text fields *)

Lemma get_text_strip_single (name : pystr) (attrs : list (pystr * pystr)) (t : pystr) :
  get_text_strip (Tag name attrs [NavigableString t]) = strip t.
Proof.
  unfold get_text_strip, all_strings. cbn.
  destruct (strip t) eqn:E; cbn; [reflexivity | now rewrite app_nil_r].
Qed.

(** C8, as the code has it: of a listing that yields a record, make and model
    are the two pieces of the stripped title text, and body type, fuel and
    gearbox are the texts of their spans with every text node stripped (for a
    span that holds one text node: its stripped text). A text that is empty
    after stripping is stored as the empty string; no text field is turned
    into unknown for being empty. *)
Theorem C8_text_fields_are_stripped_text {RT : PyRuntime}
        (listing : Node) (l l' : list LogRecord) (car_data : car) :
  extract_listing listing l = (Ok (Some car_data), l') ->
  (exists title_elem,
      title_of listing = Some title_elem
      /\ make car_data
         = nth_error (split [SPACE] (Some 1) (strip (text title_elem))) 0
      /\ model car_data
         = nth_error (split [SPACE] (Some 1) (strip (text title_elem))) 1)
  /\ body_type car_data = body_type_of listing
  /\ fuel car_data = block_text_of listing 0
  /\ gearbox car_data = block_text_of listing 1
  /\ (forall name attrs t,
         get_text_strip (Tag name attrs [NavigableString t]) = strip t)
  /\ (forall name attrs t,
         strip t = [] ->
         option_map get_text_strip (Some (Tag name attrs [NavigableString t]))
         = Some []).
Proof.
  intros E.
  destruct (extract_ad_id_total listing l) as (found & Eid).
  destruct found as [[|c k]|].
  - rewrite (extract_listing_no_identity listing l _ Eid (or_intror eq_refl)) in E.
    discriminate E.
  - destruct (title_of listing) as [title_elem|] eqn:Et.
    + destruct (extract_listing_kept listing l c k title_elem Eid Et)
        as (cd & l2 & E2 & _ & Hmk & Hmd & Hb & Hf & Hg).
      rewrite E2 in E. injection E as -> ->.
      split; [|repeat split; try assumption].
      * exists title_elem. split; [reflexivity|].
        unfold split.
        destruct (split_go [SPACE] (Some 1) 0 (strip (text title_elem))) as [p ps].
        cbn in Hmk, Hmd |- *. split; [assumption|].
        rewrite Hmd. destruct ps; reflexivity.
      * intros. apply get_text_strip_single.
      * intros name attrs t Hs. cbn [option_map].
        now rewrite get_text_strip_single, Hs.
    + rewrite (extract_listing_no_title listing l c k Eid Et) in E. discriminate E.
  - rewrite (extract_listing_no_identity listing l _ Eid (or_introl eq_refl)) in E.
    discriminate E.
Qed.

(** The listing with blank texts and its record. *)
Lemma C8_text_fields_witness :
  @extract_listing ascii_runtime listing_with_blank_texts [] = (Ok (Some blank_record), [])
  /\ fuel blank_record = block_text_of listing_with_blank_texts 0
  /\ body_type blank_record = body_type_of listing_with_blank_texts.
Proof.
  assert (E : @extract_listing ascii_runtime listing_with_blank_texts []
              = (Ok (Some blank_record), [])) by reflexivity.
  split; [exact E|].
  pose proof (@C8_text_fields_are_stripped_text ascii_runtime
                listing_with_blank_texts [] [] blank_record E) as H.
  split.
  - exact (proj1 (proj2 (proj2 H))).
  - exact (proj1 (proj2 H)).
Defined.

(** C8 as stated fails: a title and a fuel span that hold only blanks are
    stored as empty strings, not as unknown. *)
Lemma C8_counterexample :
  exists car_data,
    fst (@extract_listing ascii_runtime listing_with_blank_texts []) = Ok (Some car_data)
    /\ make car_data = Some [] /\ make car_data <> None
    /\ fuel car_data = Some [] /\ fuel car_data <> None.
Proof.
  exists blank_record. repeat split; try reflexivity; discriminate.
Qed.

(* ================================================================= *)
(** ** C3: the sink keeps the first row of an identity *)

Lemma stored_iff_rows (k : pystr) (t : Table) :
  existsb (has_ad_id k) t = false <-> rows_with k t = [].
Proof.
  unfold rows_with. induction t as [|r t IH]; cbn; [tauto|].
  destruct (has_ad_id k r); cbn; [split; discriminate | exact IH].
Qed.

Lemma rows_with_app (k : pystr) (t u : Table) :
  rows_with k (t ++ u) = rows_with k t ++ rows_with k u.
Proof. unfold rows_with. apply filter_app. Qed.

Lemma has_ad_id_spec (k : pystr) (r : car) :
  has_ad_id k r = true <-> ad_id r = Some k.
Proof.
  unfold has_ad_id. destruct (ad_id r) as [k'|].
  - rewrite str_eqb_eq. split; congruence.
  - split; discriminate.
Qed.

(** What could be bound is bound as it is. *)
Lemma bind_text_Ok (v v' : option pystr) : bind_text v = Ok v' -> v' = v.
Proof.
  unfold bind_text. destruct v as [s|]; [|congruence].
  destruct (utf8_encode_error s); congruence.
Qed.

Lemma bind_int_Ok (v v' : option Z) : bind_int v = Ok v' -> v' = v.
Proof.
  unfold bind_int. destruct v as [z|]; [|congruence].
  destruct (Z.leb INT64_MIN z && Z.leb z INT64_MAX); congruence.
Qed.

Ltac bound_value H :=
  match type of H with
  | and_then (bind_text ?v) _ = Ok _ =>
      let E := fresh "E" in let w := fresh "w" in
      destruct (bind_text v) as [w|] eqn:E; [|discriminate H];
      apply bind_text_Ok in E; subst w; cbn [and_then] in H
  | and_then (bind_int ?v) _ = Ok _ =>
      let E := fresh "E" in let w := fresh "w" in
      destruct (bind_int v) as [w|] eqn:E; [|discriminate H];
      apply bind_int_Ok in E; subst w; cbn [and_then] in H
  | and_then (bind_real ?v) _ = Ok _ =>
      unfold bind_real in H; cbn [and_then] in H
  end.

(** The row a statement is run with is the record as SQLite keeps it. *)
Lemma bind_parameters_Ok (c row : car) :
  bind_parameters c = Ok row -> row = stored_row c.
Proof.
  unfold bind_parameters. intros H. repeat bound_value H.
  injection H as <-. reflexivity.
Qed.

(** [insert_car] returns exactly when the record can be bound, and raises
    without touching the table otherwise. *)
Lemma insert_car_cases (c : car) (t : Table) :
  (bind_parameters c = Ok (stored_row c)
   /\ insert_car c t = (Ok tt, insert_or_ignore (stored_row c) t))
  \/ (exists e, bind_parameters c = Raise e /\ insert_car c t = (Raise e, t)).
Proof.
  unfold insert_car. destruct (bind_parameters c) as [row|e] eqn:E.
  - left. apply bind_parameters_Ok in E as ->. now split.
  - right. now exists e.
Qed.

(** After the INSERT the identity of the row is stored. *)
Lemma insert_or_ignore_stored (r : car) (k : pystr) (t : Table) :
  ad_id r = Some k -> existsb (has_ad_id k) (insert_or_ignore r t) = true.
Proof.
  intros H. unfold insert_or_ignore. rewrite H.
  destruct (existsb (has_ad_id k) t) eqn:E; [exact E|].
  rewrite existsb_app, E. cbn. apply has_ad_id_spec in H. now rewrite H.
Qed.

(** The INSERT keeps the UNIQUE constraint, whatever the row. *)
Lemma insert_or_ignore_unique (r : car) (t : Table) :
  unique_ad_id t -> unique_ad_id (insert_or_ignore r t).
Proof.
  intros U. unfold insert_or_ignore.
  destruct (ad_id r) as [k|] eqn:H.
  - destruct (existsb (has_ad_id k) t) eqn:E; [exact U|].
    intros k'. rewrite rows_with_app, length_app. cbn.
    destruct (has_ad_id k' r) eqn:Hk; cbn; [|specialize (U k'); lia].
    apply has_ad_id_spec in Hk. assert (k' = k) by congruence. subst k'.
    apply stored_iff_rows in E. rewrite E. cbn. lia.
  - intros k'. rewrite rows_with_app, length_app. cbn.
    unfold has_ad_id. rewrite H. cbn. specialize (U k'). lia.
Qed.

(** So does [insert_car], whether it returns or raises. *)
Lemma insert_car_unique (r : car) (t : Table) :
  unique_ad_id t -> unique_ad_id (snd (insert_car r t)).
Proof.
  intros U. unfold insert_car. destruct (bind_parameters r); cbn [snd];
    [now apply insert_or_ignore_unique | exact U].
Qed.

(** The table [setup_database] creates satisfies it. *)
Lemma setup_database_unique : unique_ad_id (setup_database None).
Proof. intros k. cbn. lia. Qed.

(** C3, as the code has it: two calls of [insert_car] with two records of one
    identity, both of which SQLite can bind: both calls return, the second
    changes nothing, the table holds exactly one row of that identity, and
    the row is the one written first (the first record as SQLite keeps it
    when the identity was new, the row already stored otherwise). A record
    that cannot be bound makes the call raise and leaves the table as it
    is. *)
Theorem C3_insert_twice_keeps_first (t : Table) (r1 r2 : car) (k : pystr) :
  unique_ad_id t ->
  ad_id r1 = Some k ->
  ad_id r2 = Some k ->
  (forall row1 row2,
     bind_parameters r1 = Ok row1 ->
     bind_parameters r2 = Ok row2 ->
     row1 = stored_row r1
     /\ exists t1,
          insert_car r1 t = (Ok tt, t1)
          /\ insert_car r2 t1 = (Ok tt, t1)
          /\ length (rows_with k t1) = 1
          /\ (rows_with k t = [] -> rows_with k t1 = [row1])
          /\ (forall r0, rows_with k t = [r0] -> rows_with k t1 = [r0])
          /\ unique_ad_id t1)
  /\ (forall e t', bind_parameters r2 = Raise e -> insert_car r2 t' = (Raise e, t')).
Proof.
  intros U H1 H2. split.
  - intros row1 row2 B1 B2.
    pose proof (bind_parameters_Ok _ _ B1) as S1.
    pose proof (bind_parameters_Ok _ _ B2) as S2.
    split; [exact S1|].
    assert (K1 : ad_id row1 = Some k) by (subst row1; exact H1).
    assert (K2 : ad_id row2 = Some k) by (subst row2; exact H2).
    exists (insert_or_ignore row1 t).
    split; [unfold insert_car; now rewrite B1|].
    split.
    { unfold insert_car. rewrite B2. f_equal.
      unfold insert_or_ignore at 1. rewrite K2.
      now rewrite (insert_or_ignore_stored row1 k t K1). }
    assert (R1 : has_ad_id k row1 = true) by now apply has_ad_id_spec.
    pose proof (insert_or_ignore_unique row1 t U) as U'.
    split; [|split; [|split]]; try exact U'.
    + unfold insert_or_ignore. rewrite K1.
      destruct (existsb (has_ad_id k) t) eqn:Ex.
      * specialize (U k). destruct (rows_with k t) as [|r0 [|? ?]] eqn:Hr; cbn in *;
          [|reflexivity|lia].
        apply stored_iff_rows in Hr. congruence.
      * apply stored_iff_rows in Ex. rewrite rows_with_app, Ex. cbn.
        now rewrite R1.
    + intros Hn. unfold insert_or_ignore. rewrite K1.
      apply stored_iff_rows in Hn as Ex. rewrite Ex.
      rewrite rows_with_app, Hn. cbn. now rewrite R1.
    + intros r0 H0. unfold insert_or_ignore. rewrite K1.
      destruct (existsb (has_ad_id k) t) eqn:Ex; [exact H0|].
      apply stored_iff_rows in Ex. rewrite Ex in H0. discriminate H0.
  - intros e t' B. unfold insert_car. now rewrite B.
Qed.

(** Two records of the identity "12345" into the empty table: the row kept
    is the first record, with the price 15000. *)
Lemma C3_insert_twice_witness :
  exists t1,
    insert_car (car_of (str "12345") 15000) (setup_database None) = (Ok tt, t1)
    /\ insert_car (car_of (str "12345") 9999) t1 = (Ok tt, t1)
    /\ rows_with (str "12345") t1 = [car_of (str "12345") 15000].
Proof.
  assert (U : unique_ad_id (setup_database None)).
  { intros k. simpl. lia. }
  destruct (proj1 (C3_insert_twice_keeps_first (setup_database None)
                     (car_of (str "12345") 15000) (car_of (str "12345") 9999)
                     (str "12345") U eq_refl eq_refl)
                  (car_of (str "12345") 15000) (car_of (str "12345") 9999)
                  eq_refl eq_refl)
    as (_ & t1 & E1 & E2 & _ & Hnew & _).
  exists t1. split; [exact E1|]. split; [exact E2|]. apply Hnew. reflexivity.
Defined.

(** C3 as stated fails: a second record of the identity "12345" whose price
    is 2^63 is not ignored without an error: the call raises OverflowError
    (and the stored row stays). *)
Lemma C3_counterexample :
  insert_car (car_of (str "12345") 9223372036854775808)
    (snd (insert_car (car_of (str "12345") 15000) (setup_database None)))
  = (Raise (OverflowError (str "Python int too large to convert to SQLite INTEGER")),
     [car_of (str "12345") 15000]).
Proof. reflexivity. Qed.

(** A listing whose price has twenty digits yields a record, which SQLite
    cannot bind: the pass logs the error of lines 152 to 154 and nothing else,
    and the table is left as it was. *)
Lemma unbound_record_is_logged :
  fst (@extract_listing ascii_runtime listing_with_long_price [])
  = Ok (Some {| ad_id := Some (str "12345"); make := Some (str "BMW");
                model := Some (str "520d"); price := Some 99999999999999999999%Z;
                year := None; body_type := None; fuel := None; gearbox := None;
                engine_volume := None; engine_power := None; mileage := None |})
  /\ @process_listing ascii_runtime unit initial_state listing_with_long_price
     = emit ERROR
         (unexpected_error_message
            (OverflowError (str "Python int too large to convert to SQLite INTEGER")))
         initial_state.
Proof. split; vm_compute; reflexivity. Qed.

(* ================================================================= *)
(** ** C9: an empty page ends the brand, not the run *)

Section PageLoop.
Context {RT : PyRuntime} {World : Type}.
Variable driver_get : World -> pystr -> World * (pystr + Node).
Variables pages_per_brand start_page : Z.

Lemma process_listing_calls (st : State World) (listing : Node) :
  driver_calls (process_listing st listing) = driver_calls st.
Proof.
  unfold process_listing.
  destruct (extract_listing listing (log st)) as [[[c|]|e] l]; try reflexivity.
  destruct (insert_car c (db st)) as [[u|e] t]; reflexivity.
Qed.

Lemma process_listings_calls (listings : list Node) (st : State World) :
  driver_calls (fold_left process_listing listings st) = driver_calls st.
Proof.
  revert st. induction listings as [|x xs IH]; intros st; cbn; [reflexivity|].
  now rewrite IH, process_listing_calls.
Qed.

(** The loop over pages only adds to the driver's calls, and its first call
    is for its first page. *)
Lemma scrape_pages_calls (brand : pystr) (pages : list Z) (st : State World) :
  exists more,
    driver_calls (scrape_pages driver_get st brand pages) = driver_calls st ++ more
    /\ match pages with
       | [] => more = []
       | page :: _ => exists more', more = page_url brand page :: more'
       end.
Proof.
  revert st. induction pages as [|page rest IH]; intros st.
  - exists []. cbn. now rewrite app_nil_r.
  - cbn [scrape_pages]. unfold load. cbn [world emit].
    destruct (driver_get (world st) (page_url brand page)) as [w [e|soup]].
    + match goal with |- context [scrape_pages _ ?s _ _] =>
        destruct (IH s) as (more & E & _) end.
      rewrite E. cbn. rewrite <- app_assoc. cbn.
      eexists. split; [reflexivity|]. eexists. reflexivity.
    + destruct (soup_find_all _ _ soup) as [|x xs].
      * cbn. eexists. split; [reflexivity|]. eexists. reflexivity.
      * match goal with |- context [scrape_pages _ ?s _ _] =>
          destruct (IH s) as (more & E & _) end.
        rewrite E, process_listings_calls. cbn. rewrite <- app_assoc. cbn.
        eexists. split; [reflexivity|]. eexists. reflexivity.
Qed.

Lemma py_range_first (a n : Z) :
  (0 < n)%Z -> exists rest, py_range a (a + n) = a :: rest.
Proof.
  intros H. unfold py_range.
  replace (a + n - a)%Z with n by lia.
  destruct (Z.to_nat n) as [|m] eqn:E; [lia|].
  cbn. rewrite Z.add_0_r. eexists. reflexivity.
Qed.

(** A range that has a page is the range of a positive number of pages. *)
Lemma py_range_inhabited (a n : Z) (before after : list Z) (x : Z) :
  py_range a (a + n) = before ++ x :: after -> (0 < n)%Z.
Proof.
  unfold py_range. replace (a + n - a)%Z with n by lia.
  destruct (Z.to_nat n) as [|m] eqn:E; [|lia].
  cbn. intros H. destruct before; discriminate H.
Qed.

(** A brand begins with its start page. *)
Lemma scrape_brand_first_call (st : State World) (brand : pystr) :
  (0 < pages_per_brand)%Z ->
  exists more,
    driver_calls (scrape_brand driver_get pages_per_brand start_page st brand)
    = driver_calls st ++ page_url brand start_page :: more.
Proof.
  intros H. unfold scrape_brand.
  destruct (py_range_first start_page pages_per_brand H) as (rest & ->).
  match goal with |- context [scrape_pages _ ?s _ _] =>
    destruct (scrape_pages_calls brand (start_page :: rest) s) as (more & E & more' & ->)
  end.
  rewrite E. cbn. eexists. reflexivity.
Qed.

Lemma scrape_brands_app (st : State World) (bs1 bs2 : list pystr) (brand : pystr) :
  scrape_brands driver_get pages_per_brand start_page st (bs1 ++ brand :: bs2)
  = scrape_brands driver_get pages_per_brand start_page
      (scrape_brand driver_get pages_per_brand start_page
         (scrape_brands driver_get pages_per_brand start_page st bs1) brand)
      bs2.
Proof. unfold scrape_brands. now rewrite fold_left_app. Qed.

(** C9: when the loop over the pages of a brand comes to a page that loads
    and holds no listing, it ends there: the driver is asked for that page and
    for none of the brand's pages after it. The run goes on with the brands
    that follow, and each of them begins by asking the driver for its start
    page. *)
Theorem C9_empty_page_ends_brand_only
        (st : State World) (brand : pystr)
        (earlier_pages : list Z) (page : Z) (later_pages : list Z)
        (later_brands : list pystr) (w : World) (soup : Node) :
  py_range start_page (start_page + pages_per_brand)
  = earlier_pages ++ page :: later_pages ->
  driver_get (world st) (page_url brand page) = (w, inr soup) ->
  soup_find_all (str "a") (Some (str "announcement-item")) soup = [] ->
  scrape_pages driver_get st brand (page :: later_pages)
  = after_empty_page st w brand page
  /\ driver_calls (scrape_pages driver_get st brand (page :: later_pages))
     = driver_calls st ++ [page_url brand page]
  /\ forall bs1 next bs2,
       later_brands = bs1 ++ next :: bs2 ->
       let before_next :=
         scrape_brands driver_get pages_per_brand start_page
           (after_empty_page st w brand page) bs1 in
       scrape_brands driver_get pages_per_brand start_page
         (scrape_pages driver_get st brand (page :: later_pages)) later_brands
       = scrape_brands driver_get pages_per_brand start_page
           (scrape_brand driver_get pages_per_brand start_page before_next next) bs2
       /\ exists more,
            driver_calls (scrape_brand driver_get pages_per_brand start_page
                                       before_next next)
            = driver_calls before_next ++ page_url next start_page :: more.
Proof.
  intros Hrange Hget Hempty.
  assert (Hn : (0 < pages_per_brand)%Z)
    by (eapply py_range_inhabited; exact Hrange).
  assert (E : scrape_pages driver_get st brand (page :: later_pages)
              = after_empty_page st w brand page).
  { cbn [scrape_pages]. unfold load. cbn [world emit].
    rewrite Hget, Hempty. reflexivity. }
  split; [exact E|]. split; [rewrite E; reflexivity|].
  intros bs1 next bs2 ->. cbv zeta. rewrite E. split.
  - apply scrape_brands_app.
  - now apply scrape_brand_first_call.
Qed.

End PageLoop.

(** A site without listings, three pages a brand: one page is asked for per
    brand. *)
Lemma C9_empty_page_witness :
  py_range 1 (1 + 3) = [] ++ 1%Z :: [2; 3]%Z
  /\ @scrape_pages ascii_runtime unit empty_site initial_state (str "bmw") [1; 2; 3]%Z
     = after_empty_page initial_state tt (str "bmw") 1%Z
  /\ driver_calls
       (@scrape_brands ascii_runtime unit empty_site 3%Z 1%Z initial_state
          [str "bmw"; str "audi"])
     = [page_url (str "bmw") 1%Z; page_url (str "audi") 1%Z].
Proof.
  split; [reflexivity|].
  split.
  - exact (proj1 (@C9_empty_page_ends_brand_only ascii_runtime unit empty_site 3%Z 1%Z
                    initial_state (str "bmw") [] 1%Z [2; 3]%Z [str "audi"] tt
                    (Tag (str "[document]") [] [])
                    eq_refl eq_refl eq_refl)).
  - vm_compute. reflexivity.
Defined.

(* ================================================================= *)
(** ** The queries: insert and look up *)

Lemma make_is_spec (m : pystr) (row : car) :
  make_is (Some m) row = true <-> make row = Some m.
Proof.
  unfold make_is. destruct (make row) as [b|].
  - rewrite str_eqb_eq. split; congruence.
  - split; discriminate.
Qed.

(** X1: a record that SQLite can bind, with a new identity and the make [m],
    is after [insert_car] (as the row SQLite keeps of it) the last row that
    [get_cars_by_make] returns for [m], after the rows it returned before;
    for any other make the answer is as before. A record whose identity is
    stored already changes no answer. A record that cannot be bound makes
    the call raise and leaves the table, and so every answer, as it was. *)
Theorem insert_car_then_get_cars_by_make (t : Table) (c : car) (k m : pystr) :
  ad_id c = Some k ->
  make c = Some m ->
  (forall row,
     bind_parameters c = Ok row ->
     row = stored_row c
     /\ fst (insert_car c t) = Ok tt
     /\ (rows_with k t = [] ->
         fst (get_cars_by_make (Some m) (snd (insert_car c t)))
         = fst (get_cars_by_make (Some m) t) ++ [row]
         /\ forall m', m' <> Some m ->
              get_cars_by_make m' (snd (insert_car c t)) = get_cars_by_make m' t)
     /\ (rows_with k t <> [] ->
         forall m', get_cars_by_make m' (snd (insert_car c t)) = get_cars_by_make m' t))
  /\ (forall e, bind_parameters c = Raise e -> insert_car c t = (Raise e, t)).
Proof.
  intros Hk Hm. split.
  - intros row B. pose proof (bind_parameters_Ok _ _ B) as S.
    assert (Rk : ad_id row = Some k) by (subst row; exact Hk).
    assert (Rm : make row = Some m) by (subst row; exact Hm).
    split; [exact S|]. unfold insert_car. rewrite B. cbn [fst snd].
    split; [reflexivity|]. unfold insert_or_ignore. rewrite Rk. split.
    + intros Hnew. apply stored_iff_rows in Hnew. rewrite Hnew.
      unfold get_cars_by_make. cbn [fst]. rewrite filter_app. cbn [filter].
      split.
      * assert (E : make_is (Some m) row = true) by now apply make_is_spec.
        now rewrite E.
      * intros m' Hne. rewrite filter_app. cbn [filter].
        assert (E : make_is m' row = false).
        { destruct m' as [m'|]; [|reflexivity].
          destruct (make_is (Some m') row) eqn:E; [|reflexivity].
          apply make_is_spec in E. congruence. }
        now rewrite E, app_nil_r.
    + intros Hold m'.
      destruct (existsb (has_ad_id k) t) eqn:E; [reflexivity|].
      apply stored_iff_rows in E. contradiction.
  - intros e B. unfold insert_car. now rewrite B.
Qed.

(** A new BMW into the empty table. *)
Lemma insert_car_then_get_cars_by_make_witness :
  fst (get_cars_by_make (Some (str "BMW"))
         (snd (insert_car (car_of (str "12345") 15000) (setup_database None))))
  = [car_of (str "12345") 15000].
Proof.
  exact (proj1 (proj1 (proj2 (proj2
           (proj1 (insert_car_then_get_cars_by_make (setup_database None)
                     (car_of (str "12345") 15000) (str "12345") (str "BMW")
                     eq_refl eq_refl)
                  (car_of (str "12345") 15000) eq_refl)))
           eq_refl)).
Defined.

Lemma distinct_go_In (seen l : list pystr) (x : pystr) :
  In x (distinct_go seen l) <-> In x l /\ ~ In x seen.
Proof.
  revert seen. induction l as [|y l IH]; intros seen; cbn.
  - tauto.
  - destruct (existsb (str_eqb y) seen) eqn:E.
    + apply existsb_exists in E as (z & Hz & Hyz). apply str_eqb_eq in Hyz. subst z.
      rewrite IH. split.
      * intros [H1 H2]. tauto.
      * intros [[->|H1] H2]; [contradiction | tauto].
    + assert (Hy : ~ In y seen).
      { intros H. assert (existsb (str_eqb y) seen = true); [|congruence].
        apply existsb_exists. exists y. split; [assumption | apply str_eqb_refl]. }
      cbn. rewrite IH. cbn. split.
      * intros [->|[H1 H2]]; [tauto|]. split; [tauto|]. intros H. apply H2. now right.
      * intros [[->|H1] H2]; [now left|].
        destruct (list_eq_dec N.eq_dec y x) as [->|Hne]; [now left|].
        right. split; [assumption|]. intros [H|H]; [congruence | contradiction].
Qed.

Lemma distinct_go_NoDup (seen l : list pystr) : NoDup (distinct_go seen l).
Proof.
  revert seen. induction l as [|y l IH]; intros seen; cbn; [constructor|].
  destruct (existsb (str_eqb y) seen); [apply IH|].
  constructor; [|apply IH].
  rewrite distinct_go_In. intros [_ H]. apply H. now left.
Qed.

(** X2: the makes [get_all_car_makes] lists are exactly the makes for which
    [get_cars_by_make] returns at least one row, and no make is listed
    twice. *)
Theorem get_all_car_makes_are_the_makes_with_rows (t : Table) :
  NoDup (get_all_car_makes t)
  /\ forall m, In m (get_all_car_makes t)
               <-> fst (get_cars_by_make (Some m) t) <> [].
Proof.
  split; [apply distinct_go_NoDup|].
  intros m. unfold get_all_car_makes, get_cars_by_make. cbn [fst].
  rewrite distinct_go_In, in_flat_map. split.
  - intros [(row & Hin & Hm) _].
    assert (E : make_is (Some m) row = true).
    { apply make_is_spec. destruct (make row) as [b|]; cbn in Hm; [|contradiction].
      destruct Hm as [->|[]]. reflexivity. }
    intros Hnil.
    assert (Hf : In row (filter (make_is (Some m)) t))
      by (apply filter_In; split; assumption).
    rewrite Hnil in Hf. contradiction.
  - intros Hne. split; [|intros []].
    destruct (filter (make_is (Some m)) t) as [|row rest] eqn:E; [congruence|].
    assert (Hf : In row (filter (make_is (Some m)) t)) by (rewrite E; now left).
    apply filter_In in Hf as [Hin Hm]. apply make_is_spec in Hm.
    exists row. split; [assumption|]. rewrite Hm. now left.
Qed.

Lemma filter_filter_length {A} (p q : A -> bool) (l : list A) :
  length (filter p (filter q l)) <= length (filter p l).
Proof.
  induction l as [|x l IH]; cbn; [lia|].
  destruct (q x), (p x) eqn:E; cbn; rewrite ?E; cbn; lia.
Qed.

(** X3: in a table that keeps its UNIQUE constraint no answer of
    [get_cars_by_make] holds an identity twice. *)
Theorem get_cars_by_make_identities_unique (t : Table) (m : option pystr) (k : pystr) :
  unique_ad_id t ->
  length (rows_with k (fst (get_cars_by_make m t))) <= 1.
Proof.
  intros U. specialize (U k). unfold get_cars_by_make, rows_with in *. cbn [fst].
  pose proof (filter_filter_length (has_ad_id k) (make_is m) t). lia.
Qed.

(** Two records of one identity, and a query. *)
Lemma get_cars_by_make_identities_witness :
  length (rows_with (str "12345")
            (fst (get_cars_by_make (Some (str "BMW"))
                    (snd (insert_car (car_of (str "12345") 9999)
                            (snd (insert_car (car_of (str "12345") 15000)
                                    (setup_database None)))))))) <= 1.
Proof.
  apply get_cars_by_make_identities_unique.
  apply insert_car_unique, insert_car_unique, setup_database_unique.
Defined.

(* ================================================================= *)
(** ** What a run does to the table *)

Lemma process_listing_db {RT : PyRuntime} {World : Type}
      (st : State World) (listing : Node) :
  db (process_listing st listing) = db st
  \/ exists car_data,
       scraped_row car_data
       /\ db (process_listing st listing) = snd (insert_car car_data (db st)).
Proof.
  destruct (extract_ad_id_total listing (log st)) as (found & Eid).
  destruct found as [[|c k]|].
  - left. unfold process_listing.
    now rewrite (extract_listing_no_identity listing (log st) _ Eid (or_intror eq_refl)).
  - destruct (title_of listing) as [title_elem|] eqn:Et.
    + destruct (extract_listing_kept listing (log st) c k title_elem Eid Et)
        as (car_data & l' & E & Ha & Hmk & _).
      right. exists car_data. split.
      * split; [now exists c, k | rewrite Hmk; discriminate].
      * unfold process_listing. rewrite E.
        destruct (insert_car car_data (db st)) as [[u|e] t]; reflexivity.
    + left. unfold process_listing.
      now rewrite (extract_listing_no_title listing (log st) c k Eid Et).
  - left. unfold process_listing.
    now rewrite (extract_listing_no_identity listing (log st) _ Eid (or_introl eq_refl)).
Qed.

Section TableRelation.
Context {RT : PyRuntime} {World : Type}.
Variable driver_get : World -> pystr -> World * (pystr + Node).
Variables pages_per_brand start_page : Z.

(** A relation between the table before and the table after that holds of
    no change, composes, and holds of the insertion of a scraped row. *)
Variable R : Table -> Table -> Prop.
Hypothesis R_refl : forall t, R t t.
Hypothesis R_trans : forall t1 t2 t3, R t1 t2 -> R t2 t3 -> R t1 t3.
Hypothesis R_insert :
  forall t car_data, scraped_row car_data -> R t (snd (insert_car car_data t)).

Lemma process_listing_related (st : State World) (listing : Node) :
  R (db st) (db (process_listing st listing)).
Proof.
  destruct (process_listing_db st listing) as [E | (car_data & Hs & E)]; rewrite E.
  - apply R_refl.
  - now apply R_insert.
Qed.

Lemma process_listings_related (listings : list Node) (st : State World) :
  R (db st) (db (fold_left process_listing listings st)).
Proof.
  revert st. induction listings as [|x xs IH]; intros st; cbn; [apply R_refl|].
  eapply R_trans; [apply process_listing_related | apply IH].
Qed.

Lemma scrape_pages_related (brand : pystr) (pages : list Z) (st : State World) :
  R (db st) (db (scrape_pages driver_get st brand pages)).
Proof.
  revert st. induction pages as [|page rest IH]; intros st; [apply R_refl|].
  cbn [scrape_pages]. unfold load. cbn [world emit].
  destruct (driver_get (world st) (page_url brand page)) as [w [e|soup]].
  - match goal with |- context [scrape_pages _ ?s _ _] => specialize (IH s) end.
    exact IH.
  - destruct (soup_find_all _ _ soup) as [|x xs] eqn:El; [apply R_refl|].
    match goal with |- context [scrape_pages _ ?s _ _] => specialize (IH s) end.
    eapply R_trans; [|exact IH].
    match goal with |- context [fold_left _ _ ?s] =>
      exact (process_listings_related (x :: xs) s) end.
Qed.

Lemma scrape_brands_related (car_brands : list pystr) (st : State World) :
  R (db st) (db (scrape_brands driver_get pages_per_brand start_page st car_brands)).
Proof.
  unfold scrape_brands. revert st.
  induction car_brands as [|b bs IH]; intros st; cbn; [apply R_refl|].
  eapply R_trans; [|apply IH].
  unfold scrape_brand.
  match goal with |- context [scrape_pages _ ?s _ ?p] =>
    exact (scrape_pages_related b p s) end.
Qed.

Lemma scrape_autoplius_related (car_brands : list pystr) (st : State World) :
  R (db st) (db (scrape_autoplius driver_get pages_per_brand start_page car_brands st)).
Proof.
  unfold scrape_autoplius. cbn [db emit].
  match goal with |- context [scrape_brands _ _ _ ?s _] =>
    exact (scrape_brands_related car_brands s) end.
Qed.

End TableRelation.

Lemma db_extends_refl (t : Table) : db_extends t t.
Proof. exists []. split; [now rewrite app_nil_r | constructor]. Qed.

Lemma db_extends_trans (t1 t2 t3 : Table) :
  db_extends t1 t2 -> db_extends t2 t3 -> db_extends t1 t3.
Proof.
  intros (a & -> & Ha) (b & -> & Hb). exists (a ++ b). split.
  - now rewrite app_assoc.
  - apply Forall_app. now split.
Qed.

Lemma db_extends_insert (t : Table) (car_data : car) :
  scraped_row car_data -> db_extends t (snd (insert_car car_data t)).
Proof.
  intros Hs.
  destruct (insert_car_cases car_data t) as [(_ & ->) | (e & _ & ->)]; cbn [snd];
    [|apply db_extends_refl].
  assert (Hr : scraped_row (stored_row car_data)) by exact Hs.
  unfold insert_or_ignore.
  destruct (ad_id (stored_row car_data)) as [k|].
  - destruct (existsb (has_ad_id k) t); [apply db_extends_refl|].
    exists [stored_row car_data]. split; [reflexivity | now constructor].
  - exists [stored_row car_data]. split; [reflexivity | now constructor].
Qed.

(** X4: a run of [scrape_autoplius] never removes, changes or reorders a
    stored row: the table afterwards is the table before with rows added at
    its end, each of them with a non-empty identity and a make; and a table
    that kept its UNIQUE constraint before keeps it. This holds whatever the
    site returns. *)
Theorem scrape_autoplius_only_adds_rows {RT : PyRuntime} {World : Type}
        (driver_get : World -> pystr -> World * (pystr + Node))
        (pages_per_brand start_page : Z)
        (car_brands : list pystr) (st : State World) :
  db_extends (db st)
    (db (scrape_autoplius driver_get pages_per_brand start_page car_brands st))
  /\ keeps_unique (db st)
       (db (scrape_autoplius driver_get pages_per_brand start_page car_brands st)).
Proof.
  split.
  - apply scrape_autoplius_related.
    + apply db_extends_refl.
    + apply db_extends_trans.
    + apply db_extends_insert.
  - apply scrape_autoplius_related; unfold keeps_unique.
    + auto.
    + auto.
    + intros t c _ U. now apply insert_car_unique.
Qed.

(* ================================================================= *)
(** ** What a run asks of the driver *)

Section DriverCalls.
Context {RT : PyRuntime} {World : Type}.
Variable driver_get : World -> pystr -> World * (pystr + Node).
Variables pages_per_brand start_page : Z.

Lemma scrape_pages_calls_prefix (brand : pystr) (pages : list Z) (st : State World) :
  exists k,
    k <= length pages
    /\ driver_calls (scrape_pages driver_get st brand pages)
       = driver_calls st ++ map (page_url brand) (firstn k pages).
Proof.
  revert st. induction pages as [|page rest IH]; intros st.
  - exists 0. cbn. now rewrite app_nil_r.
  - cbn [scrape_pages]. unfold load. cbn [world emit].
    destruct (driver_get (world st) (page_url brand page)) as [w [e|soup]].
    + match goal with |- context [scrape_pages _ ?s _ _] =>
        destruct (IH s) as (k & Hk & E) end.
      exists (S k). split; [cbn; lia|].
      rewrite E. cbn. now rewrite <- app_assoc.
    + destruct (soup_find_all _ _ soup) as [|x xs].
      * exists 1. split; [cbn; lia|]. cbn. destruct rest; reflexivity.
      * match goal with |- context [scrape_pages _ ?s _ _] =>
          destruct (IH s) as (k & Hk & E) end.
        exists (S k). split; [cbn; lia|].
        rewrite E, process_listings_calls. cbn. now rewrite <- app_assoc.
Qed.

Lemma py_range_length (a b : Z) : length (py_range a b) = Z.to_nat (b - a).
Proof. unfold py_range. now rewrite length_map, length_seq. Qed.

Lemma py_range_nth (a b : Z) (i : nat) :
  i < Z.to_nat (b - a) -> nth_error (py_range a b) i = Some (a + Z.of_nat i)%Z.
Proof.
  intros H. unfold py_range.
  rewrite nth_error_map, nth_error_seq.
  destruct (Nat.ltb_spec i (Z.to_nat (b - a))); [reflexivity | lia].
Qed.

(** X5: for one brand the driver is asked for the pages start_page,
    start_page + 1, ... in this order, each once and without a gap, and for
    at most pages_per_brand of them; nothing else is asked of it. *)
Theorem scrape_brand_asks_consecutive_pages (st : State World) (brand : pystr) :
  exists k,
    k <= Z.to_nat pages_per_brand
    /\ driver_calls (scrape_brand driver_get pages_per_brand start_page st brand)
       = driver_calls st
         ++ map (page_url brand)
                (firstn k (py_range start_page (start_page + pages_per_brand)))
    /\ forall i, i < k ->
         nth_error (py_range start_page (start_page + pages_per_brand)) i
         = Some (start_page + Z.of_nat i)%Z.
Proof.
  unfold scrape_brand.
  match goal with |- context [scrape_pages _ ?s _ ?p] =>
    destruct (scrape_pages_calls_prefix brand p s) as (k & Hk & E) end.
  rewrite py_range_length in Hk.
  replace (start_page + pages_per_brand - start_page)%Z with pages_per_brand in Hk by lia.
  exists k. split; [exact Hk|]. split; [exact E|].
  intros i Hi. apply py_range_nth. lia.
Qed.

(** Where no page loads, every page is asked for and the table is left
    alone. *)
Lemma scrape_pages_all_fail (brand : pystr) (pages : list Z) (st : State World) :
  (forall w url, exists w' e, driver_get w url = (w', inl e)) ->
  db (scrape_pages driver_get st brand pages) = db st
  /\ driver_calls (scrape_pages driver_get st brand pages)
     = driver_calls st ++ map (page_url brand) pages.
Proof.
  intros Hfail. revert st. induction pages as [|page rest IH]; intros st.
  - cbn. now rewrite app_nil_r.
  - cbn [scrape_pages]. unfold load. cbn [world emit].
    destruct (Hfail (world st) (page_url brand page)) as (w & e & ->).
    match goal with |- context [scrape_pages _ ?s _ _] =>
      destruct (IH s) as (Ed & Ec) end.
    rewrite Ed, Ec. cbn. now rewrite <- app_assoc.
Qed.

(** X6: when no page loads, the run still asks the driver for every page of
    every brand, in order (a failed load skips the page, not the brand), and
    the table is left exactly as it was. *)
Theorem failed_loads_skip_pages_only (car_brands : list pystr) (st : State World) :
  (forall w url, exists w' e, driver_get w url = (w', inl e)) ->
  db (scrape_autoplius driver_get pages_per_brand start_page car_brands st) = db st
  /\ driver_calls (scrape_autoplius driver_get pages_per_brand start_page car_brands st)
     = driver_calls st
       ++ flat_map (fun brand =>
                      map (page_url brand)
                          (py_range start_page (start_page + pages_per_brand)))
                   car_brands.
Proof.
  intros Hfail. unfold scrape_autoplius, scrape_brands. cbn [db driver_calls emit].
  assert (G : forall bs (s : State World),
             db (fold_left (scrape_brand driver_get pages_per_brand start_page) bs s) = db s
             /\ driver_calls (fold_left (scrape_brand driver_get pages_per_brand start_page) bs s)
                = driver_calls s
                  ++ flat_map (fun brand =>
                                 map (page_url brand)
                                     (py_range start_page (start_page + pages_per_brand)))
                              bs).
  { induction bs as [|b bs IH]; intros s; cbn [fold_left flat_map].
    - now rewrite app_nil_r.
    - destruct (IH (scrape_brand driver_get pages_per_brand start_page s b)) as (Ed & Ec).
      rewrite Ed, Ec. unfold scrape_brand.
      match goal with |- context [scrape_pages _ ?s0 _ ?p] =>
        destruct (scrape_pages_all_fail b p s0 Hfail) as (Ed' & Ec') end.
      rewrite Ed', Ec'. cbn. now rewrite <- app_assoc. }
  match goal with |- context [fold_left _ _ ?s] => destruct (G car_brands s) as (Ed & Ec) end.
  now rewrite Ed, Ec.
Qed.

(** X7: with pages_per_brand zero or negative the run asks nothing of the
    driver and stores nothing, whatever the brands: all it leaves is its
    opening line, one line a brand and its closing line in the log. *)
Theorem no_pages_no_requests (car_brands : list pystr) (st : State World) :
  (pages_per_brand <= 0)%Z ->
  scrape_autoplius driver_get pages_per_brand start_page car_brands st
  = {| world := world st; db := db st;
       log := log st
              ++ [{| levelname := INFO;
                     message := str "Starting Autoplius.lt scraping process." |}]
              ++ map brand_record car_brands
              ++ [{| levelname := INFO;
                     message := str "Autoplius.lt scraping process completed." |}];
       driver_calls := driver_calls st |}.
Proof.
  intros Hn. unfold scrape_autoplius, scrape_brands.
  assert (Hr : py_range start_page (start_page + pages_per_brand) = []).
  { unfold py_range. replace (Z.to_nat _) with 0 by lia. reflexivity. }
  assert (G : forall bs (s : State World),
             fold_left (scrape_brand driver_get pages_per_brand start_page) bs s
             = {| world := world s; db := db s;
                  log := log s ++ map brand_record bs;
                  driver_calls := driver_calls s |}).
  { induction bs as [|b bs IH]; intros s; cbn [fold_left map].
    - rewrite app_nil_r. destruct s; reflexivity.
    - rewrite IH. unfold scrape_brand. rewrite Hr. cbn.
      now rewrite <- app_assoc. }
  rewrite G. unfold emit. cbn. now rewrite <- !app_assoc.
Qed.

End DriverCalls.

(** A site none of whose pages loads, two brands, two pages each. *)
Lemma failed_loads_witness :
  (forall w url, exists w' e, failing_site w url = (w', inl e))
  /\ driver_calls
       (@scrape_autoplius ascii_runtime unit failing_site 2%Z 1%Z
          [str "bmw"; str "audi"] initial_state)
     = [page_url (str "bmw") 1%Z; page_url (str "bmw") 2%Z;
        page_url (str "audi") 1%Z; page_url (str "audi") 2%Z].
Proof.
  assert (H : forall w url, exists w' e, failing_site w url = (w', inl e)).
  { intros w url. exists w, (str "timeout"). reflexivity. }
  split; [exact H|].
  exact (proj2 (@failed_loads_skip_pages_only ascii_runtime unit failing_site 2%Z 1%Z
                  [str "bmw"; str "audi"] initial_state H)).
Defined.

(** No page a brand. *)
Lemma no_pages_witness :
  (0 <= 0)%Z
  /\ driver_calls
       (@scrape_autoplius ascii_runtime unit empty_site 0%Z 1%Z
          [str "bmw"; str "audi"] initial_state)
     = [].
Proof.
  split; [lia|].
  pose proof (@no_pages_no_requests ascii_runtime unit empty_site 0%Z 1%Z
                [str "bmw"; str "audi"] initial_state (Z.le_refl 0)) as H.
  rewrite H. reflexivity.
Defined.

(* ================================================================= *)
(** ** No state between listings *)

Lemma appends_only_ret {A} (a : A) : appends_only (ret a).
Proof. intros l. unfold ret. cbn. now rewrite app_nil_r. Qed.

Lemma appends_only_lift {A} (r : result A) : appends_only (lift r).
Proof. intros l. unfold lift. cbn. now rewrite app_nil_r. Qed.

Lemma appends_only_logger (lv : level) (msg : pystr) : appends_only (logger lv msg).
Proof. intros l. reflexivity. Qed.

Lemma appends_only_bind {A B} (c : M A) (k : A -> M B) :
  appends_only c -> (forall a, appends_only (k a)) -> appends_only (bind c k).
Proof.
  intros Hc Hk l. unfold bind. rewrite (Hc l).
  destruct (c []) as [[a|e] w]; cbn [fst snd].
  - rewrite (Hk a (l ++ w)), (Hk a w). cbn [fst snd]. now rewrite app_assoc.
  - reflexivity.
Qed.

Lemma appends_only_try {A} (body handler : M A) :
  appends_only body -> appends_only handler ->
  appends_only (try_except_ValueError body handler).
Proof.
  intros Hb Hh l. unfold try_except_ValueError. rewrite (Hb l).
  destruct (body []) as [[a|[m|m|m|m|m|m]] w]; cbn [fst snd]; try reflexivity.
  rewrite (Hh (l ++ w)), (Hh w). cbn [fst snd]. now rewrite app_assoc.
Qed.

Ltac appends :=
  cbv zeta;
  repeat first
    [ apply appends_only_ret
    | apply appends_only_lift
    | apply appends_only_logger
    | apply appends_only_try
    | apply appends_only_bind; [|intro; cbv beta zeta]
    | match goal with
      | |- appends_only (if ?b then _ else _) => destruct b
      | |- appends_only (match ?x with _ => _ end) => destruct x
      end ].

Lemma parse_price_appends {RT : PyRuntime} (id elem_text : pystr) :
  appends_only (parse_price id elem_text).
Proof. unfold parse_price, clean_price, warning. appends. Qed.

Lemma parse_title_spans_appends {RT : PyRuntime} (id : pystr) (spans : list Node) :
  appends_only (parse_title_spans id spans).
Proof. unfold parse_title_spans, warning. appends. Qed.

Lemma parse_engine_info_appends {RT : PyRuntime} (id engine_info : pystr) :
  appends_only (parse_engine_info id engine_info).
Proof. unfold parse_engine_info, warning. appends. Qed.

Lemma parse_mileage_appends {RT : PyRuntime} (id mileage_text : pystr) :
  appends_only (parse_mileage id mileage_text).
Proof. unfold parse_mileage, warning. appends. Qed.

Lemma parse_block_spans_appends {RT : PyRuntime} (id : pystr) (vs : list pystr) :
  appends_only (parse_block_spans id vs).
Proof.
  unfold parse_block_spans.
  repeat (apply appends_only_bind; [|intro; cbv beta]);
    try apply appends_only_ret;
    try (destruct (Nat.ltb _ _); [|apply appends_only_ret]);
    try (apply appends_only_bind; [apply appends_only_lift | intro; cbv beta]);
    try apply appends_only_ret;
    try apply parse_engine_info_appends;
    try apply parse_mileage_appends.
Qed.

Lemma extract_listing_appends {RT : PyRuntime} (listing : Node) :
  appends_only (extract_listing listing).
Proof.
  unfold extract_listing.
  apply appends_only_bind.
  { unfold extract_ad_id. appends. }
  intros [[|c k]|]; cbv beta.
  - unfold warning. appends.
  - destruct (soup_find _ _ listing) as [title_elem|]; [|unfold warning; appends].
    apply appends_only_bind; [unfold parse_title; appends|]. intros mm.
    apply appends_only_bind.
    { unfold extract_price. destruct (soup_find _ _ listing);
        [apply parse_price_appends | apply appends_only_ret]. }
    intros pv. apply appends_only_bind.
    { unfold extract_title_params. destruct (soup_find _ _ listing);
        [apply parse_title_spans_appends | apply appends_only_ret]. }
    intros yb. apply appends_only_bind.
    { unfold extract_params_block. destruct (soup_find _ _ listing);
        [apply parse_block_spans_appends | apply appends_only_ret]. }
    intros bf. apply appends_only_ret.
  - unfold warning. appends.
Qed.

(** What [extract_listing] returns for a listing, and the records it logs
    for it, depend on the listing alone and not on the log so far: nothing is
    carried from one listing to the next. *)
Lemma extract_listing_reads_the_listing_only {RT : PyRuntime}
        (listing : Node) (l1 l2 : list LogRecord) :
  fst (extract_listing listing l1) = fst (extract_listing listing l2)
  /\ exists added,
       snd (extract_listing listing l1) = l1 ++ added
       /\ snd (extract_listing listing l2) = l2 ++ added.
Proof.
  rewrite (extract_listing_appends listing l1), (extract_listing_appends listing l2).
  cbn [fst snd]. split; [reflexivity|]. eexists. split; reflexivity.
Qed.

Lemma extract_listing_identity {RT : PyRuntime} (listing : Node)
      (l l' : list LogRecord) (car_data : car) :
  extract_listing listing l = (Ok (Some car_data), l') ->
  exists c k, ad_id car_data = Some (c :: k).
Proof.
  intros E.
  destruct (extract_ad_id_total listing l) as (found & Eid).
  destruct found as [[|c k]|].
  - rewrite (extract_listing_no_identity listing l _ Eid (or_intror eq_refl)) in E.
    discriminate E.
  - destruct (title_of listing) as [title_elem|] eqn:Et.
    + destruct (extract_listing_kept listing l c k title_elem Eid Et)
        as (cd & l2 & E2 & Ha & _).
      rewrite E2 in E. injection E as -> _. now exists c, k.
    + rewrite (extract_listing_no_title listing l c k Eid Et) in E. discriminate E.
  - rewrite (extract_listing_no_identity listing l _ Eid (or_introl eq_refl)) in E.
    discriminate E.
Qed.

(** X8: a listing that is processed a second time (the same advertisement
    met again) leaves the table as the first pass left it, and is logged
    exactly as the first time: when it yields a record that SQLite can bind,
    the line "Successfully inserted car listing ..." is logged again although
    no row was stored; when the record cannot be bound, the error of the
    first pass is logged again. *)
Theorem process_listing_again_stores_nothing {RT : PyRuntime} {World : Type}
        (st : State World) (listing : Node) :
  let once := process_listing st listing in
  let twice := process_listing once listing in
  db twice = db once
  /\ exists added,
       log once = log st ++ added
       /\ log twice = log once ++ added
       /\ forall car_data l',
            extract_listing listing (log st) = (Ok (Some car_data), l') ->
            match fst (insert_car car_data (db st)) with
            | Ok _ => In (inserted_record car_data) added
            | Raise e =>
                In {| levelname := ERROR; message := unexpected_error_message e |} added
            end.
Proof.
  cbv zeta.
  assert (A : forall l, extract_listing listing l
                        = (fst (extract_listing listing []),
                           l ++ snd (extract_listing listing [])))
    by apply extract_listing_appends.
  destruct (extract_listing listing []) as [r0 w]. cbn [fst snd] in A.
  pose proof (A (log st)) as E1.
  remember (process_listing st listing) as once eqn:Honce.
  pose proof (A (log once)) as E2.
  unfold process_listing in Honce. rewrite E1 in Honce.
  unfold process_listing. rewrite E2.
  destruct r0 as [[car_data|]|e].
  - unfold insert_car in *.
    destruct (bind_parameters car_data) as [row|e] eqn:B;
      subst once; cbn [db log emit with_db with_log fst snd].
    + split.
      * destruct (extract_listing_identity listing _ _ _ E1) as (c & k & Ha).
        assert (Hr : ad_id row = Some (c :: k))
          by (rewrite (bind_parameters_Ok _ _ B); exact Ha).
        unfold insert_or_ignore at 1. rewrite Hr.
        now rewrite (insert_or_ignore_stored row (c :: k) (db st) Hr).
      * exists (w ++ [inserted_record car_data]). rewrite <- !app_assoc.
        split; [reflexivity|]. split; [reflexivity|].
        intros cd l' H. rewrite E1 in H. injection H as <- _.
        rewrite B. cbn [fst]. apply in_or_app. right. now left.
    + split; [reflexivity|].
      exists (w ++ [{| levelname := ERROR; message := unexpected_error_message e |}]).
      rewrite <- !app_assoc.
      split; [reflexivity|]. split; [reflexivity|].
      intros cd l' H. rewrite E1 in H. injection H as <- _.
      rewrite B. cbn [fst]. apply in_or_app. right. now left.
  - subst once; cbn [db log emit with_db with_log].
    split; [reflexivity|]. exists w.
    split; [reflexivity|]. split; [reflexivity|].
    intros cd l' H. rewrite E1 in H. discriminate H.
  - subst once; cbn [db log emit with_db with_log].
    split; [reflexivity|].
    eexists. rewrite <- !app_assoc.
    split; [reflexivity|]. split; [reflexivity|].
    intros cd l' H. rewrite E1 in H. discriminate H.
Qed.

(* ================================================================= *)
(** ** The title, the price and the title parameters *)

(** X9: make and model together are the whole stripped title: make holds no
    space, and the stripped title is make alone (model unknown) or make, one
    space and model. Nothing of the title is lost. *)
Theorem title_is_make_and_model (title_text : pystr) (l : list LogRecord) :
  exists mk md,
    parse_title title_text l = (Ok (mk, md), l)
    /\ ~ In SPACE mk
    /\ strip title_text
       = mk ++ match md with Some m => SPACE :: m | None => [] end.
Proof.
  unfold parse_title.
  destruct (in_dec N.eq_dec SPACE (strip title_text)) as [Hin|Hn].
  - destruct (first_occurrence SPACE _ Hin) as (a & b & E & Ha).
    rewrite E, split_once_present by assumption.
    exists a, (Some b). repeat split; assumption.
  - rewrite split_absent by assumption.
    exists (strip title_text), None. split; [reflexivity|].
    split; [assumption | now rewrite app_nil_r].
Qed.

Lemma replace_char_removes (c : N) (s : pystr) : ~ In c (replace [c] [] s).
Proof.
  unfold replace. induction s as [|x s IH]; [intros []|].
  cbn [replace_go]. rewrite starts_with_char.
  destruct (N.eqb_spec c x) as [->|Hne]; cbn [app length Nat.sub].
  - exact IH.
  - intros [H|H]; [congruence | contradiction].
Qed.

Lemma split_first_line (a b : pystr) :
  ~ In NEWLINE a ->
  fst (split_go [NEWLINE] None 0 (a ++ NEWLINE :: b)) = a
  /\ fst (split_go [NEWLINE] None 0 a) = a.
Proof.
  intros Hn. split.
  - now rewrite split_go_char_first by (assumption || discriminate).
  - now rewrite split_go_char_absent.
Qed.

(** X10: the price is read from the first line of the pricing text alone:
    whatever follows the first line break plays no part in it; and the text
    handed to [int()] holds no space. *)
Theorem price_reads_first_line_only {RT : PyRuntime}
        (id elem_text first_line rest : pystr) (l : list LogRecord) :
  strip elem_text = first_line ++ NEWLINE :: rest ->
  ~ In NEWLINE first_line ->
  let cleaned := replace [SPACE] [] (replace price_currency_literal [] (strip first_line)) in
  ~ In SPACE cleaned
  /\ parse_price id elem_text l
     = (Ok (or_unknown (py_int cleaned)),
        match py_int cleaned with
        | Ok _ => l
        | Raise _ => l ++ [warn_record (price_warning id cleaned)]
        end).
Proof.
  intros E Hn. cbv zeta. split; [apply replace_char_removes|].
  unfold parse_price, clean_price. rewrite E.
  unfold bind at 1. unfold bind at 1. unfold lift at 1.
  rewrite getitem_split_0.
  rewrite (proj1 (split_first_line first_line rest Hn)).
  unfold ret at 1.
  now rewrite try_conv by apply py_int_raises.
Qed.

(** A price with a second line. *)
Lemma price_reads_first_line_witness :
  strip (str " 9 500 " ++ NEWLINE :: str "150 / month ") = str "9 500 " ++ NEWLINE :: str "150 / month"
  /\ ~ In NEWLINE (str "9 500 ")
  /\ @parse_price ascii_runtime (str "12345")
       (str " 9 500 " ++ NEWLINE :: str "150 / month ") []
     = (Ok (Some 9500%Z), []).
Proof.
  assert (E : strip (str " 9 500 " ++ NEWLINE :: str "150 / month ")
              = str "9 500 " ++ NEWLINE :: str "150 / month") by reflexivity.
  assert (Hn : ~ In NEWLINE (str "9 500 ")).
  { intros H. simpl in H. repeat destruct H as [H|H]; try discriminate H; exact H. }
  split; [exact E|]. split; [exact Hn|].
  exact (proj2 (@price_reads_first_line_only ascii_runtime (str "12345")
                  (str " 9 500 " ++ NEWLINE :: str "150 / month ")
                  (str "9 500 ") (str "150 / month") [] E Hn)).
Defined.

(** The title parameters, in full: the year from the first four characters
    of the first span, the body type from the second span, one warning where
    the year does not convert. *)
Lemma parse_title_spans_full {RT : PyRuntime} (id : pystr) (title_spans : list Node)
      (l : list LogRecord) :
  parse_title_spans id title_spans l
  = (Ok (match nth_error title_spans 0 with
         | Some span => or_unknown (py_int (year_text_of span))
         | None => None
         end,
         option_map get_text_strip (nth_error title_spans 1)),
     match nth_error title_spans 0 with
     | Some span =>
         match py_int (year_text_of span) with
         | Ok _ => l
         | Raise _ => l ++ [warn_record (year_warning id (year_text_of span))]
         end
     | None => l
     end).
Proof.
  unfold parse_title_spans, year_text_of.
  destruct title_spans as [|s0 [|s1 rest]]; cbn [length Nat.ltb Nat.leb nth_error].
  - reflexivity.
  - unfold bind at 1. unfold bind at 1. cbn [lift getitem nth_error].
    rewrite try_conv by apply py_int_raises. reflexivity.
  - unfold bind at 1. unfold bind at 1. cbn [lift getitem nth_error].
    rewrite try_conv by apply py_int_raises. reflexivity.
Qed.

(** X11: the title parameters never raise, for any list of spans: the body
    type is the text of the second span whether or not the year converts,
    the year comes from the first four characters of the first span, and a
    year that does not convert costs exactly one warning, which names the
    text that failed; nothing is logged when the year converts or there is
    no span. With one span the body type is unknown, with none the year is
    too. *)
Theorem title_parameters_degrade_singly {RT : PyRuntime}
        (id : pystr) (title_spans : list Node) (l : list LogRecord) :
  exists yr l',
    parse_title_spans id title_spans l
    = (Ok (yr, option_map get_text_strip (nth_error title_spans 1)), l')
    /\ yr = match nth_error title_spans 0 with
            | Some span => or_unknown (py_int (year_text_of span))
            | None => None
            end
    /\ l' = match nth_error title_spans 0, yr with
            | Some span, None =>
                l ++ [warn_record (year_warning id (year_text_of span))]
            | _, _ => l
            end.
Proof.
  rewrite parse_title_spans_full.
  eexists. eexists. split; [reflexivity|]. split; [reflexivity|].
  destruct (nth_error title_spans 0) as [span|]; [|reflexivity].
  destruct (py_int (year_text_of span)); reflexivity.
Qed.

(* ================================================================= *)
(** ** A year has four digits at most *)

Lemma scan_digits_digits (prev_us : bool) (s : pystr) (vs : list N) :
  scan_digits prev_us s = Some vs ->
  length vs <= length s /\ Forall (fun d => (d <= 9)%N) vs.
Proof.
  revert prev_us vs. induction s as [|c s IH]; intros prev_us vs; cbn [scan_digits].
  - destruct prev_us; [discriminate|]. intros [= <-]. split; [cbn; lia | constructor].
  - destruct (N.eqb c UNDERSCORE).
    + destruct prev_us; [discriminate|]. intros H.
      destruct (IH _ _ H) as [Hl Hf]. split; [cbn; lia | assumption].
    + destruct (is_digit c) eqn:Hd; [|discriminate].
      destruct (scan_digits false s) as [ds|] eqn:E; [|discriminate].
      intros [= <-]. destruct (IH _ _ E) as [Hl Hf]. split; [cbn; lia|].
      constructor; [|assumption].
      unfold is_digit in Hd. apply andb_true_iff in Hd as [H1 H2].
      apply N.leb_le in H1, H2. lia.
Qed.

Lemma digits_value_go_bound (vs : list N) (acc : Z) :
  Forall (fun d => (d <= 9)%N) vs ->
  (0 <= acc)%Z ->
  (0 <= fold_left (fun a d => (a * 10 + Z.of_N d)%Z) vs acc
   < (acc + 1) * 10 ^ Z.of_nat (length vs))%Z.
Proof.
  intros Hf. revert acc. induction Hf as [|d vs Hd Hf IH]; intros acc Hacc.
  - cbn. lia.
  - cbn [fold_left length]. rewrite Nat2Z.inj_succ, Z.pow_succ_r by lia.
    assert (H0 : (0 <= acc * 10 + Z.of_N d)%Z) by lia.
    specialize (IH _ H0).
    assert (Hp : (0 < 10 ^ Z.of_nat (length vs))%Z) by (apply Z.pow_pos_nonneg; lia).
    nia.
Qed.

Lemma digits_value_bound (vs : list N) :
  Forall (fun d => (d <= 9)%N) vs ->
  (0 <= digits_value vs < 10 ^ Z.of_nat (length vs))%Z.
Proof.
  intros Hf. unfold digits_value.
  pose proof (digits_value_go_bound vs 0 Hf (Z.le_refl 0)). lia.
Qed.

Lemma lstrip_by_length (p : N -> bool) (s : pystr) : length (lstrip_by p s) <= length s.
Proof.
  induction s as [|c s IH]; cbn; [lia|]. destruct (p c); cbn; lia.
Qed.

Lemma rstrip_by_length (p : N -> bool) (s : pystr) : length (rstrip_by p s) <= length s.
Proof.
  unfold rstrip_by. rewrite length_rev.
  pose proof (lstrip_by_length p (rev s)). now rewrite length_rev in H.
Qed.

Lemma transform_length {RT : PyRuntime} (s : pystr) :
  length (transform_decimal_and_space s) <= length s.
Proof.
  unfold transform_decimal_and_space. destruct (forallb is_ascii s); [lia|].
  induction s as [|c s IH]; cbn [transform_chars length]; [lia|].
  destruct (N.ltb c 127); [cbn; lia|].
  destruct (py_isspace c); [cbn; lia|].
  destruct (unicode_todecimal c); cbn; lia.
Qed.

Lemma take_sign_cases (s : pystr) :
  (exists r, s = 45%N :: r /\ take_sign s = (true, r))
  \/ (exists c, take_sign s = (false, c) /\ length c <= length s).
Proof.
  destruct s as [|c r]; [right; exists []; split; [reflexivity | cbn; lia]|].
  destruct (N.eq_dec c 45) as [->|H45]; [left; now exists r|].
  right. destruct (N.eq_dec c 43) as [->|H43].
  - exists r. split; [reflexivity | cbn; lia].
  - exists (c :: r). split; [|lia].
    unfold take_sign. destruct c as [|p]; [reflexivity|].
    repeat (destruct p as [p|p|]; try reflexivity; try congruence).
Qed.

(** An integer read from a text of [n] characters lies strictly between
    -10^(n-1) and 10^n. *)
Lemma py_int_bound {RT : PyRuntime} (s : pystr) (v : Z) (n : nat) :
  py_int s = Ok v -> length s <= S n ->
  (- 10 ^ Z.of_nat n < v < 10 ^ Z.of_nat (S n))%Z.
Proof.
  unfold py_int, long_from_string. intros H Hlen.
  pose proof (transform_length s) as Ht.
  pose proof (rstrip_by_length c_isspace
                (lstrip_by c_isspace (transform_decimal_and_space s))) as Hr.
  pose proof (lstrip_by_length c_isspace (transform_decimal_and_space s)) as Hl.
  set (body := rstrip_by c_isspace (lstrip_by c_isspace (transform_decimal_and_space s))) in *.
  assert (Hb : length body <= S n) by lia.
  assert (P10 : forall a b : nat, a <= b -> (10 ^ Z.of_nat a <= 10 ^ Z.of_nat b)%Z)
    by (intros a b Hab; apply Z.pow_le_mono_r; lia).
  assert (Pos : forall a : nat, (0 < 10 ^ Z.of_nat a)%Z)
    by (intros a; apply Z.pow_pos_nonneg; lia).
  destruct (take_sign_cases body) as [(r & Eb & Es) | (c & Es & Hc)];
    rewrite Es in H; cbv beta iota in H.
  - destruct r as [|x r]; [discriminate H|].
    destruct (N.eqb x UNDERSCORE); [discriminate H|].
    destruct (scan_digits false (x :: r)) as [vs|] eqn:E; [|discriminate H].
    destruct (Nat.ltb _ _); [discriminate H|]. assert (Hv0 : forall a, Ok a = Ok v -> v = a) by (intros a Ha; congruence).
    apply Hv0 in H. subst v.
    destruct (scan_digits_digits _ _ _ E) as [Hvl Hvf].
    pose proof (digits_value_bound vs Hvf) as Hv.
    rewrite Eb in Hb. cbn [length] in Hb, Hvl.
    pose proof (P10 (length vs) n ltac:(lia)). pose proof (Pos (S n)). lia.
  - destruct c as [|x r]; [discriminate H|].
    destruct (N.eqb x UNDERSCORE); [discriminate H|].
    destruct (scan_digits false (x :: r)) as [vs|] eqn:E; [|discriminate H].
    destruct (Nat.ltb _ _); [discriminate H|]. assert (Hv0 : forall a, Ok a = Ok v -> v = a) by (intros a Ha; congruence).
    apply Hv0 in H. subst v.
    destruct (scan_digits_digits _ _ _ E) as [Hvl Hvf].
    pose proof (digits_value_bound vs Hvf) as Hv.
    pose proof (P10 (length vs) (S n) ltac:(lia)). pose proof (Pos n). lia.
Qed.

(** X12: a year that the title parameters yield is an integer of four digits
    at most, between -999 and 9999: only the first four characters of the
    span are read. *)
Theorem year_has_four_digits_at_most {RT : PyRuntime}
        (id : pystr) (title_spans : list Node) (l l' : list LogRecord)
        (y : Z) (bt : option pystr) :
  parse_title_spans id title_spans l = (Ok (Some y, bt), l') ->
  (-999 <= y <= 9999)%Z.
Proof.
  rewrite parse_title_spans_full. intros H.
  assert (Hy : match nth_error title_spans 0 with
               | Some span => or_unknown (py_int (year_text_of span))
               | None => None
               end = Some y) by congruence.
  clear H.
  destruct (nth_error title_spans 0) as [span|]; [|discriminate Hy].
  destruct (py_int (year_text_of span)) as [v|e] eqn:E; [|discriminate Hy].
  injection Hy as ->.
  assert (Hl : length (year_text_of span) <= 4)
    by (unfold year_text_of; rewrite length_firstn; lia).
  pose proof (py_int_bound _ _ 3 E Hl) as B.
  change (10 ^ Z.of_nat 3)%Z with 1000%Z in B.
  change (10 ^ Z.of_nat 4)%Z with 10000%Z in B. lia.
Qed.

(** The year of "2015-03". *)
Lemma year_has_four_digits_witness :
  @parse_title_spans ascii_runtime (str "12345") title_spans_example []
  = (Ok (Some 2015%Z, Some (str "Sedanas")), [])
  /\ (-999 <= 2015 <= 9999)%Z.
Proof.
  assert (E : @parse_title_spans ascii_runtime (str "12345") title_spans_example []
              = (Ok (Some 2015%Z, Some (str "Sedanas")), [])) by reflexivity.
  split; [exact E|].
  exact (@year_has_four_digits_at_most ascii_runtime (str "12345")
           title_spans_example [] [] 2015%Z (Some (str "Sedanas")) E).
Defined.

(* ================================================================= *)
(** ** The engine text beyond its second piece *)

Lemma not_in_literal (c : N) (s : pystr) :
  existsb (N.eqb c) s = false -> ~ In c s.
Proof. intros H Hin. apply existsb_char_In in Hin. congruence. Qed.

(** X13: of an engine text only the first two comma-separated pieces are
    read: whatever follows a second comma changes neither the volume, nor
    the power, nor the log. *)
Theorem engine_info_reads_two_pieces {RT : PyRuntime}
        (id a b c : pystr) (l : list LogRecord) :
  ~ In COMMA a ->
  ~ In COMMA b ->
  parse_engine_info id (a ++ COMMA :: b ++ COMMA :: c) l
  = parse_engine_info id (a ++ COMMA :: b) l.
Proof.
  intros Ha Hb. unfold parse_engine_info.
  rewrite !contains_char_true by (apply in_or_app; right; now left).
  assert (E1 : exists rest, split [COMMA] None (a ++ COMMA :: b ++ COMMA :: c)
                            = a :: b :: rest).
  { unfold split. rewrite split_go_char_first by (assumption || discriminate).
    cbn [option_map]. rewrite split_go_char_first by (assumption || discriminate).
    cbn [fst snd]. eexists. reflexivity. }
  assert (E2 : split [COMMA] None (a ++ COMMA :: b) = [a; b]).
  { unfold split. rewrite split_go_char_first by (assumption || discriminate).
    cbn [option_map]. now rewrite split_go_char_absent. }
  destruct E1 as (rest & E1). rewrite E1, E2. reflexivity.
Qed.

(** An engine text with a third piece. *)
Lemma engine_info_two_pieces_witness :
  ~ In COMMA (str "2.0 l.")
  /\ ~ In COMMA (str " 140 kW")
  /\ @parse_engine_info ascii_runtime (str "12345")
       (str "2.0 l." ++ COMMA :: str " 140 kW" ++ COMMA :: str " 190 AG") []
     = (Ok (Some (FDec false 20 (-1)), Some 140%Z), []).
Proof.
  assert (Ha : ~ In COMMA (str "2.0 l.")) by (apply not_in_literal; reflexivity).
  assert (Hb : ~ In COMMA (str " 140 kW")) by (apply not_in_literal; reflexivity).
  split; [exact Ha|]. split; [exact Hb|].
  rewrite (@engine_info_reads_two_pieces ascii_runtime (str "12345")
             (str "2.0 l.") (str " 140 kW") (str " 190 AG") [] Ha Hb).
  reflexivity.
Defined.

(* ================================================================= *)
(** ** The input of a prediction *)

Section PrepareInputFacts.
Variable format_float : pyfloat -> pystr.
Variable key_error_text : list pystr -> pystr.
Variable original_categorical_cols : list pystr.

Lemma has_column_In (key : pystr) (df : Frame) :
  has_column key df = true <-> In key (columns df).
Proof.
  unfold has_column. rewrite existsb_exists. split.
  - intros (x & Hin & Hx). apply str_eqb_eq in Hx. now subst.
  - intros Hin. exists key. split; [assumption | apply str_eqb_refl].
Qed.

Lemma existsb_str_In (key : pystr) (l : list pystr) :
  existsb (str_eqb key) l = true <-> In key l.
Proof.
  rewrite existsb_exists. split.
  - intros (x & Hin & Hx). apply str_eqb_eq in Hx. now subst.
  - intros Hin. exists key. split; [assumption | apply str_eqb_refl].
Qed.

Lemma str_eqb_neq (a b : pystr) : a <> b -> str_eqb a b = false.
Proof.
  intros H. destruct (str_eqb a b) eqn:E; [|reflexivity].
  apply str_eqb_eq in E. contradiction.
Qed.

(** Setting a column the frame has keeps its columns. *)
Lemma set_column_columns (key : pystr) (value : pyval) (df : Frame) :
  has_column key df = true -> columns (set_column key value df) = columns df.
Proof.
  intros H. unfold set_column. rewrite H. unfold columns. rewrite map_map.
  apply map_ext. intros [c v]. cbn. now destruct (str_eqb key c).
Qed.

Lemma cell_of_column (c : pystr) (df : Frame) :
  In c (columns df) -> exists v, cell c df = Some v.
Proof.
  induction df as [|[n v] d IH]; cbn; [intros []|].
  intros [->|H]; [rewrite str_eqb_refl; now exists v|].
  destruct (str_eqb c n); [now exists v | now apply IH].
Qed.

Lemma set_column_cell (key c : pystr) (value : pyval) (df : Frame) :
  has_column key df = true ->
  cell c (set_column key value df)
  = if str_eqb key c then Some value else cell c df.
Proof.
  intros H. unfold set_column. rewrite H.
  destruct (str_eqb key c) eqn:E.
  - apply str_eqb_eq in E. subst c.
    apply has_column_In, cell_of_column in H. destruct H as (v0 & H).
    clear - H. induction df as [|[n v] d IH]; cbn in *; [discriminate|].
    destruct (str_eqb key n) eqn:En; cbn; rewrite En; [reflexivity | now apply IH].
  - clear H. induction df as [|[n v] d IH]; cbn; [reflexivity|].
    destruct (str_eqb key n) eqn:En; cbn.
    + apply str_eqb_eq in En. subst n. rewrite str_eqb_neq; [exact IH|].
      intros ->. now rewrite str_eqb_refl in E.
    + destruct (str_eqb c n); [reflexivity | exact IH].
Qed.

(** One item: no exception, the columns stay, and a cell changes as
    [cell_after] says. *)
Lemma prepare_item_spec (df : Frame) (item : pystr * pyval) (l : list LogRecord)
      (c : pystr) (cur : pyval) :
  In c (columns df) ->
  cell c df = Some cur ->
  exists df' l',
    prepare_item format_float original_categorical_cols df item l = (Ok df', l')
    /\ columns df' = columns df
    /\ cell c df'
       = Some (cell_after format_float original_categorical_cols (columns df) c cur item).
Proof.
  intros Hc Hcur. destruct item as [key value].
  unfold prepare_item, cell_after, sets_dummy. cbn [fst snd].
  fold (has_column key df).
  destruct (has_column key df) eqn:Hk.
  - eexists. eexists. split; [reflexivity|].
    split; [now apply set_column_columns|].
    rewrite set_column_cell by assumption.
    destruct (str_eqb key c); [reflexivity|]. cbn. exact Hcur.
  - assert (Hne : str_eqb key c = false).
    { apply str_eqb_neq. intros ->. apply has_column_In in Hc. congruence. }
    rewrite Hne. cbn [negb andb].
    destruct (existsb (str_eqb key) original_categorical_cols); cbn [andb].
    + destruct (has_column (dummy_col_name format_float key value) df) eqn:Hd.
      * eexists. eexists. split; [reflexivity|].
        split; [now apply set_column_columns|].
        rewrite set_column_cell by assumption.
        destruct (str_eqb (dummy_col_name format_float key value) c); [reflexivity|].
        exact Hcur.
      * eexists. eexists. split; [reflexivity|]. split; [reflexivity|].
        rewrite str_eqb_neq; [exact Hcur|].
        intros E. rewrite E in Hd. apply has_column_In in Hc. congruence.
    + eexists. eexists. split; [reflexivity|]. split; [reflexivity|]. exact Hcur.
Qed.

Lemma prepare_items_spec (items : list (pystr * pyval)) (df : Frame)
      (l : list LogRecord) (c : pystr) (cur : pyval) :
  In c (columns df) ->
  cell c df = Some cur ->
  exists df' l',
    prepare_items format_float original_categorical_cols items df l = (Ok df', l')
    /\ columns df' = columns df
    /\ cell c df'
       = Some (fold_left (cell_after format_float original_categorical_cols (columns df) c)
                         items cur).
Proof.
  revert df l cur. induction items as [|item rest IH]; intros df l cur Hc Hcur.
  - eexists. eexists. repeat split. exact Hcur.
  - destruct (prepare_item_spec df item l c cur Hc Hcur) as (df1 & l1 & E1 & C1 & V1).
    cbn [prepare_items fold_left]. rewrite (bind_Ok _ _ _ _ _ E1).
    rewrite <- C1 in Hc.
    destruct (IH df1 l1 _ Hc V1) as (df2 & l2 & E2 & C2 & V2).
    exists df2, l2. split; [exact E2|]. split; [congruence|].
    rewrite V2, C1. reflexivity.
Qed.

(** The items leave the columns as they are, also of a frame without
    columns. *)
Lemma prepare_items_columns (items : list (pystr * pyval)) (df : Frame)
      (l : list LogRecord) :
  exists df' l',
    prepare_items format_float original_categorical_cols items df l = (Ok df', l')
    /\ columns df' = columns df.
Proof.
  revert df l. induction items as [|[key value] rest IH]; intros df l.
  - eexists. eexists. split; reflexivity.
  - cbn [prepare_items]. unfold prepare_item. cbn [fst snd].
    destruct (has_column key df) eqn:Hk.
    + unfold bind at 1. unfold ret at 1.
      destruct (IH (set_column key value df) l) as (df2 & l2 & E2 & C2).
      exists df2, l2. split; [exact E2|]. now rewrite C2, set_column_columns.
    + destruct (existsb (str_eqb key) original_categorical_cols).
      * destruct (has_column (dummy_col_name format_float key value) df) eqn:Hd.
        -- unfold bind at 1. unfold ret at 1.
           destruct (IH (set_column (dummy_col_name format_float key value) (VInt 1) df) l)
             as (df2 & l2 & E2 & C2).
           exists df2, l2. split; [exact E2|]. now rewrite C2, set_column_columns.
        -- unfold bind at 1. unfold bind at 1. unfold logger at 1. unfold ret at 1.
           apply IH.
      * unfold bind at 1. unfold bind at 1. unfold logger at 1. unfold ret at 1.
        apply IH.
Qed.

Lemma filter_column_absent (c : pystr) (df : Frame) :
  ~ In c (columns df) -> filter (fun cv => str_eqb c (fst cv)) df = [].
Proof.
  induction df as [|[n v] d IH]; cbn; [reflexivity|].
  intros H. rewrite str_eqb_neq by (intros ->; apply H; now left).
  apply IH. intros Hin. apply H. now right.
Qed.

Lemma no_label_missing (df : Frame) (labels : list pystr) :
  (forall x, In x labels -> In x (columns df)) ->
  filter (fun lb => negb (has_column lb df)) labels = [].
Proof.
  induction labels as [|x ls IH]; intros H; cbn; [reflexivity|].
  assert (Hx : has_column x df = true) by (apply has_column_In, H; now left).
  rewrite Hx. cbn. apply IH. intros y Hy. apply H. now right.
Qed.

Lemma flat_map_other_columns (n : pystr) (v : pyval) (d : Frame) (labels : list pystr) :
  ~ In n labels ->
  flat_map (fun lb => filter (fun cv => str_eqb lb (fst cv)) ((n, v) :: d)) labels
  = flat_map (fun lb => filter (fun cv => str_eqb lb (fst cv)) d) labels.
Proof.
  induction labels as [|x ls IH]; intros Hx; cbn; [reflexivity|].
  rewrite str_eqb_neq by (intros ->; apply Hx; now left).
  f_equal. apply IH. intros H. apply Hx. now right.
Qed.

Lemma flat_map_own_columns (df : Frame) :
  NoDup (columns df) ->
  flat_map (fun lb => filter (fun cv => str_eqb lb (fst cv)) df) (columns df) = df.
Proof.
  induction df as [|[n v] d IH]; intros Hnd; [reflexivity|].
  cbn in Hnd. inversion Hnd as [|? ? Hn Hd]; subst.
  cbn [columns map fst flat_map].
  rewrite flat_map_other_columns by exact Hn.
  cbn [filter fst]. rewrite str_eqb_refl.
  rewrite (filter_column_absent n d Hn). cbn [app]. f_equal.
  now apply IH.
Qed.

(** A frame whose column names do not repeat, asked for its own columns, is
    returned as it is. *)
Lemma select_own_columns (df : Frame) :
  NoDup (columns df) -> select key_error_text (columns df) df = Ok df.
Proof.
  intros Hnd. unfold select.
  rewrite no_label_missing by auto.
  now rewrite flat_map_own_columns.
Qed.

Lemma new_frame_columns (model_columns : list pystr) :
  columns (new_frame model_columns) = model_columns.
Proof.
  unfold columns, new_frame. rewrite map_map. cbn. apply map_id.
Qed.

Lemma new_frame_cell (model_columns : list pystr) (c : pystr) :
  In c model_columns -> cell c (new_frame model_columns) = Some (VInt 0).
Proof.
  induction model_columns as [|n cs IH]; cbn; [intros []|].
  intros [->|H]; [now rewrite str_eqb_refl|].
  destruct (str_eqb c n); [reflexivity | now apply IH].
Qed.

(** X14: for model columns that do not repeat, [prepare_input] raises
    nothing and returns a frame whose columns are exactly the model columns,
    in their order, whatever the specification holds; so the test of
    [predict_price] rejects the frame only when the model has no column at
    all. *)
Theorem prepare_input_has_the_model_columns
        (user_input_dict : list (pystr * pyval)) (model_columns : list pystr)
        (l : list LogRecord) :
  NoDup model_columns ->
  exists df l',
    prepare_input format_float key_error_text original_categorical_cols
                  user_input_dict model_columns l = (Ok df, l')
    /\ columns df = model_columns
    /\ input_rejected df model_columns
       = match model_columns with [] => true | _ :: _ => false end.
Proof.
  intros Hnd. unfold prepare_input.
  destruct (prepare_items_columns user_input_dict (new_frame model_columns) l)
    as (df & l1 & E & C).
  rewrite new_frame_columns in C.
  rewrite (bind_Ok _ _ _ _ _ E).
  assert (S : select key_error_text model_columns df = Ok df).
  { rewrite <- C at 1. apply select_own_columns. now rewrite C. }
  unfold bind at 1. unfold lift at 1. rewrite S.
  eexists. eexists. split; [reflexivity|]. split; [exact C|].
  unfold input_rejected.
  assert (Hl : length df = length model_columns)
    by (rewrite <- C; unfold columns; now rewrite length_map).
  rewrite Hl, Nat.eqb_refl. cbn. destruct model_columns; reflexivity.
Qed.

Lemma fold_cell_after_untouched (model_columns : list pystr) (c : pystr)
      (items : list (pystr * pyval)) (cur : pyval) :
  (forall item, In item items ->
     fst item <> c
     /\ sets_dummy format_float original_categorical_cols model_columns c item = false) ->
  fold_left (cell_after format_float original_categorical_cols model_columns c) items cur
  = cur.
Proof.
  revert cur. induction items as [|item rest IH]; intros cur H; [reflexivity|].
  cbn [fold_left]. destruct (H item (or_introl eq_refl)) as [Hk Hd].
  unfold cell_after at 2. rewrite str_eqb_neq, Hd by assumption.
  apply IH. intros it Hit. apply H. now right.
Qed.

Lemma fold_cell_after_dummy (model_columns : list pystr) (c : pystr)
      (items : list (pystr * pyval)) (cur : pyval) :
  (forall item, In item items -> fst item <> c) ->
  fold_left (cell_after format_float original_categorical_cols model_columns c) items cur
  = if existsb (sets_dummy format_float original_categorical_cols model_columns c) items
    then VInt 1 else cur.
Proof.
  revert cur. induction items as [|item rest IH]; intros cur H; [reflexivity|].
  cbn [fold_left existsb].
  assert (Hr : forall it, In it rest -> fst it <> c) by (intros it Hit; apply H; now right).
  rewrite IH by assumption. unfold cell_after.
  rewrite str_eqb_neq by (apply H; now left).
  destruct (sets_dummy format_float original_categorical_cols model_columns c item);
    cbn; destruct (existsb _ rest); reflexivity.
Qed.

(** X15: the cells of the prepared frame, for model columns that do not
    repeat. A column that no item of the specification names and no
    categorical item encodes is 0; a column no item names and some
    categorical item encodes ([key_value] is its name) is 1; and a column an
    item names holds that item's value, when the keys do not repeat and no
    categorical item encodes the column. *)
Theorem prepare_input_cells
        (user_input_dict : list (pystr * pyval)) (model_columns : list pystr)
        (l l' : list LogRecord) (df : Frame) (c : pystr) :
  NoDup model_columns ->
  In c model_columns ->
  prepare_input format_float key_error_text original_categorical_cols
                user_input_dict model_columns l = (Ok df, l') ->
  ((forall item, In item user_input_dict -> fst item <> c) ->
   cell c df
   = Some (if existsb (sets_dummy format_float original_categorical_cols model_columns c)
                      user_input_dict
           then VInt 1 else VInt 0))
  /\ (forall value,
        In (c, value) user_input_dict ->
        NoDup (map fst user_input_dict) ->
        (forall item, In item user_input_dict ->
           sets_dummy format_float original_categorical_cols model_columns c item = false) ->
        cell c df = Some value).
Proof.
  intros Hnd Hc E. unfold prepare_input in E.
  assert (Hc0 : In c (columns (new_frame model_columns)))
    by now rewrite new_frame_columns.
  destruct (prepare_items_spec user_input_dict (new_frame model_columns) l c (VInt 0)
              Hc0 (new_frame_cell model_columns c Hc)) as (df1 & l1 & E1 & C1 & V1).
  rewrite new_frame_columns in C1, V1.
  rewrite (bind_Ok _ _ _ _ _ E1) in E.
  assert (S : select key_error_text model_columns df1 = Ok df1).
  { rewrite <- C1 at 1. apply select_own_columns. now rewrite C1. }
  unfold bind at 1 in E. unfold lift at 1 in E. rewrite S in E.
  unfold bind, logger, ret in E. assert (df = df1) by congruence. subst df1.
  clear E S. split.
  - intros Hk. rewrite V1. f_equal. now apply fold_cell_after_dummy.
  - intros value Hin Hkeys Hno. rewrite V1. f_equal.
    destruct (in_split _ _ Hin) as (pre & post & ->).
    rewrite fold_left_app. cbn [fold_left].
    unfold cell_after at 2. cbn [fst snd]. rewrite str_eqb_refl.
    apply fold_cell_after_untouched. intros item Hit. split.
    + rewrite map_app in Hkeys. cbn in Hkeys.
      apply NoDup_remove_2 in Hkeys. intros Heq. apply Hkeys.
      apply in_or_app. right. rewrite <- Heq. now apply in_map.
    + apply Hno. apply in_or_app. right. now right.
Qed.

End PrepareInputFacts.

(** The small model: columns that do not repeat. *)
Lemma example_columns_NoDup : NoDup example_columns.
Proof.
  unfold example_columns.
  repeat (constructor; [cbn; intros H; repeat destruct H as [H|H]; try discriminate H; exact H|]).
  constructor.
Qed.

(** The specification for the small model: four columns, accepted. *)
Lemma prepare_input_columns_witness :
  NoDup example_columns
  /\ exists df l',
       prepare_input (fun _ => []) (fun _ => []) [str "fuel"] example_input
                     example_columns [] = (Ok df, l')
       /\ columns df = example_columns
       /\ input_rejected df example_columns = false.
Proof.
  split; [exact example_columns_NoDup|].
  exact (prepare_input_has_the_model_columns (fun _ => []) (fun _ => []) [str "fuel"]
           example_input example_columns [] example_columns_NoDup).
Defined.

(** In the small model the fuel of the specification sets its one-hot
    column. *)
Lemma prepare_input_cells_witness :
  NoDup example_columns
  /\ In (str "fuel_Dyzelinas") example_columns
  /\ exists df l',
       prepare_input (fun _ => []) (fun _ => []) [str "fuel"] example_input
                     example_columns [] = (Ok df, l')
       /\ cell (str "fuel_Dyzelinas") df = Some (VInt 1).
Proof.
  assert (Hin : In (str "fuel_Dyzelinas") example_columns)
    by (cbn; do 3 right; now left).
  split; [exact example_columns_NoDup|]. split; [exact Hin|].
  eexists. eexists. split; [reflexivity|].
  refine (proj1 (prepare_input_cells (fun _ => []) (fun _ => []) [str "fuel"]
                   example_input example_columns [] _ _ (str "fuel_Dyzelinas")
                   example_columns_NoDup Hin eq_refl) _).
  intros item H. cbn in H.
  repeat destruct H as [H|H]; try (subst item; cbn; discriminate); contradiction.
Defined.

(* ================================================================= *)
(** ** The mileage and the case of its letters *)

Lemma ascii_lower_is_ascii (c : N) : is_ascii c = true -> is_ascii (ascii_lower c) = true.
Proof.
  unfold is_ascii, ascii_lower. intros H. apply N.ltb_lt in H.
  destruct (N.leb 65 c && N.leb c 90) eqn:E; [|now apply N.ltb_lt].
  apply andb_true_iff in E as [_ E2]. apply N.leb_le in E2. apply N.ltb_lt. lia.
Qed.

Lemma ascii_lower_idempotent (c : N) : ascii_lower (ascii_lower c) = ascii_lower c.
Proof.
  unfold ascii_lower.
  destruct (N.leb 65 c && N.leb c 90) eqn:E; [|now rewrite E].
  apply andb_true_iff in E as [E1 E2]. apply N.leb_le in E1, E2.
  destruct (N.leb 65 (c + 32) && N.leb (c + 32) 90) eqn:E'; [|reflexivity].
  apply andb_true_iff in E' as [_ E3]. apply N.leb_le in E3. lia.
Qed.

Lemma lower_ascii {RT : PyRuntime} (s : pystr) :
  forallb is_ascii s = true ->
  lower s = map ascii_lower s /\ lower (map ascii_lower s) = map ascii_lower s.
Proof.
  intros H. unfold lower. rewrite H. split; [reflexivity|].
  assert (H2 : forallb is_ascii (map ascii_lower s) = true).
  { rewrite forallb_forall in *. intros x Hx. apply in_map_iff in Hx as (y & <- & Hy).
    apply ascii_lower_is_ascii. now apply H. }
  rewrite H2, map_map. apply map_ext. intros c. apply ascii_lower_idempotent.
Qed.

(** X16: for a mileage text in ASCII the mileage does not depend on the case
    of its letters: the text and its lower-case form give the same value
    ("208 500 KM" as "208 500 km"). *)
Theorem mileage_ignores_case {RT : PyRuntime}
        (id mileage_text : pystr) (l : list LogRecord) :
  forallb is_ascii mileage_text = true ->
  fst (parse_mileage id mileage_text l)
  = fst (parse_mileage id (map ascii_lower mileage_text) l).
Proof.
  intros H. destruct (lower_ascii mileage_text H) as [E1 E2].
  unfold parse_mileage. rewrite E1, E2.
  destruct (contains (str " km") (map ascii_lower mileage_text)); [|reflexivity].
  rewrite !try_conv by apply py_int_raises. reflexivity.
Qed.

(** The mileage in capitals. *)
Lemma mileage_ignores_case_witness :
  forallb is_ascii (str "208 500 KM") = true
  /\ fst (@parse_mileage ascii_runtime (str "12345") (str "208 500 KM") [])
     = Ok (Some 208500%Z).
Proof.
  split; [reflexivity|].
  rewrite (@mileage_ignores_case ascii_runtime (str "12345") (str "208 500 KM") [] eq_refl).
  reflexivity.
Defined.

(* ================================================================= *)
(** ** From the scraper to the queries *)

(** X17: after a run over a table of scraped rows (an empty table, or one
    that earlier runs filled), every stored row is returned by
    [get_cars_by_make] for exactly one make, and that make is among the makes
    [get_all_car_makes] lists: going through the listed makes meets every
    row once. *)
Theorem every_scraped_row_is_reached {RT : PyRuntime} {World : Type}
        (driver_get : World -> pystr -> World * (pystr + Node))
        (pages_per_brand start_page : Z)
        (car_brands : list pystr) (st : State World) (row : car) :
  Forall scraped_row (db st) ->
  In row (db (scrape_autoplius driver_get pages_per_brand start_page car_brands st)) ->
  let t := db (scrape_autoplius driver_get pages_per_brand start_page car_brands st) in
  exists m,
    make row = Some m
    /\ In m (get_all_car_makes t)
    /\ In row (fst (get_cars_by_make (Some m) t))
    /\ forall m', In row (fst (get_cars_by_make m' t)) -> m' = Some m.
Proof.
  intros Hold Hin. cbv zeta.
  set (t := db (scrape_autoplius driver_get pages_per_brand start_page car_brands st)) in *.
  assert (Hext : db_extends (db st) t).
  { apply scrape_autoplius_related.
    - apply db_extends_refl.
    - apply db_extends_trans.
    - apply db_extends_insert. }
  destruct Hext as (added & Et & Hadd).
  assert (Hrow : scraped_row row).
  { rewrite Et in Hin. apply in_app_or in Hin as [H|H].
    - rewrite Forall_forall in Hold. now apply Hold.
    - rewrite Forall_forall in Hadd. now apply Hadd. }
  destruct Hrow as [_ Hm]. destruct (make row) as [m|] eqn:Em; [|congruence].
  exists m. split; [reflexivity|].
  assert (Hq : In row (fst (get_cars_by_make (Some m) t))).
  { unfold get_cars_by_make. cbn [fst]. apply filter_In. split; [assumption|].
    now apply make_is_spec. }
  split; [|split; [exact Hq|]].
  - unfold get_all_car_makes. apply distinct_go_In. split; [|intros []].
    apply in_flat_map. exists row. split; [assumption|]. rewrite Em. now left.
  - intros m' H. unfold get_cars_by_make in H. cbn [fst] in H.
    apply filter_In in H as [_ H]. destruct m' as [m'|]; [|discriminate H].
    apply make_is_spec in H. congruence.
Qed.

(** A run over a site that shows one listing. *)
Lemma every_scraped_row_witness :
  Forall scraped_row (db initial_state)
  /\ In titled_record
        (db (@scrape_autoplius ascii_runtime unit site_with_listing 1%Z 1%Z
               [str "bmw"] initial_state))
  /\ exists m,
       make titled_record = Some m
       /\ In m (get_all_car_makes
                  (db (@scrape_autoplius ascii_runtime unit site_with_listing 1%Z 1%Z
                         [str "bmw"] initial_state))).
Proof.
  assert (H0 : Forall scraped_row (db initial_state)) by constructor.
  assert (H1 : In titled_record
                  (db (@scrape_autoplius ascii_runtime unit site_with_listing 1%Z 1%Z
                         [str "bmw"] initial_state)))
    by (vm_compute; left; reflexivity).
  split; [exact H0|]. split; [exact H1|].
  destruct (@every_scraped_row_is_reached ascii_runtime unit site_with_listing 1%Z 1%Z
              [str "bmw"] initial_state titled_record H0 H1) as (m & Hm & Hl & _).
  exists m. split; assumption.
Defined.

(* ================================================================= *)
(** ** Ascending lists without repetition *)

Lemma str_ltb_irrefl (a : pystr) : str_ltb a a = false.
Proof.
  induction a as [|x a IH]; cbn; [reflexivity|].
  now rewrite N.ltb_irrefl, N.eqb_refl.
Qed.

Lemma str_lt_trans (a b c : pystr) : str_lt a b -> str_lt b c -> str_lt a c.
Proof.
  unfold str_lt. revert b c. induction a as [|x a IH]; intros [|y b] [|z c]; cbn;
    try congruence.
  destruct (N.ltb_spec x y), (N.ltb_spec y z), (N.ltb_spec x z); try lia;
    try congruence;
    destruct (N.eqb_spec x y), (N.eqb_spec y z), (N.eqb_spec x z); try lia;
    try congruence.
  apply IH.
Qed.

Lemma str_ltb_total (a b : pystr) :
  str_ltb a b = false -> str_eqb a b = false -> str_ltb b a = true.
Proof.
  revert b. induction a as [|x a IH]; intros [|y b]; cbn; try congruence.
  unfold chr_eqb.
  destruct (N.ltb_spec x y), (N.ltb_spec y x), (N.eqb_spec x y), (N.eqb_spec y x);
    try lia; try congruence; cbn.
  apply IH.
Qed.

Lemma insert_sorted_In (x z : pystr) (l : list pystr) :
  In z (insert_sorted x l) <-> z = x \/ In z l.
Proof.
  induction l as [|y r IH]; cbn.
  - intuition congruence.
  - destruct (str_ltb x y); [cbn; intuition congruence|].
    destruct (str_eqb x y) eqn:E.
    + apply str_eqb_eq in E. subst y. cbn. intuition congruence.
    + cbn. rewrite IH. intuition congruence.
Qed.

Lemma insert_sorted_ascending (x : pystr) (l : list pystr) :
  ascending l -> ascending (insert_sorted x l).
Proof.
  induction l as [|y r IH]; cbn; [intros _; split; [constructor | exact I]|].
  intros [Hy Hr].
  destruct (str_ltb x y) eqn:Hxy.
  - cbn. split; [|split; assumption].
    constructor; [exact Hxy|].
    rewrite Forall_forall in *. intros z Hz. eapply str_lt_trans; [exact Hxy|]. now apply Hy.
  - destruct (str_eqb x y) eqn:E; [cbn; now split|].
    cbn. split; [|now apply IH].
    rewrite Forall_forall in *. intros z Hz. apply insert_sorted_In in Hz as [->|Hz].
    + now apply str_ltb_total.
    + now apply Hy.
Qed.

Lemma sorted_set_In (l : list pystr) (z : pystr) : In z (sorted_set l) <-> In z l.
Proof.
  unfold sorted_set. induction l as [|x l IH]; cbn; [tauto|].
  rewrite insert_sorted_In, IH. intuition congruence.
Qed.

Lemma sorted_set_ascending (l : list pystr) : ascending (sorted_set l).
Proof.
  unfold sorted_set. induction l as [|x l IH]; cbn; [exact I|].
  now apply insert_sorted_ascending.
Qed.

Lemma ascending_NoDup (l : list pystr) : ascending l -> NoDup l.
Proof.
  induction l as [|x r IH]; cbn; [constructor|]. intros [Hx Hr].
  constructor; [|now apply IH].
  intros Hin. rewrite Forall_forall in Hx. specialize (Hx x Hin).
  unfold str_lt in Hx. now rewrite str_ltb_irrefl in Hx.
Qed.

(* ================================================================= *)
(** ** The names of the model files *)

Lemma starts_with_app (p q : pystr) : starts_with p (p ++ q) = true.
Proof.
  induction p as [|x p IH]; cbn; [reflexivity|].
  unfold chr_eqb. now rewrite N.eqb_refl.
Qed.

Lemma ends_with_model_file (make_name : pystr) :
  ends_with model_suffix (model_file make_name) = true.
Proof.
  unfold ends_with, model_file. rewrite rev_app_distr. apply starts_with_app.
Qed.

(** The suffix occurs in a text followed by the suffix only at its end or
    within the text: no end of the suffix is a beginning of it. *)
Lemma model_suffix_overlap (x : pystr) :
  starts_with model_suffix (x ++ model_suffix) = true ->
  x = [] \/ starts_with model_suffix x = true.
Proof.
  destruct x as [|x0 [|x1 [|x2 [|x3 [|x4 [|x5 [|x6 [|x7 [|x8 [|x9 r]]]]]]]]]];
    [now left | | | | | | | | | |];
    intros H; right; cbn in H |- *;
    try exact H;
    repeat (apply andb_true_iff in H; destruct H as [? H]);
    try discriminate.
Qed.

Lemma contains_cons (sub : pystr) (c : N) (s : pystr) :
  contains sub (c :: s) = starts_with sub (c :: s) || contains sub s.
Proof. reflexivity. Qed.

Lemma split_go_no_match (sep : pystr) (c : N) (s : pystr) :
  starts_with sep (c :: s) = false ->
  fst (split_go sep None 0 (c :: s)) = c :: fst (split_go sep None 0 s).
Proof.
  intros H. cbn [split_go]. rewrite H. cbn [andb].
  destruct (split_go sep None 0 s). reflexivity.
Qed.

(** The dashboard reads back the make a model was saved under, when the make
    does not hold the suffix itself. *)
Lemma make_of_model_file (make_name : pystr) :
  contains model_suffix make_name = false ->
  make_of_file (model_file make_name) = [make_name].
Proof.
  intros H. unfold make_of_file. rewrite ends_with_model_file. f_equal.
  unfold model_file. induction make_name as [|c m IH]; [reflexivity|].
  rewrite contains_cons in H. apply orb_false_iff in H as [H1 H2].
  change ((c :: m) ++ model_suffix) with (c :: (m ++ model_suffix)).
  rewrite split_go_no_match.
  - f_equal. now apply IH.
  - destruct (starts_with model_suffix (c :: m ++ model_suffix)) eqn:E; [|reflexivity].
    change (c :: m ++ model_suffix) with ((c :: m) ++ model_suffix) in E.
    apply model_suffix_overlap in E as [E|E]; congruence.
Qed.

(** X18: the dashboard finds the models that the training saved. When the
    files of the directory that end in "_model.pkl" are the files of the
    trained makes (at least one), and no make holds "_model.pkl" itself,
    [get_available_makes] shows no error and lists exactly these makes, each
    once, ascending. *)
Theorem get_available_makes_reads_back_the_trained
        (trained filenames : list pystr) :
  trained <> [] ->
  (forall m, In m trained -> contains model_suffix m = false) ->
  (forall m, In m trained -> In (model_file m) filenames) ->
  (forall f, In f filenames -> ends_with model_suffix f = true ->
             exists m, In m trained /\ f = model_file m) ->
  snd (get_available_makes (Some filenames)) = []
  /\ (forall m, In m (fst (get_available_makes (Some filenames))) <-> In m trained)
  /\ ascending (fst (get_available_makes (Some filenames)))
  /\ NoDup (fst (get_available_makes (Some filenames))).
Proof.
  intros Hne Hclean Hsaved Honly.
  assert (Hmem : forall m, In m (sorted_set (flat_map make_of_file filenames))
                           <-> In m trained).
  { intros m. rewrite sorted_set_In, in_flat_map. split.
    - intros (f & Hf & Hm). unfold make_of_file in Hm.
      destruct (ends_with model_suffix f) eqn:E; [|contradiction].
      destruct (Honly f Hf E) as (m0 & Hm0 & ->).
      pose proof (make_of_model_file m0 (Hclean m0 Hm0)) as R.
      unfold make_of_file in R. rewrite E in R. rewrite R in Hm.
      destruct Hm as [<-|[]]. exact Hm0.
    - intros Hm. exists (model_file m). split; [now apply Hsaved|].
      rewrite make_of_model_file by now apply Hclean. now left. }
  pose proof (sorted_set_ascending (flat_map make_of_file filenames)) as Hasc.
  unfold get_available_makes.
  destruct (sorted_set (flat_map make_of_file filenames)) as [|m0 rest] eqn:E.
  - exfalso. destruct trained as [|m ms]; [congruence|].
    apply (proj2 (Hmem m)). now left.
  - cbn [fst snd]. split; [reflexivity|]. split; [exact Hmem|].
    split; [exact Hasc | now apply ascending_NoDup].
Qed.

(** Two models and a file that is none. *)
Lemma get_available_makes_witness :
  fst (get_available_makes
         (Some [str "BMW_model.pkl"; str "notes.txt"; str "Audi_model.pkl"]))
  = [str "Audi"; str "BMW"]
  /\ forall m,
       In m (fst (get_available_makes
                    (Some [str "BMW_model.pkl"; str "notes.txt"; str "Audi_model.pkl"])))
       <-> In m [str "BMW"; str "Audi"].
Proof.
  split; [reflexivity|].
  refine (proj1 (proj2 (get_available_makes_reads_back_the_trained
                          [str "BMW"; str "Audi"]
                          [str "BMW_model.pkl"; str "notes.txt"; str "Audi_model.pkl"]
                          _ _ _ _))).
  - discriminate.
  - intros m [<-|[<-|[]]]; reflexivity.
  - intros m [<-|[<-|[]]]; cbn; auto.
  - intros f [<-|[<-|[<-|[]]]] H.
    + exists (str "BMW"). split; [now left | reflexivity].
    + discriminate H.
    + exists (str "Audi"). split; [right; now left | reflexivity].
Defined.

(* ================================================================= *)
(** ** The values the dashboard offers *)

Lemma sorted_values_offered (col : car -> option pystr) (m : option pystr) (t : Table) :
  offers col (sorted_set (column_values col (fst (get_cars_by_make m t)))) m t.
Proof.
  unfold offers. split; [|split].
  - intros v. rewrite sorted_set_In. unfold column_values. rewrite in_flat_map.
    split; intros (row & Hin & Hv); exists row; split; try assumption.
    + destruct (col row) as [w|]; [|contradiction]. destruct Hv as [->|[]]. reflexivity.
    + rewrite Hv. now left.
  - apply sorted_set_ascending.
  - apply ascending_NoDup, sorted_set_ascending.
Qed.

Lemma same_make_refl (m : option pystr) : same_make m m = true.
Proof. destruct m as [x|]; [apply str_eqb_refl | reflexivity]. Qed.

(** The four lists of a dictionary built by the body. *)
Lemma features_get_built (a b c d : list pystr) :
  let dict := [(str "model", a); (str "body_type", b); (str "fuel", c);
               (str "gearbox", d)] in
  features_get (str "model") dict = a
  /\ features_get (str "body_type") dict = b
  /\ features_get (str "fuel") dict = c
  /\ features_get (str "gearbox") dict = d.
Proof. cbv zeta. repeat split. Qed.

(** X19: the first call of [get_features_for_make] for a make (nothing
    stored for it by [st.cache_data]) runs the body. With the table at hand
    and a make that can be bound, no error is shown and the choices offered
    for model, body type, fuel and gearbox are exactly the values that the
    stored rows of the make hold in that column (NULL apart), each once and
    ascending. When the query raises, the answer is the empty dictionary and
    the error is shown. Either way the answer is stored: every later call for
    the make returns it, whatever the table holds by then. *)
Theorem get_features_for_make_offers_stored_values
        (m : option pystr) (cache : Cache) (database : option Table) :
  cache_lookup m cache = None ->
  let answer := fst (get_features_for_make m cache database) in
  let cache' := snd (get_features_for_make m cache database) in
  (forall t,
     database = Some t ->
     bind_text m = Ok m ->
     snd answer = []
     /\ offers model (features_get (str "model") (fst answer)) m t
     /\ offers body_type (features_get (str "body_type") (fst answer)) m t
     /\ offers fuel (features_get (str "fuel") (fst answer)) m t
     /\ offers gearbox (features_get (str "gearbox") (fst answer)) m t)
  /\ (forall e,
        call_get_cars_by_make m database = Raise e ->
        answer = ([], [features_failed_message m e]))
  /\ (forall database', get_features_for_make m cache' database' = (answer, cache')).
Proof.
  intros Hmiss. cbv zeta. unfold get_features_for_make.
  rewrite Hmiss. cbn [fst snd]. split; [|split].
  - intros t -> Hb. unfold load_features, call_get_cars_by_make.
    rewrite Hb. cbn [and_then get_cars_by_make fst snd].
    change (existsb (str_eqb (str "model")) cars_columns) with true.
    change (existsb (str_eqb (str "body_type")) cars_columns) with true.
    change (existsb (str_eqb (str "fuel")) cars_columns) with true.
    change (existsb (str_eqb (str "gearbox")) cars_columns) with true.
    unfold feature_values.
    change (existsb (str_eqb (str "model")) cars_columns) with true.
    change (existsb (str_eqb (str "body_type")) cars_columns) with true.
    change (existsb (str_eqb (str "fuel")) cars_columns) with true.
    change (existsb (str_eqb (str "gearbox")) cars_columns) with true.
    cbv iota.
    match goal with
    | |- context [features_get _ [(_, ?a); (_, ?b); (_, ?c); (_, ?d)]] =>
        destruct (features_get_built a b c d) as (-> & -> & -> & ->)
    end.
    split; [reflexivity|].
    repeat split; apply (sorted_values_offered _ m t).
  - intros e He. unfold load_features. now rewrite He.
  - intros database'. cbn [cache_lookup]. now rewrite same_make_refl.
Qed.

(** The first call for BMW reads the table; the call after it is answered
    from the store, although the table is gone. *)
Lemma get_features_for_make_witness :
  snd (fst (get_features_for_make (Some (str "BMW")) []
              (Some [car_of (str "12345") 15000]))) = []
  /\ get_features_for_make (Some (str "BMW"))
       (snd (get_features_for_make (Some (str "BMW")) []
               (Some [car_of (str "12345") 15000])))
       None
     = (fst (get_features_for_make (Some (str "BMW")) []
               (Some [car_of (str "12345") 15000])),
        snd (get_features_for_make (Some (str "BMW")) []
               (Some [car_of (str "12345") 15000]))).
Proof.
  pose proof (get_features_for_make_offers_stored_values
                (Some (str "BMW")) [] (Some [car_of (str "12345") 15000]) eq_refl)
    as (H1 & _ & H3).
  split.
  - exact (proj1 (H1 _ eq_refl eq_refl)).
  - exact (H3 None).
Defined.
